(** * Amazon Personalize POC notebooks: polling, lookup and event-logging helpers

    A shallow embedding of the Python helper code found in the notebook
    cells (completion predicates, ARN look-ups, the session-keyed event
    logger, the campaign wait loop) together with a model of
    [util.progress.polling_spinner], and the properties stated about them. *)

From Stdlib Require Import ZArith Lia Ascii DecimalString HexadecimalString.
From Stdlib Require DecimalPos DecimalZ.
From stdpp Require Import base option list strings gmap.

Set Warnings "-register-all".

Open Scope string_scope.
Open Scope Z_scope.

(* ===================================================================== *)
(** ** Python values, exceptions and the operations the cells use         *)
(* ===================================================================== *)

Module Py.

(** JSON-like values as boto3 returns them. A dict keeps its items in
    insertion order (Python 3.7+), which [repr] shows, so it is an
    association list. *)
Inductive pyval : Type :=
| PNone
| PBool (b : bool)
| PInt (z : Z)
| PStr (s : string)
| PList (l : list pyval)
| PDict (d : list (string * pyval)).

(** Exceptions. A [ValueError] built from an f-string keeps the literal
    text and the values interpolated after it. *)
Inductive pyexn : Type :=
| KeyError (k : string)
| TypeError (msg : string)
| ValueError (msg : string) (shown : list pyval)
| StopIteration
| ClientError (code : string).   (* botocore: a failed service call *)

Inductive pyresult (A : Type) : Type :=
| Ret (a : A)
| Raise (e : pyexn).
Arguments Ret {A} a.
Arguments Raise {A} e.

Definition bind {A B} (m : pyresult A) (k : A -> pyresult B) : pyresult B :=
  match m with
  | Ret a => k a
  | Raise e => Raise e
  end.

Definition is_raise {A} (m : pyresult A) : bool :=
  match m with Ret _ => false | Raise _ => true end.

(** The line-feed character of ["\n"]. *)
Definition nl : string := String (Ascii.ascii_of_nat 10) "".

(** [d.get]-free subscript [v[k]]: only dicts are subscripted by a
    string key at these call sites. *)
Fixpoint assoc (k : string) (d : list (string * pyval)) : option pyval :=
  match d with
  | [] => None
  | (k', v) :: d' => if String.eqb k' k then Some v else assoc k d'
  end.

(** [type(v).__name__], as the interpreter's messages show it. *)
Definition type_name (v : pyval) : string :=
  match v with
  | PNone => "NoneType"
  | PBool _ => "bool"
  | PInt _ => "int"
  | PStr _ => "str"
  | PList _ => "list"
  | PDict _ => "dict"
  end.

Definition getitem (v : pyval) (k : string) : pyresult pyval :=
  match v with
  | PDict d =>
      match assoc k d with
      | Some x => Ret x
      | None => Raise (KeyError k)
      end
  | PList _ => Raise (TypeError "list indices must be integers or slices, not str")
  | PStr _ => Raise (TypeError "string indices must be integers, not 'str'")
  | _ => Raise (TypeError ("'" +:+ type_name v +:+ "' object is not subscriptable"))
  end.

(** [v == "literal"]: comparing against a [str] is true only for an
    equal [str]. *)
Definition eq_str (v : pyval) (s : string) : bool :=
  match v with
  | PStr s' => String.eqb s' s
  | _ => false
  end.

(** [needle in hay] on [str]: substring search. *)
Fixpoint str_in (needle hay : string) : bool :=
  String.prefix needle hay
  || match hay with
     | EmptyString => false
     | String _ hay' => str_in needle hay'
     end.

(** ["literal" in v]: substring for [str], membership for a list, key
    membership for a dict, [TypeError] for the rest. *)
Definition contains (needle : string) (v : pyval) : pyresult bool :=
  match v with
  | PStr s => Ret (str_in needle s)
  | PList l => Ret (existsb (fun x => eq_str x needle) l)
  | PDict d => Ret (existsb (fun kv => String.eqb (fst kv) needle) d)
  | _ => Raise (TypeError ("argument of type '" +:+ type_name v +:+ "' is not iterable"))
  end.

(** Truth value testing. *)
Definition truthy (v : pyval) : bool :=
  match v with
  | PNone => false
  | PBool b => b
  | PInt z => negb (z =? 0)
  | PStr s => negb (String.eqb s "")
  | PList l => negb (Nat.eqb (length l) 0%nat)
  | PDict d => negb (Nat.eqb (length d) 0%nat)
  end.

(** [str(n)] for an [int]. *)
Definition str_of_Z (z : Z) : string :=
  DecimalString.NilZero.string_of_int (Z.to_int z).
Definition str_of_nat (n : nat) : string := str_of_Z (Z.of_nat n).

(** [sep.join(parts)]. *)
Fixpoint join (sep : string) (parts : list string) : string :=
  match parts with
  | [] => ""
  | [p] => p
  | p :: ps => p +:+ sep +:+ join sep ps
  end.

(** [l.remove(x)]: drops the first item equal to [x]; [ValueError] when
    there is none. *)
Fixpoint list_remove (x : string) (l : list string) : option (list string) :=
  match l with
  | [] => None
  | y :: l' =>
      if String.eqb y x then Some l'
      else option_map (cons y) (list_remove x l')
  end.

End Py.
Import Py.

Notation "'let*' x ':=' m 'in' k" := (Py.bind m (fun x => k))
  (at level 10, x name, m at level 100, k at level 200).

(* ===================================================================== *)
(** ** Completion predicates of the single-job cells                      *)
(* ===================================================================== *)

(** [02b_Importing_Data]: wait for the dataset group. *)
Definition is_dsg_ready (desc : pyval) : pyresult pyval :=
  let* grp := getitem desc "datasetGroup" in
  let* status := getitem grp "status" in
  if eq_str status "ACTIVE" then Ret (PBool true)
  else
    let* failed := contains "FAILED" status in
    if failed : bool
    then Raise (ValueError ("Failed to create Dataset Group!" +:+ nl) [desc])
    else Ret PNone.

(** [02b_Importing_Data]: wait for a dataset. *)
Definition is_ds_ready (desc : pyval) : pyresult pyval :=
  let* ds := getitem desc "dataset" in
  let* status := getitem ds "status" in
  if eq_str status "ACTIVE" then Ret (PBool true)
  else
    let* failed := contains "CREATE FAILED" status in
    if failed : bool
    then Raise (ValueError ("Failed to create Dataset!" +:+ nl) [desc])
    else Ret PNone.

(** Batch-inference cell: wait for the batch job. *)
Definition is_batch_job_finished (desc : pyval) : pyresult pyval :=
  let* job := getitem desc "batchInferenceJob" in
  let* status := getitem job "status" in
  if eq_str status "ACTIVE" then Ret (PBool true)
  else
    let* failed := contains "FAILED" status in
    if failed : bool
    then Raise (ValueError ("Batch job failed!" +:+ nl) [desc])
    else Ret PNone.

(** The [describe_*] response shape these predicates read. *)
Definition describe_response (kind status : string) : pyval :=
  PDict [(kind, PDict [("status", PStr status)])].

(* ===================================================================== *)
(** ** ARN look-up by name                                                *)
(* ===================================================================== *)

(** [next(filter(pred, items))]: the first item on which [pred] is truthy;
    [StopIteration] when the filter is exhausted. An exception raised by
    [pred] on an earlier item propagates. *)
Fixpoint next_filter (pred : pyval -> pyresult bool) (items : list pyval)
  : pyresult pyval :=
  match items with
  | [] => Raise StopIteration
  | c :: rest =>
      let* hit := pred c in
      if hit : bool then Ret c else next_filter pred rest
  end.

(** [map(lambda c: c["name"], items)], which [str.join] reads to its end
    before it joins anything. *)
Fixpoint name_values (items : list pyval) : pyresult (list pyval) :=
  match items with
  | [] => Ret []
  | c :: rest =>
      let* n := getitem c "name" in
      let* ns := name_values rest in
      Ret (n :: ns)
  end.

(** [str.join] wants [str] items: the first item of another type, at
    position [i], is a [TypeError]. *)
Fixpoint str_items (i : nat) (vs : list pyval) : pyresult (list string) :=
  match vs with
  | [] => Ret []
  | PStr s :: rest => let* ns := str_items (Datatypes.S i) rest in Ret (s :: ns)
  | v :: _ =>
      Raise (TypeError ("sequence item " +:+ str_of_nat i +:+ ": expected str instance, "
                          +:+ type_name v +:+ " found"))
  end.

(** The names as [str.join] gets them. *)
Definition names_of (items : list pyval) : pyresult (list string) :=
  let* vs := name_values items in str_items 0 vs.

Definition name_is (wanted : string) (c : pyval) : pyresult bool :=
  let* n := getitem c "name" in Ret (eq_str n wanted).

(** Shared body of the two look-ups: [what] is the noun of the message,
    [arn_key] the field returned. The [try] catches [StopIteration] only. *)
Definition get_arn_by_name (what arn_key : string) (items : list pyval)
    (wanted : string) : pyresult pyval :=
  match next_filter (name_is wanted) items with
  | Ret c => getitem c arn_key
  | Raise StopIteration =>
      let* ns := names_of items in
      Raise (ValueError
               (what +:+ " '" +:+ wanted +:+ "' not found! Got:" +:+ nl +:+ "- "
                  +:+ join (nl +:+ "- ") ns) [])
  | Raise e => Raise e
  end.

(** [campaigns] is [personalize.list_campaigns()["campaigns"]]. *)
Definition get_campaign_arn_by_name (campaigns : list pyval)
    (campaign_name : string) : pyresult pyval :=
  get_arn_by_name "Campaign" "campaignArn" campaigns campaign_name.

(** [filters] is [personalize.list_filters(...)["Filters"]]. *)
Definition get_filter_arn_by_name (filters : list pyval)
    (filter_name : string) : pyresult pyval :=
  get_arn_by_name "Filter" "filterArn" filters filter_name.

(** A summary item as the service lists it. *)
Definition summary (arn_key name arn : string) : pyval :=
  PDict [("name", PStr name); (arn_key, PStr arn)].

Definition is_ValueError {A} (r : pyresult A) : Prop :=
  exists msg shown, r = Raise (ValueError msg shown).

(* ===================================================================== *)
(** ** The polling spinner                                                *)
(* ===================================================================== *)

(** What a cell can observe and change while it waits: the wall clock (in
    seconds), the lines written to the output stream (literal text plus the
    values interpolated into it), and the cell's own state [S] (notebook
    globals, the remote service). *)
Record world (S : Type) : Type := World {
  now : Z;
  stdout : list (string * list pyval);
  env : S
}.
Arguments World {S} now stdout env.
Arguments now {S} w.
Arguments stdout {S} w.
Arguments env {S} w.

(** [time.sleep(secs)] *)
Definition sleep {S} (secs : Z) (w : world S) : world S :=
  World (now w + secs) (stdout w) (env w).

(** [print(text)] with interpolated values [shown]. *)
Definition emit {S} (text : string) (shown : list pyval) (w : world S) : world S :=
  World (now w) (stdout w ++ [(text, shown)]) (env w).

Definition set_env {S} (e : S) (w : world S) : world S :=
  World (now w) (stdout w) e.

(** Modelled from the spec: the three outcomes of a completion predicate
    (section 3); the spinner's code, which would name them, is not among
    the sources. *)
Inductive outcome : Type :=
| NotYetFinished
| FinishedOk
| FatalFailure.

(** How a Python predicate signals them: a truthy return value stops with
    success, a falsy one ([None]) continues, a raised exception is the
    fatal failure (the spec has no other place for an exception of the
    predicate). *)
Definition outcome_of (r : pyresult pyval) : outcome :=
  match r with
  | Ret v => if truthy v then FinishedOk else NotYetFinished
  | Raise _ => FatalFailure
  end.

Section Spinner.

Context {S Snapshot : Type}.

(** Modelled from the spec: how a run of the spinner ends (sections 4.1
    and 7): normal return, the two errors of its own, each carrying the
    last snapshot, or the error of the status-producing operation passed
    on as it is. *)
Inductive spinner_result : Type :=
| Returned
| JobFailed (last : Snapshot)
| PollingTimedOut (last : Snapshot)
| FetchError (e : pyexn).

(** What the spinner does, in order. *)
Inductive event : Type :=
| EvPoll (r : pyresult Snapshot)
| EvClassify (s : Snapshot) (o : outcome)
| EvDisplay (s : Snapshot) (text : string)
| EvSleep (secs : Z).

(** Each event is logged with the world as it is right after it. *)
Definition entry : Type := event * world S.

Inductive verdict : Type :=
| Stop (r : spinner_result)
| Again.

Record run : Type := Run {
  result : option spinner_result;   (* [None]: still polling *)
  trace : list entry;
  final : world S
}.

Variable fn_poll_result : world S -> pyresult Snapshot * world S.
Variable fn_is_finished : Snapshot -> world S -> outcome * world S.
Variable fn_stringify_result : Snapshot -> world S -> string * world S.
Variable poll_secs : Z.
Variable timeout_secs : Z.

(** Modelled from the spec: one iteration of [util.progress.polling_spinner],
    whose code ([util/progress.py]) is not among the sources. Section 4.1:
    invoke the status-producing operation and the completion predicate; on
    success return; on fatal failure fail with [JobFailed] carrying the
    snapshot; otherwise render progress with the formatter, suspend for the
    poll interval and repeat, unless the time elapsed since the first
    invocation [t0] exceeds the timeout, which fails with [PollingTimedOut]
    carrying the snapshot. An error of the status-producing operation is
    passed on as it is. *)
Definition iteration (t0 : Z) (w : world S) : list entry * verdict * world S :=
  let '(r, w1) := fn_poll_result w in
  match r with
  | Raise e => ([(EvPoll r, w1)], Stop (FetchError e), w1)
  | Ret s =>
      let '(o, w2) := fn_is_finished s w1 in
      match o with
      | FinishedOk =>
          ([(EvPoll r, w1); (EvClassify s o, w2)], Stop Returned, w2)
      | FatalFailure =>
          ([(EvPoll r, w1); (EvClassify s o, w2)], Stop (JobFailed s), w2)
      | NotYetFinished =>
          let '(text, w3) := fn_stringify_result s w2 in
          let w4 := emit text [] w3 in
          let w5 := sleep poll_secs w4 in
          ([(EvPoll r, w1); (EvClassify s o, w2);
            (EvDisplay s text, w4); (EvSleep poll_secs, w5)],
           if timeout_secs <? now w5 - t0
           then Stop (PollingTimedOut s) else Again,
           w5)
      end
  end.

(** Modelled from the spec: the loop of [util.progress.polling_spinner];
    [fuel] bounds the number of iterations looked at. *)
Fixpoint spin (fuel : nat) (t0 : Z) (w : world S) : run :=
  match fuel with
  | O => Run None [] w
  | Datatypes.S fuel' =>
      let '(evs, v, w') := iteration t0 w in
      match v with
      | Stop r => Run (Some r) evs w'
      | Again =>
          let rest := spin fuel' t0 w' in
          Run (result rest) (evs ++ trace rest) (final rest)
      end
  end.

(** Modelled from the spec: [util.progress.polling_spinner]; the timeout is
    measured from the first invocation. *)
Definition polling_spinner (fuel : nat) (w : world S) : run :=
  spin fuel (now w) w.

(** Modelled from the spec: what lies between one invocation of the
    status-producing operation, made in the world [w], and the next one
    when its snapshot is classified "not yet finished" (section 4.1): the
    predicate, the formatter, the progress line, the suspension. This is
    the world in which the next invocation is made. *)
Definition next_fetch_world (w : world S) : world S :=
  match fn_poll_result w with
  | (Ret s, w1) =>
      let '(_, w2) := fn_is_finished s w1 in
      let '(text, w3) := fn_stringify_result s w2 in
      sleep poll_secs (emit text [] w3)
  | (Raise _, w1) => w1
  end.

(** The world in which invocation number [k] (from 0) is made, when the
    snapshots before it were all "not yet finished". *)
Fixpoint fetch_world (k : nat) (w : world S) : world S :=
  match k with
  | O => w
  | Datatypes.S k' => fetch_world k' (next_fetch_world w)
  end.

(** What the callbacks answer at invocation number [k]: what the
    status-producing operation returns or raises, and how the predicate
    classifies the snapshot. *)
Definition kth_fetch (k : nat) (w : world S) : pyresult Snapshot :=
  fst (fn_poll_result (fetch_world k w)).

Definition kth_outcome (k : nat) (w : world S) : option outcome :=
  match fn_poll_result (fetch_world k w) with
  | (Ret s, w1) => Some (fst (fn_is_finished s w1))
  | (Raise _, _) => None
  end.

(** The callbacks are scripted from [w]: the first [n] invocations return
    snapshots that the predicate classifies "not yet finished", and each
    of the [n] suspensions ends within the timeout counted from [t0]. *)
Definition not_yet_for (n : nat) (t0 : Z) (w : world S) : Prop :=
  forall k, (k < n)%nat ->
    kth_outcome k w = Some NotYetFinished
    /\ now (fetch_world (Datatypes.S k) w) - t0 <= timeout_secs.

(** Observations on a trace. *)
Definition polls (tr : list entry) : list (pyresult Snapshot) :=
  omap (fun en => match fst en with EvPoll r => Some r | _ => None end) tr.

Definition classifications (tr : list entry) : list (Snapshot * outcome) :=
  omap (fun en => match fst en with EvClassify s o => Some (s, o) | _ => None end) tr.

Definition displays (tr : list entry) : list (Snapshot * string) :=
  omap (fun en => match fst en with EvDisplay s t => Some (s, t) | _ => None end) tr.

(** Modelled from the spec: the runs of the spinner from world [w]
    (section 4.1 again, as a relation), iteration by iteration, with what
    each callback was applied to: one fetch, the predicate on the
    snapshot it returned and on the world it left, and on "not yet
    finished" the formatter on that same snapshot and on the world the
    predicate left, then the suspension. *)
Inductive iterations (t0 : Z) : world S -> list entry -> option spinner_result -> Prop :=
| iterations_pending w :
    iterations t0 w [] None
| iterations_error w e w1 :
    fn_poll_result w = (Raise e, w1) ->
    iterations t0 w [(EvPoll (Raise e), w1)] (Some (FetchError e))
| iterations_ok w s w1 w2 :
    fn_poll_result w = (Ret s, w1) ->
    fn_is_finished s w1 = (FinishedOk, w2) ->
    iterations t0 w [(EvPoll (Ret s), w1); (EvClassify s FinishedOk, w2)]
      (Some Returned)
| iterations_failed w s w1 w2 :
    fn_poll_result w = (Ret s, w1) ->
    fn_is_finished s w1 = (FatalFailure, w2) ->
    iterations t0 w [(EvPoll (Ret s), w1); (EvClassify s FatalFailure, w2)]
      (Some (JobFailed s))
| iterations_timeout w s text w1 w2 w3 :
    fn_poll_result w = (Ret s, w1) ->
    fn_is_finished s w1 = (NotYetFinished, w2) ->
    fn_stringify_result s w2 = (text, w3) ->
    timeout_secs < now (sleep poll_secs (emit text [] w3)) - t0 ->
    iterations t0 w
      [(EvPoll (Ret s), w1); (EvClassify s NotYetFinished, w2);
       (EvDisplay s text, emit text [] w3);
       (EvSleep poll_secs, sleep poll_secs (emit text [] w3))]
      (Some (PollingTimedOut s))
| iterations_again w s text w1 w2 w3 rest r :
    fn_poll_result w = (Ret s, w1) ->
    fn_is_finished s w1 = (NotYetFinished, w2) ->
    fn_stringify_result s w2 = (text, w3) ->
    now (sleep poll_secs (emit text [] w3)) - t0 <= timeout_secs ->
    iterations t0 (sleep poll_secs (emit text [] w3)) rest r ->
    iterations t0 w
      ((EvPoll (Ret s), w1) :: (EvClassify s NotYetFinished, w2)
         :: (EvDisplay s text, emit text [] w3)
         :: (EvSleep poll_secs, sleep poll_secs (emit text [] w3)) :: rest)
      r.

End Spinner.

Arguments spinner_result : clear implicits.
Arguments event : clear implicits.
Arguments entry : clear implicits.
Arguments run : clear implicits.
Arguments verdict : clear implicits.

(* ===================================================================== *)
(** ** The notebook kernel and the remote service                         *)
(* ===================================================================== *)

(** The remote service as a cell meets it: the [n]-th describe call of the
    session (counting from 0), about resource [arn], returns or raises
    [respond n arn] after [latency n] seconds. *)
Record service : Type := Service {
  respond : nat -> string -> pyresult pyval;
  latency : nat -> nat
}.

(** The globals the waiting cells share, and the heap of [map] objects:
    a [map] over a list is read through a list iterator, which holds the
    index of the next item ([Some i]) until it is exhausted ([None]); the
    list itself is the global, not a copy. *)
Record kernel : Type := Kernel {
  calls : list (string * pyresult pyval);
  waiting_arns : list string;
  map_iters : list (option nat);
  in_progress_campaigns : list string
}.

Definition set_calls (c : list (string * pyresult pyval)) (k : kernel) : kernel :=
  Kernel c (waiting_arns k) (map_iters k) (in_progress_campaigns k).
Definition set_waiting_arns (l : list string) (k : kernel) : kernel :=
  Kernel (calls k) l (map_iters k) (in_progress_campaigns k).
Definition set_map_iters (l : list (option nat)) (k : kernel) : kernel :=
  Kernel (calls k) (waiting_arns k) l (in_progress_campaigns k).
Definition set_in_progress_campaigns (l : list string) (k : kernel) : kernel :=
  Kernel (calls k) (waiting_arns k) (map_iters k) l.

Definition fresh_kernel : kernel := Kernel [] [] [] [].

Section Cells.

Variable svc : service.

(** [personalize.describe_*(...Arn=arn)]: one remote call, logged with
    what it returned. *)
Definition describe (arn : string) (w : world kernel) : pyresult pyval * world kernel :=
  let n := length (calls (env w)) in
  let r := respond svc n arn in
  (r, World (now w + Z.of_nat (latency svc n)) (stdout w)
        (set_calls (calls (env w) ++ [(arn, r)]) (env w))).

(** [map(lambda arn: personalize.describe_*(...Arn=arn), waiting_arns)]:
    a new lazy [map] object; nothing is fetched yet. *)
Definition new_map (w : world kernel) : nat * world kernel :=
  (length (map_iters (env w)),
   set_env (set_map_iters (map_iters (env w) ++ [Some 0%nat]) (env w)) w).

(** [next(m)] for the [map] object with handle [h]: [None] is
    [StopIteration]; otherwise the index moves on and the describe call
    for the item is made. *)
Definition map_next (h : nat) (w : world kernel)
  : option (pyresult pyval) * world kernel :=
  match map_iters (env w) !! h with
  | Some (Some i) =>
      match waiting_arns (env w) !! i with
      | Some arn =>
          let w1 :=
            set_env (set_map_iters (<[h := Some (Datatypes.S i)]> (map_iters (env w)))
                       (env w)) w in
          let '(r, w2) := describe arn w1 in
          (Some r, w2)
      | None =>
          (None,
           set_env (set_map_iters (<[h := None]> (map_iters (env w))) (env w)) w)
      end
  | _ => (None, w)
  end.

(** [waiting_arns.remove(arn)] *)
Definition remove_waiting (arn : pyval) (w : world kernel)
  : pyresult unit * world kernel :=
  match arn with
  | PStr a =>
      match list_remove a (waiting_arns (env w)) with
      | Some l => (Ret tt, set_env (set_waiting_arns l (env w)) w)
      | None => (Raise (ValueError "list.remove(x): x not in list" []), w)
      end
  | _ => (Raise (ValueError "list.remove(x): x not in list" []), w)
  end.

(** The body of the [for desc in descriptions] loop of
    [are_imports_finished] ([kind = "datasetImportJob"], silent) and of
    [are_solutions_finished] ([kind = "solutionVersion"], which prints
    before it removes). *)
Definition job_seen (kind arn_key fail_msg : string) (announce : bool)
    (desc : pyval) (w : world kernel) : pyresult unit * world kernel :=
  match (let* job := getitem desc kind in getitem job "status") with
  | Raise e => (Raise e, w)
  | Ret status =>
      match (let* job := getitem desc kind in getitem job arn_key) with
      | Raise e => (Raise e, w)
      | Ret arn =>
          if eq_str status "ACTIVE" then
            remove_waiting arn
              (if announce then emit (nl +:+ "Trained ") [arn] w else w)
          else
            match contains "FAILED" status with
            | Raise e => (Raise e, w)
            | Ret true => (Raise (ValueError (fail_msg +:+ nl) [desc]), w)
            | Ret false => (Ret tt, w)
            end
      end
  end.

(** [for desc in descriptions: ...] over the [map] object [h]; [None] when
    [fuel] runs out before the iterator does. *)
Fixpoint for_descriptions (kind arn_key fail_msg : string) (announce : bool)
    (fuel : nat) (h : nat) (w : world kernel)
  : option (pyresult unit * world kernel) :=
  match fuel with
  | O => None
  | Datatypes.S fuel' =>
      match map_next h w with
      | (None, w1) => Some (Ret tt, w1)
      | (Some (Raise e), w1) => Some (Raise e, w1)
      | (Some (Ret desc), w1) =>
          match job_seen kind arn_key fail_msg announce desc w1 with
          | (Ret _, w2) => for_descriptions kind arn_key fail_msg announce fuel' h w2
          | (Raise e, w2) => Some (Raise e, w2)
          end
      end
  end.

(** The loop, then [if not len(waiting_arns): return True]. The iterator
    moves one item forward per round and the list never grows, so
    [length waiting_arns + 1] rounds are enough ([for_descriptions_fuel]);
    the last branch is not reached. *)
Definition are_jobs_finished (kind arn_key fail_msg : string) (announce : bool)
    (descriptions : nat) (w : world kernel) : pyresult pyval * world kernel :=
  match for_descriptions kind arn_key fail_msg announce
          (Datatypes.S (length (waiting_arns (env w)))) descriptions w with
  | Some (Ret _, w') =>
      if Nat.eqb (length (waiting_arns (env w'))) 0
      then (Ret (PBool true), w') else (Ret PNone, w')
  | Some (Raise e, w') => (Raise e, w')
  | None => (Ret PNone, w)
  end.

(** [02b_Importing_Data]: "Wait for Imports to Complete". *)
Definition are_imports_finished : nat -> world kernel -> pyresult pyval * world kernel :=
  are_jobs_finished "datasetImportJob" "datasetImportJobArn" "Data import failed!" false.

(** Training notebook: "Wait for Training to Complete". *)
Definition are_solutions_finished : nat -> world kernel -> pyresult pyval * world kernel :=
  are_jobs_finished "solutionVersion" "solutionVersionArn" "Build failed!" true.

(** The callbacks handed to the spinner by the two multi-job cells. *)
Definition poll_waiting (w : world kernel) : pyresult nat * world kernel :=
  let '(h, w') := new_map w in (Ret h, w').

Definition classify_with (p : nat -> world kernel -> pyresult pyval * world kernel)
    (d : nat) (w : world kernel) : outcome * world kernel :=
  let '(r, w') := p d w in (outcome_of r, w').

(** [lambda d: f"{len(waiting_arns)} imports in progress"] and its
    [models] twin. *)
Definition stringify_waiting (noun : string) (d : nat) (w : world kernel)
  : string * world kernel :=
  (str_of_nat (length (waiting_arns (env w))) +:+ " " +:+ noun +:+ " in progress", w).

(** The two cells: [waiting_arns = [...]], the definitions, then the
    spinner call (30 s apart for 1 h; 60 s apart for 4 h). *)
Definition wait_for_imports (arns : list string) (fuel : nat) (w : world kernel)
  : run kernel nat :=
  polling_spinner poll_waiting (classify_with are_imports_finished)
    (stringify_waiting "imports") 30 (60 * 60) fuel
    (set_env (set_waiting_arns arns (env w)) w).

Definition wait_for_solutions (arns : list string) (fuel : nat) (w : world kernel)
  : run kernel nat :=
  polling_spinner poll_waiting (classify_with are_solutions_finished)
    (stringify_waiting "models") 60 (4 * 60 * 60) fuel
    (set_env (set_waiting_arns arns (env w)) w).

(** The callbacks of a single-job cell: one describe call per fetch, a
    predicate that only reads the description, and the status as text
    (left empty for a status that is not a [str]; nothing here reads it). *)
Definition poll_one (arn : string) (w : world kernel) : pyresult pyval * world kernel :=
  describe arn w.

Definition classify_pure (p : pyval -> pyresult pyval) (d : pyval) (w : world kernel)
  : outcome * world kernel :=
  (outcome_of (p d), w).

Definition stringify_status (kind : string) (d : pyval) (w : world kernel)
  : string * world kernel :=
  (match (let* x := getitem d kind in getitem x "status") with
   | Ret (PStr s) => s
   | _ => ""
   end, w).

(** [02b_Importing_Data]: wait for the dataset group, 20 s apart, 20 min. *)
Definition wait_for_dataset_group (dataset_group_arn : string) (fuel : nat)
    (w : world kernel) : run kernel pyval :=
  polling_spinner (poll_one dataset_group_arn) (classify_pure is_dsg_ready)
    (stringify_status "datasetGroup") 20 (20 * 60) fuel w.

(** [02b_Importing_Data]: wait for a dataset. *)
Definition wait_for_dataset (dataset_arn : string) (fuel : nat)
    (w : world kernel) : run kernel pyval :=
  polling_spinner (poll_one dataset_arn) (classify_pure is_ds_ready)
    (stringify_status "dataset") 20 (20 * 60) fuel w.

(** Batch-inference cell: wait for the batch job, 30 s apart, 1 h. *)
Definition wait_for_batch_job (batch_job_arn : string) (fuel : nat)
    (w : world kernel) : run kernel pyval :=
  polling_spinner (poll_one batch_job_arn) (classify_pure is_batch_job_finished)
    (stringify_status "batchInferenceJob") 30 (60 * 60) fuel w.

(** *** The campaign wait loop of [04b_Deploying_Campaigns_and_Filters] *)

(** [in_progress_campaigns.remove(campaign_arn)] *)
Definition remove_in_progress (arn : string) (w : world kernel)
  : pyresult unit * world kernel :=
  match list_remove arn (in_progress_campaigns (env w)) with
  | Some l => (Ret tt, set_env (set_in_progress_campaigns l (env w)) w)
  | None => (Raise (ValueError "list.remove(x): x not in list" []), w)
  end.

(** [for campaign_arn in in_progress_campaigns: ...]: the list iterator
    holds the index [idx] of the next item and reads the list as it is at
    that moment. [None] when [fuel] runs out first. *)
Fixpoint for_campaigns (fuel : nat) (idx : nat) (w : world kernel)
  : option (pyresult unit * world kernel) :=
  match fuel with
  | O => None
  | Datatypes.S fuel' =>
      match in_progress_campaigns (env w) !! idx with
      | None => Some (Ret tt, w)
      | Some campaign_arn =>
          let '(version_response, w1) := describe campaign_arn w in
          match (let* resp := version_response in
                 let* c := getitem resp "campaign" in getitem c "status") with
          | Raise e => Some (Raise e, w1)
          | Ret status =>
              if eq_str status "ACTIVE" then
                match remove_in_progress campaign_arn
                        (emit "Build succeeded for " [PStr campaign_arn] w1) with
                | (Ret _, w2) => for_campaigns fuel' (Datatypes.S idx) w2
                | (Raise e, w2) => Some (Raise e, w2)
                end
              else if eq_str status "CREATE FAILED" then
                match remove_in_progress campaign_arn
                        (emit "Build failed for " [PStr campaign_arn] w1) with
                | (Ret _, w2) => for_campaigns fuel' (Datatypes.S idx) w2
                | (Raise e, w2) => Some (Raise e, w2)
                end
              else for_campaigns fuel' (Datatypes.S idx) w1
          end
      end
  end.

(** [while time.time() < max_time: ...]; [None] when [fuel] runs out. The
    inner loop gets [length in_progress_campaigns + 1] rounds, which is
    enough ([for_campaigns_fuel]). *)
Fixpoint while_campaigns (fuel : nat) (max_time : Z) (w : world kernel)
  : option (pyresult unit * world kernel) :=
  match fuel with
  | O => None
  | Datatypes.S fuel' =>
      if now w <? max_time then
        match for_campaigns (Datatypes.S (length (in_progress_campaigns (env w)))) 0 w with
        | None => None
        | Some (Raise e, w1) => Some (Raise e, w1)
        | Some (Ret _, w1) =>
            if (length (in_progress_campaigns (env w1)) <=? 0)%nat
            then Some (Ret tt, w1)
            else
              while_campaigns fuel' max_time
                (sleep 60
                   (emit "At least one campaign build is still in progress" [] w1))
        end
      else Some (Ret tt, w)
  end.

(** The whole cell: the list of campaigns, the three-hour deadline, the
    loop. *)
Definition wait_for_campaigns (campaign_arns : list string) (fuel : nat)
    (w : world kernel) : option (pyresult unit * world kernel) :=
  let w0 := set_env (set_in_progress_campaigns campaign_arns (env w)) w in
  while_campaigns fuel (now w0 + 3 * 60 * 60) w0.

End Cells.

(** The status a logged describe call showed, when it returned one. *)
Definition campaign_status_of (r : pyresult pyval) : option pyval :=
  match (let* resp := r in
         let* c := getitem resp "campaign" in getitem c "status") with
  | Ret status => Some status
  | Raise _ => None
  end.

Definition terminal_status (r : pyresult pyval) : bool :=
  match campaign_status_of r with
  | Some status => eq_str status "ACTIVE" || eq_str status "CREATE FAILED"
  | None => false
  end.

(* ===================================================================== *)
(** ** Session-keyed event logging                                        *)
(* ===================================================================== *)

(** [str(f)] for a Python function object [f]: its name and the address
    of the object in this interpreter process. *)
Definition function_str (name : string) (address : N) : string :=
  "<function " +:+ name +:+ " at 0x"
    +:+ HexadecimalString.NilZero.string_of_uint (N.to_hex_uint address) +:+ ">".

(** One [personalize_events.put_events(...)] call. *)
Record put_events_call : Type := PutEvents {
  trackingId : string;
  userId : string;
  sessionId : string;
  eventList : list pyval
}.

(** The state the logging cell works on: [session_dict] (a [defaultdict]),
    the requests sent so far, and the clock read by [datetime.now()]. *)
Record tracker : Type := Tracker {
  session_dict : gmap Z string;
  sent : list put_events_call;
  clock : Z
}.

Section Logging.

(** The address of the function object [uuid.uuid1] in the running
    interpreter, and the stored [tracking_id]. *)
Variable uuid1_address : N.
Variable tracking_id : string.

(** [return str(uuid.uuid1)]: the function object is not called. *)
Definition generate_random_session_id : string :=
  function_str "uuid1" uuid1_address.

(** [session_dict[user_id]] on
    [defaultdict(generate_random_session_id)]: a missing key is filled by
    the factory. *)
Definition session_of (user_id : Z) (d : gmap Z string) : string * gmap Z string :=
  match d !! user_id with
  | Some sid => (sid, d)
  | None => (generate_random_session_id, <[user_id := generate_random_session_id]> d)
  end.

(** [log_new_review(user_id, item_id, rating, recommendation_id, impression)];
    an argument left at [None] is [None] here, and [metadata], which the
    body never reads, is left out. *)
Definition log_new_review (user_id item_id : Z) (rating : pyval)
    (recommendation_id impression : option pyval) (t : tracker) : tracker :=
  let '(session_id, d) := session_of user_id (session_dict t) in
  let event :=
    ([("eventType", PStr "review");
      ("eventValue", rating);
      ("itemId", PStr (str_of_Z item_id));
      ("sentAt", PInt (clock t))]
     ++ match impression with Some i => [("impression", i)] | None => [] end
     ++ match recommendation_id with Some r => [("recommendationId", r)] | None => [] end)%list in
  Tracker d
    (sent t ++ [PutEvents tracking_id (str_of_Z user_id) session_id [PDict event]])
    (clock t).

(** A review to log: user, item, rating, recommendation id, impression. *)
Definition review : Type := Z * Z * pyval * option pyval * option pyval.

(** Any sequence of [log_new_review] calls, with the clock moving on by
    [gap] seconds between two of them. *)
Fixpoint log_reviews (gap : Z) (reviews : list review) (t : tracker) : tracker :=
  match reviews with
  | [] => t
  | (user_id, item_id, rating, rec_id, impression) :: rest =>
      let t' := log_new_review user_id item_id rating rec_id impression t in
      log_reviews gap rest (Tracker (session_dict t') (sent t') (clock t' + gap))
  end.

(** The cell has just run: [session_dict] is empty, nothing was sent. *)
Definition fresh_tracker (t0 : Z) : tracker := Tracker ∅ [] t0.

End Logging.

(* ===================================================================== *)
(** ** Services to run the cells against                                  *)
(* ===================================================================== *)

(** A service whose [n]-th call reports the status [statuses n] for
    resources of the given [kind], each call taking [secs] seconds. *)
Definition service_reporting (kind : string) (statuses : nat -> string)
    (secs : nat) : service :=
  Service (fun n _ => Ret (describe_response kind (statuses n))) (fun _ => secs).

(** The same, except that the call numbered [k] fails with a throttling
    error. *)
Definition service_failing_at (k : nat) (kind : string) (statuses : nat -> string)
    : service :=
  Service (fun n _ => if Nat.eqb n k then Raise (ClientError "ThrottlingException")
                      else Ret (describe_response kind (statuses n)))
          (fun _ => 0%nat).

(** Pending for the first [n] calls, then [last]. *)
Definition pending_until (n : nat) (last : string) (call : nat) : string :=
  if Nat.ltb call n then "CREATE PENDING" else last.

(** A job description as the import and training cells read it. *)
Definition job_response (kind arn_key status arn : string) : pyval :=
  PDict [(kind, PDict [("status", PStr status); (arn_key, PStr arn)])].

(** A service that answers about job [arn] with the status
    [statuses n arn] at call [n]. *)
Definition job_service (kind arn_key : string) (statuses : nat -> string -> string)
    : service :=
  Service (fun n arn => Ret (job_response kind arn_key (statuses n arn) arn))
          (fun _ => 0%nat).

(** The world of a kernel that has just started. *)
Definition fresh_world : world kernel := World 0 [] fresh_kernel.

(* ===================================================================== *)
(** ** Readings used in the statements                                    *)
(* ===================================================================== *)

(** [needle] occurs in [s]. *)
Definition substring_of (needle s : string) : Prop :=
  exists pre post, s = pre +:+ needle +:+ post.

(** [desc[kind]["status"]] *)
Definition status_of (kind : string) (desc : pyval) : pyresult pyval :=
  let* x := getitem desc kind in getitem x "status".

(** An item of a listing that has a [str] name and the ARN field. *)
Definition listed (arn_key : string) (c : pyval) : Prop :=
  exists n arn, getitem c "name" = Ret (PStr n) /\ getitem c arn_key = Ret arn.

Definition named (wanted : string) (c : pyval) : Prop :=
  getitem c "name" = Ret (PStr wanted).

(** A description shows the status ["ACTIVE"] under [kind]. *)
Definition desc_active (kind : string) (desc : pyval) : bool :=
  match status_of kind desc with
  | Ret status => eq_str status "ACTIVE"
  | Raise _ => false
  end.

Definition shows_active (kind : string) (c : string * pyresult pyval) : bool :=
  match c.2 with
  | Ret desc => desc_active kind desc
  | Raise _ => false
  end.

(** How many of the logged answers show the status ["ACTIVE"]. *)
Definition active_seen (kind : string) (cs : list (string * pyresult pyval)) : nat :=
  length (filter (fun c => shows_active kind c = true) cs).

(** Items a [map] object [h] has still to visit. *)
Definition remaining (h : nat) (w : world kernel) : nat :=
  match map_iters (env w) !! h with
  | Some (Some i) => length (waiting_arns (env w)) - i
  | _ => 0
  end.

(** In the trace [tr] every display is of the snapshot that was just
    classified "not yet finished", itself just returned by a fetch, and
    the formatter worked on the world the predicate left. *)
Definition displayed_as_classified {S Snapshot : Type}
    (fn_poll_result : world S -> pyresult Snapshot * world S)
    (fn_is_finished : Snapshot -> world S -> outcome * world S)
    (fn_stringify_result : Snapshot -> world S -> string * world S)
    (tr : list (entry S Snapshot)) : Prop :=
  forall pre post s text w4,
    tr = (pre ++ (EvDisplay s text, w4) :: post)%list ->
    exists pre' w0 w1 w2 w3,
      pre = (pre' ++ [(EvPoll (Ret s), w1); (EvClassify s NotYetFinished, w2)])%list
      /\ fn_poll_result w0 = (Ret s, w1)
      /\ fn_is_finished s w1 = (NotYetFinished, w2)
      /\ fn_stringify_result s w2 = (text, w3)
      /\ w4 = emit text [] w3.

(** The same for a multi-job cell, in terms of the kernel: the snapshot is
    the [map] object the fetch created, without any describe call; up to
    the display no describe call is added to those the classification
    made, and the [map] objects and [waiting_arns] stay as it left them. *)
Definition displayed_without_refetch (tr : list (entry kernel nat)) : Prop :=
  forall pre post s text w4,
    tr = (pre ++ (EvDisplay s text, w4) :: post)%list ->
    exists pre' w0 w1 w2,
      pre = (pre' ++ [(EvPoll (Ret s), w1); (EvClassify s NotYetFinished, w2)])%list
      /\ s = length (map_iters (env w0))
      /\ map_iters (env w1) = (map_iters (env w0) ++ [Some 0%nat])%list
      /\ calls (env w1) = calls (env w0)
      /\ calls (env w4) = calls (env w2)
      /\ map_iters (env w4) = map_iters (env w2)
      /\ waiting_arns (env w4) = waiting_arns (env w2).

(** What evaluating a multi-job predicate does to the kernel: [p] is its
    result and the world it leaves when started in [w]. Describe calls are
    added to the log; [waiting_arns] loses entries and gains none, one
    entry for each answer showing ["ACTIVE"] when nothing is raised; and
    the value returned is [True] or [None] as [waiting_arns] is left empty
    or not. *)
Definition removes_active_jobs (kind : string) (w : world kernel)
    (p : pyresult pyval * world kernel) : Prop :=
  exists new,
    calls (env p.2) = (calls (env w) ++ new)%list
    /\ sublist (waiting_arns (env p.2)) (waiting_arns (env w))
    /\ (is_raise p.1 = false ->
        length (waiting_arns (env w))
        = (length (waiting_arns (env p.2)) + active_seen kind new)%nat)
    /\ (p.1 = Ret (PBool true) <-> is_raise p.1 = false /\ waiting_arns (env p.2) = [])
    /\ (p.1 = Ret PNone <-> is_raise p.1 = false /\ waiting_arns (env p.2) <> []).

(** In the describe log [log] no resource is asked about again after an
    answer that showed it ["ACTIVE"] or ["CREATE FAILED"]. *)
Definition never_polled_after_terminal (log : list (string * pyresult pyval)) : Prop :=
  forall l1 a resp l2,
    log = (l1 ++ (a, resp) :: l2)%list ->
    terminal_status resp = true ->
    a ∉ l2.*1.

(** The campaign loop's invariant: [new] is what it has added to the
    describe log [old] it started with. *)
Definition campaigns_inv (old : list (string * pyresult pyval)) (w : world kernel)
    : Prop :=
  exists new,
    calls (env w) = (old ++ new)%list
    /\ NoDup (in_progress_campaigns (env w))
    /\ never_polled_after_terminal new
    /\ (forall a resp, (a, resp) ∈ new -> terminal_status resp = true ->
          a ∉ in_progress_campaigns (env w)).

(** A predicate result [r] sorts [status] three ways, with [needle] as the
    mark of failure. *)
Definition classifies_by (needle status : string) (r : pyresult pyval) : Prop :=
  (r = Ret (PBool true) <-> status = "ACTIVE")
  /\ (is_ValueError r <-> status <> "ACTIVE" /\ substring_of needle status)
  /\ (r = Ret PNone <-> status <> "ACTIVE" /\ ~ substring_of needle status).

(** The look-up result [r] is the ARN field of the first item named
    [wanted], and a [ValueError] exactly when no item has that name. *)
Definition first_match_or_ValueError (arn_key wanted : string)
    (items : list pyval) (r : pyresult pyval) : Prop :=
  (forall pre c post,
      items = (pre ++ c :: post)%list -> named wanted c ->
      Forall (fun c' => ~ named wanted c') pre ->
      exists arn, getitem c arn_key = Ret arn /\ r = Ret arn)
  /\ (is_ValueError r <-> Forall (fun c => ~ named wanted c) items).

(** The fetch always returns a snapshot and the predicate says "not yet
    finished" of it. *)
Definition never_terminal {S Snapshot : Type}
    (fn_poll_result : world S -> pyresult Snapshot * world S)
    (fn_is_finished : Snapshot -> world S -> outcome * world S) : Prop :=
  forall w, exists s,
    fst (fn_poll_result w) = Ret s
    /\ fst (fn_is_finished s (snd (fn_poll_result w))) = NotYetFinished.

(** The callbacks do not turn the clock back. *)
Definition clock_monotone {S Snapshot : Type}
    (fn_poll_result : world S -> pyresult Snapshot * world S)
    (fn_is_finished : Snapshot -> world S -> outcome * world S)
    (fn_stringify_result : Snapshot -> world S -> string * world S) : Prop :=
  (forall w, now w <= now (snd (fn_poll_result w)))
  /\ (forall s w, now w <= now (snd (fn_is_finished s w)))
  /\ (forall s w, now w <= now (snd (fn_stringify_result s w))).

(** The callbacks take no time at all. *)
Definition instantaneous {S Snapshot : Type}
    (fn_poll_result : world S -> pyresult Snapshot * world S)
    (fn_is_finished : Snapshot -> world S -> outcome * world S)
    (fn_stringify_result : Snapshot -> world S -> string * world S) : Prop :=
  (forall w, now (snd (fn_poll_result w)) = now w)
  /\ (forall s w, now (snd (fn_is_finished s w)) = now w)
  /\ (forall s w, now (snd (fn_stringify_result s w)) = now w).

(** Every stored session id and every session id sent is the one string
    [str(uuid.uuid1)]. *)
Definition one_session_id (uuid1_address : N) (t : tracker) : Prop :=
  (forall user_id s, session_dict t !! user_id = Some s ->
     s = generate_random_session_id uuid1_address)
  /\ Forall (fun c => sessionId c = generate_random_session_id uuid1_address) (sent t).

(* ===================================================================== *)
(** ** Deriving names: the dataset-group ARN and the role name            *)
(* ===================================================================== *)

(** [s.split(sep)] for a one-character separator: every occurrence cuts,
    empty pieces are kept. *)
Fixpoint split_on (sep : Ascii.ascii) (s : string) : list string :=
  match s with
  | EmptyString => [""]
  | String c s' =>
      if Ascii.eqb c sep then "" :: split_on sep s'
      else match split_on sep s' with
           | [] => [String c ""]
           | p :: ps => String c p :: ps
           end
  end.

(** [s.partition(sep)] for a one-character separator: the text before the
    first occurrence, the separator, the text after it; [(s, "", "")] when
    there is none. *)
Fixpoint partition_on (sep : Ascii.ascii) (s : string) : string * string * string :=
  match s with
  | EmptyString => ("", "", "")
  | String c s' =>
      if Ascii.eqb c sep then ("", String sep "", s')
      else let '(before, found, after) := partition_on sep s' in
           (String c before, found, after)
  end.

(** The "dataset group ARN" cell of the console walk-through:
    [header, partition, svc, reg, acct_id, resource =
     personalize_role_arn.split(":")], then the service, the region and
    the resource are replaced and the six fields joined again. Unpacking
    any other number of fields than six is a [ValueError]. *)
Definition derive_dataset_group_arn
    (personalize_role_arn region dataset_group_name : string) : pyresult string :=
  match split_on ":"%char personalize_role_arn with
  | [header; partition; svc; reg; acct_id; resource] =>
      Ret (join ":" [header; partition; "personalize"; region; acct_id;
                     "dataset-group/" +:+ dataset_group_name])
  | parts =>
      if (length parts <? 6)%nat
      then Raise (ValueError ("not enough values to unpack (expected 6, got "
                                +:+ str_of_nat (length parts) +:+ ")") [])
      else Raise (ValueError "too many values to unpack (expected 6)" [])
  end.

(** Clean-up notebook: [role_name = personalize_role_arn.partition("/")[2]]. *)
Definition role_name_of (personalize_role_arn : string) : string :=
  (partition_on "/"%char personalize_role_arn).2.

(** How often the character occurs. *)
Fixpoint count_char (c : Ascii.ascii) (s : string) : nat :=
  match s with
  | EmptyString => 0
  | String a s' => (if Ascii.eqb a c then 1 else 0) + count_char c s'
  end.

(* ===================================================================== *)
(** ** Tables of recommendations: padding to [n_recs] rows                *)
(* ===================================================================== *)

(** [l[:n]] *)
Definition slice_to (n : Z) (l : list pyval) : list pyval :=
  if 0 <=? n then take (Z.to_nat n) l
  else take (length l - Z.to_nat (- n)) l.

(** [(titles + (n_recs * [None]))[:n_recs]] *)
Definition pad_to (n_recs : Z) (titles : list pyval) : list pyval :=
  slice_to n_recs (titles ++ replicate (Z.to_nat n_recs) PNone).

(** A user id of these cells is a [str] (["Anonymous"]) or an [int]. *)
Definition user_label (user_id : string + Z) : string :=
  "User " +:+ match user_id with inl s => s | inr z => str_of_Z z end.

(** [for user_id in user_ids: up_user_recs[f"User {user_id}"] = ...]:
    [titles_for user_id] stands for
    [recs_to_dataframe(get_recommendations(userId=str(user_id), ...)["itemList"])["TITLE"].to_list()],
    whose parts (the runtime service, pandas) are outside the sources; an
    error in it ends the loop. *)
Fixpoint collect_recs (titles_for : string + Z -> pyresult (list pyval)) (n_recs : Z)
    (user_ids : list (string + Z)) (up_user_recs : gmap string (list pyval))
  : pyresult (gmap string (list pyval)) :=
  match user_ids with
  | [] => Ret up_user_recs
  | user_id :: rest =>
      let* titles := titles_for user_id in
      collect_recs titles_for n_recs rest
        (<[user_label user_id := pad_to n_recs titles]> up_user_recs)
  end.

(* ===================================================================== *)
(** ** The clean-up notebook                                              *)
(* ===================================================================== *)

(** What a clean-up cell does, in order: service calls with their keyword
    arguments and answers, lines printed, suspensions (in milliseconds, so
    that [time.sleep(0.2)] is [200]), and tracebacks printed. *)
Inductive step : Type :=
| Called (op : string) (kwargs : list (string * pyval)) (answer : pyresult pyval)
| Printed (text : string) (shown : list pyval)
| Slept (ms : Z)
| TracebackPrinted (e : pyexn).

(** The service seen from these cells: the answer to an operation may
    depend on how far the session has come. *)
Definition api : Type := nat -> string -> list (string * pyval) -> pyresult pyval.

(** A cell: it extends the log and returns or raises. *)
Definition cell (A : Type) : Type := list step -> pyresult A * list step.

Definition cell_ret {A} (a : A) : cell A := fun t => (Ret a, t).

Definition cell_bind {A B} (m : cell A) (k : A -> cell B) : cell B :=
  fun t => match m t with
           | (Ret a, t') => k a t'
           | (Raise e, t') => (Raise e, t')
           end.

Notation "'do*' x ':=' m 'in' k" := (cell_bind m (fun x => k))
  (at level 10, x name, m at level 100, k at level 200).
Notation "m ';;*' k" := (cell_bind m (fun _ => k))
  (at level 100, k at level 200, right associativity).

(** A pure step that may raise (a subscript). *)
Definition lift {A} (r : pyresult A) : cell A := fun t => (r, t).

Definition call (svc : api) (op : string) (kwargs : list (string * pyval)) : cell pyval :=
  fun t => let r := svc (length t) op kwargs in (r, (t ++ [Called op kwargs r])%list).

Definition say (text : string) (shown : list pyval) : cell unit :=
  fun t => (Ret tt, (t ++ [Printed text shown])%list).

Definition nap (ms : Z) : cell unit :=
  fun t => (Ret tt, (t ++ [Slept ms])%list).

(** [for x in v] and [len(v)] on the values these cells loop over. *)
Definition items_of (v : pyval) : pyresult (list pyval) :=
  match v with
  | PList l => Ret l
  | PDict d => Ret (map (fun kv => PStr kv.1) d)
  | PStr s => Ret (map (fun c => PStr (String c "")) (String.list_ascii_of_string s))
  | _ => Raise (TypeError ("'" +:+ type_name v +:+ "' object is not iterable"))
  end.

(** [for x in xs: acc = body(acc, x)] *)
Fixpoint for_each {A B} (body : B -> A -> cell B) (acc : B) (xs : list A) : cell B :=
  match xs with
  | [] => cell_ret acc
  | x :: rest => do* acc' := body acc x in for_each body acc' rest
  end.

(** The common shape of the tracker, filter and solution cells: list the
    resources of the dataset group, delete each in turn with a fifth of a
    second in between, hand back the list. *)
Definition delete_listed (svc : api) (list_op list_key arn_key delete_op : string)
    (announce : string) (dataset_group_arn : pyval) : cell (list pyval) :=
  do* resp := call svc list_op [("datasetGroupArn", dataset_group_arn);
                                ("maxResults", PInt 100)] in
  do* listing := lift (getitem resp list_key) in
  do* xs := lift (items_of listing) in
  ( for_each (fun (_ : unit) x =>
                do* arn := lift (getitem x arn_key) in
                say announce [arn] ;;*
                (do* _ := call svc delete_op [(arn_key, arn)] in nap 200))
      tt xs ) ;;*
  cell_ret xs.

(** "Event trackers": the list stays in the global [trackers]. *)
Definition delete_trackers (svc : api) (dataset_group_arn : pyval) : cell (list pyval) :=
  do* trackers := delete_listed svc "list_event_trackers" "eventTrackers"
                    "eventTrackerArn" "delete_event_tracker"
                    "DELETING EVENT TRACKER " dataset_group_arn in
  (if negb (Nat.eqb (length trackers) 0)
   then say "WAITING 30s for tracker deletions to propagate" [] ;;* nap 30000
   else cell_ret tt) ;;*
  say "Done!" [] ;;*
  cell_ret trackers.

(** "Filters": the wait is decided by [len(trackers)], the global left by
    the tracker cell. *)
Definition delete_filters (svc : api) (dataset_group_arn : pyval)
    (trackers : list pyval) : cell (list pyval) :=
  do* filters := delete_listed svc "list_filters" "Filters"
                   "filterArn" "delete_filter" "DELETING FILTER " dataset_group_arn in
  (if negb (Nat.eqb (length trackers) 0)
   then say "WAITING 30s for filter deletions to propagate" [] ;;* nap 30000
   else cell_ret tt) ;;*
  say "Done!" [] ;;*
  cell_ret filters.

(** "Solutions". *)
Definition delete_solutions (svc : api) (dataset_group_arn : pyval) : cell (list pyval) :=
  do* solutions := delete_listed svc "list_solutions" "solutions"
                     "solutionArn" "delete_solution" "DELETING SOLUTION "
                     dataset_group_arn in
  (if negb (Nat.eqb (length solutions) 0)
   then say "WAITING 120s for solution deletions to propagate" [] ;;* nap 120000
   else cell_ret tt) ;;*
  say "Done!" [] ;;*
  cell_ret solutions.

(** "Campaigns": the campaigns of every solution are deleted; the
    four-minute wait follows when at least one was. *)
Definition delete_campaigns (svc : api) (dataset_group_arn : pyval) : cell unit :=
  do* resp := call svc "list_solutions" [("datasetGroupArn", dataset_group_arn);
                                         ("maxResults", PInt 100)] in
  do* listing := lift (getitem resp "solutions") in
  do* solutions := lift (items_of listing) in
  do* any_campaigns_deleted :=
    for_each (fun (any : bool) solution =>
                do* solution_arn := lift (getitem solution "solutionArn") in
                do* resp := call svc "list_campaigns" [("solutionArn", solution_arn)] in
                do* listing := lift (getitem resp "campaigns") in
                do* campaigns := lift (items_of listing) in
                for_each (fun (_ : bool) campaign =>
                            do* campaign_arn := lift (getitem campaign "campaignArn") in
                            say "DELETING CAMPAIGN " [campaign_arn] ;;*
                            (do* _ := call svc "delete_campaign"
                                        [("campaignArn", campaign_arn)] in
                             nap 200 ;;* cell_ret true))
                  any campaigns)
      false solutions in
  (if any_campaigns_deleted : bool
   then say "WAITING 4 minutes for campaign deletions to propagate" [] ;;* nap 240000
   else cell_ret tt) ;;*
  say "Done!" [].

(** "Datasets": the schema of each dataset is looked up before the dataset
    is deleted; the schema ARNs stay in the global [schema_arns]. *)
Definition delete_datasets (svc : api) (dataset_group_arn : pyval) : cell (list pyval) :=
  do* resp := call svc "list_datasets" [("datasetGroupArn", dataset_group_arn)] in
  do* listing := lift (getitem resp "datasets") in
  do* datasets := lift (items_of listing) in
  do* schema_arns :=
    for_each (fun (schema_arns : list pyval) dataset =>
                do* dataset_arn := lift (getitem dataset "datasetArn") in
                do* desc := call svc "describe_dataset" [("datasetArn", dataset_arn)] in
                do* ds := lift (getitem desc "dataset") in
                do* schema_arn := lift (getitem ds "schemaArn") in
                say "DELETING DATASET " [dataset_arn] ;;*
                (do* _ := call svc "delete_dataset" [("datasetArn", dataset_arn)] in
                 nap 200 ;;* cell_ret (schema_arns ++ [schema_arn])%list))
      [] datasets in
  (if negb (Nat.eqb (length datasets) 0)
   then say "WAITING 60s for dataset deletions to propagate" [] ;;* nap 60000
   else cell_ret tt) ;;*
  say "Done!" [] ;;*
  cell_ret schema_arns.

(** One round of the schema loop: the [try] turns the two errors it names
    into a printed line and goes on; any other error leaves the loop. *)
Definition delete_schema_or_warn (svc : api) (any_schemas_deleted : bool)
    (schema_arn : pyval) : cell bool :=
  fun t =>
    match (say "DELETING SCHEMA " [schema_arn] ;;*
           (do* _ := call svc "delete_schema" [("schemaArn", schema_arn)] in
            nap 200 ;;* cell_ret true)) t with
    | (Ret b, t') => (Ret b, t')
    | (Raise (ClientError code), t') =>
        if String.eqb code "ResourceNotFoundException"
        then (Ret any_schemas_deleted, (t' ++ [Printed "(already deleted)" []])%list)
        else if String.eqb code "ResourceInUseException"
        then (Ret any_schemas_deleted,
              (t' ++ [Printed "###### WARNING - Failed to delete schema - appears to be in-use by another dataset" [];
                      TracebackPrinted (ClientError code)])%list)
        else (Raise (ClientError code), t')
    | (Raise e, t') => (Raise e, t')
    end.

(** "Schemas". *)
Definition delete_schemas (svc : api) (schema_arns : list pyval) : cell unit :=
  do* any_schemas_deleted := for_each (delete_schema_or_warn svc) false schema_arns in
  (if any_schemas_deleted : bool
   then say "WAITING 60s for schema deletions to propagate" [] ;;* nap 60000
   else cell_ret tt) ;;*
  say "Done!" [].

(** The keyword arguments of the calls to [op] in a log, in order. *)
Definition calls_of (op : string) (t : list step) : list (list (string * pyval)) :=
  omap (fun s => match s with
                 | Called op' kwargs _ => if String.eqb op' op then Some kwargs else None
                 | _ => None
                 end) t.

(** The suspensions of a log, in order. *)
Definition naps_of (t : list step) : list Z :=
  omap (fun s => match s with Slept ms => Some ms | _ => None end) t.

(** Some call to [op] in the log was answered without an error. *)
Definition succeeded (op : string) (t : list step) : Prop :=
  exists kwargs v, Called op kwargs (Ret v) ∈ t.

(** The service fails a [delete_schema] only with one of the two errors
    the schema cell expects. *)
Definition schema_errors_expected (svc : api) : Prop :=
  forall n kwargs e,
    svc n "delete_schema" kwargs = Raise e ->
    e = ClientError "ResourceNotFoundException"
    \/ e = ClientError "ResourceInUseException".

(* ===================================================================== *)
(** ** Further readings                                                   *)
(* ===================================================================== *)

(** The items at positions 0, 2, 4, ... and at positions 1, 3, 5, ... *)
Fixpoint evens {A} (l : list A) : list A :=
  match l with
  | [] => []
  | x :: l' =>
      x :: match l' with
           | [] => []
           | _ :: l'' => evens l''
           end
  end.

Definition odds {A} (l : list A) : list A := evens (tail l).

(** [desc[kind][arn_key]] *)
Definition arn_of (kind arn_key : string) (desc : pyval) : pyresult pyval :=
  let* job := getitem desc kind in getitem job arn_key.

(** The service answers about every job of [l], at any time, with a
    description that shows it ["ACTIVE"] under its own ARN. *)
Definition all_active (svc : service) (kind arn_key : string) (l : list string) : Prop :=
  forall n arn, arn ∈ l ->
    exists desc,
      respond svc n arn = Ret desc
      /\ status_of kind desc = Ret (PStr "ACTIVE")
      /\ arn_of kind arn_key desc = Ret (PStr arn).

(** What an iterator at position [i] of a list of [n] items must leave
    when every item it visits may be removed. *)
Definition left_behind (i n : nat) : nat :=
  if (i <=? n)%nat then i + (n - i) / 2 else n.

(** The campaigns announced in the output, as succeeded or failed. *)
Definition announced (out : list (string * list pyval)) : list string :=
  omap (fun line =>
          match line with
          | (text, [PStr arn]) =>
              if String.eqb text "Build succeeded for "
                 || String.eqb text "Build failed for "
              then Some arn else None
          | _ => None
          end) out.

(** The users of a list of reviews. *)
Definition reviewers (reviews : list review) : list Z :=
  map (fun rv : review => rv.1.1.1.1) reviews.

(** The text of the error raised when no item is named [wanted]. *)
Definition not_found_message (what wanted : string) (names : list string) : string :=
  what +:+ " '" +:+ wanted +:+ "' not found! Got:" +:+ nl +:+ "- "
    +:+ join (nl +:+ "- ") names.

(** A predicate result [r] on the description [desc] of a job of [kind]:
    an error met on the way to the status is raised as it is, a status
    that is [None], a [bool] or an [int] is the [TypeError] of the [in]
    test, whose text names the type of the status, [True] is returned
    for the [str] ["ACTIVE"] only, and nothing but [True] or [None] is
    ever returned. *)
Definition true_only_if_active (kind : string) (desc : pyval) (r : pyresult pyval)
    : Prop :=
  (forall e, status_of kind desc = Raise e -> r = Raise e)
  /\ (forall status, status_of kind desc = Ret status ->
        match status with
        | PNone | PBool _ | PInt _ =>
            r = Raise (TypeError ("argument of type '" +:+ type_name status
                                    +:+ "' is not iterable"))
        | _ => True
        end)
  /\ (r = Ret (PBool true) <-> status_of kind desc = Ret (PStr "ACTIVE"))
  /\ (forall v, r = Ret v -> v = PBool true \/ v = PNone).

(** One evaluation [p] of a multi-job predicate from the world [w]
    described the jobs at the even positions of [waiting_arns], in order,
    took them off the list and left those at the odd positions; it said
    [True] when that left nothing. *)
Definition every_other_described (w : world kernel)
    (p : pyresult pyval * world kernel) : Prop :=
  let l := waiting_arns (env w) in
  waiting_arns (env p.2) = odds l
  /\ (calls (env p.2)).*1 = ((calls (env w)).*1 ++ evens l)%list
  /\ p.1 = if (length l <=? 1)%nat then Ret (PBool true) else Ret PNone.

(** What the request [c] sent for the review [rv] carries: the tracking
    id, [str(user_id)], and one event with the type, the rating,
    [str(item_id)] and, when given, the impression and the recommendation
    id. *)
Definition sent_for (tracking_id : string) (c : put_events_call) (rv : review) : Prop :=
  let '(user_id, item_id, rating, recommendation_id, impression) := rv in
  trackingId c = tracking_id
  /\ userId c = str_of_Z user_id
  /\ exists event,
       eventList c = [PDict event]
       /\ assoc "eventType" event = Some (PStr "review")
       /\ assoc "eventValue" event = Some rating
       /\ assoc "itemId" event = Some (PStr (str_of_Z item_id))
       /\ assoc "impression" event = impression
       /\ assoc "recommendationId" event = recommendation_id.

(** The keyword arguments [kwargs] ask for the deletion of the listed
    item [x]: they are its ARN under [arn_key]. *)
Definition deletion_of (arn_key : string) (kwargs : list (string * pyval))
    (x : pyval) : Prop :=
  exists arn, getitem x arn_key = Ret arn /\ kwargs = [(arn_key, arn)].

(** The time the describe calls numbered [first], ..., [first + count - 1]
    of the session take. *)
Fixpoint time_in_calls (svc : service) (first count : nat) : Z :=
  match count with
  | O => 0
  | Datatypes.S count' =>
      Z.of_nat (latency svc first) + time_in_calls svc (Datatypes.S first) count'
  end.

(** The service's answers to a single-job cell that has made [c] calls
    are scripted: the next [n] describe calls about [arn] return
    descriptions that the predicate [p] classifies "not yet finished",
    and these calls and the [n] suspensions fit in the timeout. *)
Definition pending_for (svc : service) (arn : string) (p : pyval -> pyresult pyval)
    (poll_secs timeout_secs : Z) (c n : nat) : Prop :=
  (forall i, (i < n)%nat ->
     exists desc, respond svc (c + i) arn = Ret desc
                  /\ outcome_of (p desc) = NotYetFinished)
  /\ time_in_calls svc c n + Z.of_nat n * poll_secs <= timeout_secs.

(** How often the campaign loop said that a build is still in progress. *)
Definition still_waiting (out : list (string * list pyval)) : nat :=
  length (filter (fun line : string * list pyval =>
                    line.1 = "At least one campaign build is still in progress") out).

(* ===================================================================== *)
(** * Properties                                                          *)
(* ===================================================================== *)

Ltac destruct_ex :=
  repeat match goal with H : exists _, _ |- _ => destruct H end.
Tactic Notation "destruct_ex?" := destruct_ex.

(** Conjunctions of facts that hold by computation. *)
Ltac by_effect :=
  solve [repeat split; intros;
         first [reflexivity | discriminate | assumption | lia]].

(** ** The definitions on small inputs *)

Example is_dsg_ready_active :
  is_dsg_ready (describe_response "datasetGroup" "ACTIVE") = Ret (PBool true).
Proof. reflexivity. Qed.

Example is_dsg_ready_pending :
  is_dsg_ready (describe_response "datasetGroup" "CREATE PENDING") = Ret PNone.
Proof. reflexivity. Qed.

Example is_dsg_ready_failed :
  is_dsg_ready (describe_response "datasetGroup" "CREATE FAILED")
  = Raise (ValueError ("Failed to create Dataset Group!" +:+ nl)
             [describe_response "datasetGroup" "CREATE FAILED"]).
Proof. reflexivity. Qed.

Example is_dsg_ready_no_status :
  is_dsg_ready (PDict [("datasetGroup", PDict [])]) = Raise (KeyError "status").
Proof. reflexivity. Qed.

Example get_campaign_arn_found :
  get_campaign_arn_by_name
    [summary "campaignArn" "personalize-movielens-up" "arn:campaign/up";
     summary "campaignArn" "personalize-movielens-sims" "arn:campaign/sims"]
    "personalize-movielens-sims"
  = Ret (PStr "arn:campaign/sims").
Proof. reflexivity. Qed.

Example get_filter_arn_not_found :
  get_filter_arn_by_name
    [summary "filterArn" "by-genre" "arn:filter/by-genre";
     summary "filterArn" "unwatched" "arn:filter/unwatched"]
    "watched"
  = Raise (ValueError ("Filter 'watched' not found! Got:" +:+ nl +:+ "- by-genre"
                         +:+ nl +:+ "- unwatched") []).
Proof. reflexivity. Qed.

Example function_str_uuid1 :
  function_str "uuid1" 0x7f3a5c0d1e50 = "<function uuid1 at 0x7f3a5c0d1e50>".
Proof. reflexivity. Qed.

(** The first scenario of the spec (section 8): poll interval 1, timeout 5,
    three snapshots "not yet finished" and the fourth "finished
    successfully": normal return after 4 fetches and 3 progress lines. *)
Example spec_scenario_success :
  let r := polling_spinner
             (poll_one (service_reporting "datasetGroup" (pending_until 3 "ACTIVE") 0)
                "arn:dataset-group")
             (classify_pure is_dsg_ready) (stringify_status "datasetGroup")
             1 5 10 fresh_world in
  result r = Some Returned
  /\ length (polls (trace r)) = 4%nat
  /\ stdout (final r)
     = [("CREATE PENDING", []); ("CREATE PENDING", []); ("CREATE PENDING", [])].
Proof. vm_compute. repeat split. Qed.

(** The second scenario: never finished, timeout 3, poll interval 1. The
    check is made after the suspension and fails once the elapsed time
    exceeds the timeout: [PollingTimedOut] after 4 fetches, 4 time units
    after the start. *)
Example spec_scenario_timeout :
  let r := polling_spinner
             (poll_one (service_reporting "datasetGroup" (fun _ => "CREATE PENDING") 0)
                "arn:dataset-group")
             (classify_pure is_dsg_ready) (stringify_status "datasetGroup")
             1 3 10 fresh_world in
  result r = Some (PollingTimedOut (describe_response "datasetGroup" "CREATE PENDING"))
  /\ length (polls (trace r)) = 4%nat
  /\ now (final r) = 4.
Proof. vm_compute. repeat split. Qed.

(** Two import jobs that are both active at the first poll: the second is
    skipped by the iterator when the first is removed from the list under
    it, and is seen at the next poll. *)
Example imports_both_active :
  let svc := job_service "datasetImportJob" "datasetImportJobArn"
               (fun _ _ => "ACTIVE") in
  let r := wait_for_imports svc ["arn:import/interactions"; "arn:import/items"]
             10 fresh_world in
  result r = Some Returned
  /\ (calls (env (final r))).*1 = ["arn:import/interactions"; "arn:import/items"]
  /\ length (polls (trace r)) = 2%nat.
Proof. vm_compute. repeat split. Qed.

(** ** Strings *)

Lemma prefix_spec (n h : string) :
  String.prefix n h = true <-> exists post, h = n +:+ post.
Proof.
  revert h. induction n as [|a n IH]; intros h.
  - split; [intros _; exists h; reflexivity | intros _; destruct h; reflexivity].
  - destruct h as [|b h]; simpl.
    + split; [discriminate | intros [post H]; discriminate].
    + destruct (Ascii.ascii_dec a b) as [->|Hne].
      * rewrite IH. split.
        -- intros [post ->]. exists post. reflexivity.
        -- intros [post H]. injection H as ->. exists post. reflexivity.
      * split; [discriminate|].
        intros [post H]. injection H as -> _. congruence.
Qed.

Lemma str_in_spec (n h : string) :
  str_in n h = true <-> substring_of n h.
Proof.
  unfold substring_of. induction h as [|b h IH].
  - cbn [str_in]. rewrite orb_false_r, prefix_spec. split.
    + intros [post H]. exists "", post. exact H.
    + intros [pre [post H]]. destruct pre; [exists post; exact H|discriminate].
  - cbn [str_in]. rewrite orb_true_iff, prefix_spec, IH. split.
    + intros [[post H]|[pre [post H]]].
      * exists "", post. exact H.
      * exists (String b pre), post. simpl. rewrite H. reflexivity.
    + intros [pre [post H]]. destruct pre as [|c pre].
      * left. exists post. exact H.
      * right. simpl in H. injection H as _ ->. exists pre, post. reflexivity.
Qed.

Lemma str_in_false (n h : string) :
  str_in n h = false <-> ~ substring_of n h.
Proof.
  rewrite <- str_in_spec. destruct (str_in n h); split; intros H; congruence.
Qed.

(** ** Completion predicates on a status string *)

(** What the common tail of the three predicates does with [status]. *)
Lemma status_tail_spec (needle msg : string) (desc : pyval) (status : string) :
  let r := if eq_str (PStr status) "ACTIVE" then Ret (PBool true)
           else let* failed := contains needle (PStr status) in
                if failed : bool then Raise (ValueError msg [desc]) else Ret PNone in
  (r = Ret (PBool true) <-> status = "ACTIVE")
  /\ (is_ValueError r <-> status <> "ACTIVE" /\ substring_of needle status)
  /\ (r = Ret PNone <-> status <> "ACTIVE" /\ ~ substring_of needle status).
Proof.
  cbn [eq_str contains Py.bind]. unfold is_ValueError.
  destruct (String.eqb status "ACTIVE") eqn:Ha.
  - apply String.eqb_eq in Ha. subst status.
    repeat split; intros; destruct_and?; destruct_ex?; try congruence.
  - apply String.eqb_neq in Ha.
    destruct (str_in needle status) eqn:Hs; cbn [Py.bind].
    + apply str_in_spec in Hs.
      repeat split; intros; destruct_and?; destruct_ex?; try congruence; try tauto.
      eexists _, _. reflexivity.
    + apply str_in_false in Hs.
      repeat split; intros; destruct_and?; destruct_ex?; try congruence; try tauto.
Qed.

Lemma status_of_inv (kind : string) (desc v : pyval) :
  status_of kind desc = Ret v ->
  exists x, getitem desc kind = Ret x /\ getitem x "status" = Ret v.
Proof.
  unfold status_of. destruct (getitem desc kind) as [x|e]; cbn [Py.bind].
  - intros H. exists x. split; [reflexivity|exact H].
  - discriminate.
Qed.

(** C4, for [is_ds_ready] as the claim words it: on the status ["FAILED"],
    which is not ["ACTIVE"] and contains ["FAILED"], the predicate does not
    raise; it returns [None]. *)
Lemma is_ds_ready_FAILED_not_raised :
  let desc := describe_response "dataset" "FAILED" in
  status_of "dataset" desc = Ret (PStr "FAILED")
  /\ "FAILED" <> "ACTIVE"
  /\ substring_of "FAILED" "FAILED"
  /\ is_ds_ready desc = Ret PNone
  /\ ~ classifies_by "FAILED" "FAILED" (is_ds_ready desc).
Proof.
  cbv zeta. split; [reflexivity|]. split; [discriminate|].
  split; [exists "", ""; reflexivity|]. split; [reflexivity|].
  intros (_ & Hraise & _).
  destruct (proj2 Hraise) as (msg & shown & H).
  - split; [discriminate|]. exists "", "". reflexivity.
  - vm_compute in H. discriminate.
Qed.

(** C4, amended: on a description whose status is the string [status],
    [is_dsg_ready] and [is_batch_job_finished] return [True] exactly when
    [status] is ["ACTIVE"], raise [ValueError] exactly when it is not
    ["ACTIVE"] and contains ["FAILED"], and return [None] otherwise;
    [is_ds_ready] does the same with ["CREATE FAILED"] as the substring
    looked for. *)
Theorem completion_predicates_by_status (desc : pyval) (status : string) :
  (status_of "datasetGroup" desc = Ret (PStr status) ->
   classifies_by "FAILED" status (is_dsg_ready desc))
  /\ (status_of "dataset" desc = Ret (PStr status) ->
      classifies_by "CREATE FAILED" status (is_ds_ready desc))
  /\ (status_of "batchInferenceJob" desc = Ret (PStr status) ->
      classifies_by "FAILED" status (is_batch_job_finished desc)).
Proof.
  split; [|split]; intros H; apply status_of_inv in H as (x & Hx & Hs);
    unfold is_dsg_ready, is_ds_ready, is_batch_job_finished;
    rewrite Hx; cbn [Py.bind]; rewrite Hs; cbn [Py.bind];
    apply (status_tail_spec _ _ desc status).
Qed.

Lemma completion_predicates_by_status_witness :
  classifies_by "CREATE FAILED" "CREATE FAILED"
    (is_ds_ready (describe_response "dataset" "CREATE FAILED")).
Proof.
  apply (completion_predicates_by_status
           (describe_response "dataset" "CREATE FAILED") "CREATE FAILED").
  reflexivity.
Defined.

(** ** ARN look-up *)

Section Lookup.

Variables what arn_key wanted : string.

Lemma name_is_listed (c : pyval) :
  listed arn_key c ->
  (named wanted c /\ name_is wanted c = Ret true)
  \/ (~ named wanted c /\ name_is wanted c = Ret false).
Proof.
  intros (n & arn & Hn & _). unfold name_is, named. rewrite Hn. cbn.
  destruct (String.eqb n wanted) eqn:E.
  - apply String.eqb_eq in E. subst. left. split; reflexivity.
  - apply String.eqb_neq in E. right. split; [congruence|reflexivity].
Qed.

Lemma next_filter_first (pre post : list pyval) (c : pyval) :
  Forall (listed arn_key) pre -> listed arn_key c ->
  Forall (fun c' => ~ named wanted c') pre -> named wanted c ->
  next_filter (name_is wanted) (pre ++ c :: post) = Ret c.
Proof.
  intros Hl Hc Hpre Hn. induction pre as [|p pre IH]; simpl.
  - destruct (name_is_listed c Hc) as [[_ ->]|[Hno _]]; [reflexivity|tauto].
  - inversion Hl; inversion Hpre; subst.
    destruct (name_is_listed p) as [[Hyes _]|[_ ->]]; [assumption|tauto|].
    cbn. apply IH; assumption.
Qed.

Lemma next_filter_none (items : list pyval) :
  Forall (listed arn_key) items ->
  Forall (fun c => ~ named wanted c) items ->
  next_filter (name_is wanted) items = Raise StopIteration.
Proof.
  intros Hl Hno. induction items as [|p items IH]; simpl; [reflexivity|].
  inversion Hl; inversion Hno; subst.
  destruct (name_is_listed p) as [[Hyes _]|[_ ->]]; [assumption|tauto|].
  cbn. apply IH; assumption.
Qed.

Lemma str_items_names (names : list string) (i : nat) :
  str_items i (map PStr names) = Ret names.
Proof.
  revert i. induction names as [|n names IH]; intros i; cbn; [reflexivity|].
  rewrite IH. reflexivity.
Qed.

Lemma str_items_inv (vs : list pyval) :
  forall (i : nat) (names : list string),
    str_items i vs = Ret names -> vs = map PStr names.
Proof.
  induction vs as [|v vs IH]; intros i names H; cbn in H.
  - injection H as <-. reflexivity.
  - destruct v; try discriminate.
    destruct (str_items (Datatypes.S i) vs) as [ns|e] eqn:E; [|discriminate].
    injection H as <-. cbn. rewrite (IH _ _ E). reflexivity.
Qed.

Lemma name_values_inv (items : list pyval) :
  forall vs, name_values items = Ret vs ->
             Forall2 (fun c v => getitem c "name" = Ret v) items vs.
Proof.
  induction items as [|c items IH]; intros vs H; cbn in H.
  - injection H as <-. constructor.
  - destruct (getitem c "name") as [v|e] eqn:Ec; [|discriminate]. cbn in H.
    destruct (name_values items) as [vs'|e]; [|discriminate].
    injection H as <-. constructor; [exact Ec|]. apply IH. reflexivity.
Qed.

(** The names are returned exactly when every item has a [str] name. *)
Lemma names_of_spec (items : list pyval) (names : list string) :
  names_of items = Ret names
  <-> Forall2 (fun c n => getitem c "name" = Ret (PStr n)) items names.
Proof.
  unfold names_of. split.
  - destruct (name_values items) as [vs|e] eqn:Ev; [|discriminate]. cbn.
    intros H. apply str_items_inv in H. subst vs.
    apply name_values_inv in Ev. apply Forall2_fmap_r in Ev. exact Ev.
  - intros H.
    assert (Ev : name_values items = Ret (map PStr names)).
    { induction H as [|c n items names Hc _ IH]; cbn; [reflexivity|].
      rewrite Hc. cbn. rewrite IH. reflexivity. }
    rewrite Ev. cbn. apply str_items_names.
Qed.

Lemma names_of_listed (items : list pyval) :
  Forall (listed arn_key) items -> exists ns, names_of items = Ret ns.
Proof.
  intros H.
  assert (exists ns, Forall2 (fun c n => getitem c "name" = Ret (PStr n)) items ns)
    as [ns Hns].
  { induction H as [|c items (n & arn & Hn & _) _ [ns IH]].
    - exists []. constructor.
    - exists (n :: ns). constructor; assumption. }
  exists ns. apply names_of_spec. exact Hns.
Qed.

(** Either some item has the name, and then there is a first one, or none
    has. *)
Lemma first_named_or_none (items : list pyval) :
  Forall (listed arn_key) items ->
  (exists pre c post, items = (pre ++ c :: post)%list /\ named wanted c
                      /\ Forall (fun c' => ~ named wanted c') pre)
  \/ Forall (fun c => ~ named wanted c) items.
Proof.
  induction 1 as [|p items Hp _ IH].
  - right. constructor.
  - destruct (name_is_listed p Hp) as [[Hyes _]|[Hno _]].
    + left. exists [], p, items. repeat split; [assumption|constructor].
    + destruct IH as [(pre & c & post & -> & Hc & Hpre)|Hnone].
      * left. exists (p :: pre), c, post. repeat split; [assumption|].
        constructor; assumption.
      * right. constructor; assumption.
Qed.

Lemma get_arn_first (pre post : list pyval) (c : pyval) :
  Forall (listed arn_key) (pre ++ c :: post) ->
  Forall (fun c' => ~ named wanted c') pre -> named wanted c ->
  get_arn_by_name what arn_key (pre ++ c :: post) wanted = getitem c arn_key.
Proof.
  intros Hl Hpre Hn. unfold get_arn_by_name.
  apply Forall_app in Hl as [Hl1 Hl2]. inversion Hl2; subst.
  rewrite next_filter_first; auto.
Qed.

Lemma get_arn_none (items : list pyval) :
  Forall (listed arn_key) items ->
  Forall (fun c => ~ named wanted c) items ->
  is_ValueError (get_arn_by_name what arn_key items wanted).
Proof.
  intros Hl Hno. unfold get_arn_by_name.
  rewrite next_filter_none by assumption.
  destruct (names_of_listed items Hl) as [ns ->]. cbn.
  eexists _, _. reflexivity.
Qed.

End Lookup.

Lemma get_arn_by_name_spec (what arn_key wanted : string) (items : list pyval) :
  Forall (listed arn_key) items ->
  first_match_or_ValueError arn_key wanted items
    (get_arn_by_name what arn_key items wanted).
Proof.
  intros Hl. split.
  - intros pre c post -> Hn Hpre.
    rewrite (get_arn_first what) by assumption.
    apply Forall_app in Hl as [_ Hl2]. inversion Hl2 as [|? ? (n & arn & _ & Ha) _]; subst.
    exists arn. split; assumption.
  - split.
    + intros (msg & shown & Hr).
      destruct (first_named_or_none arn_key wanted items Hl)
        as [(pre & c & post & -> & Hc & Hpre)|Hnone]; [|assumption].
      rewrite (get_arn_first what) in Hr by assumption.
      apply Forall_app in Hl as [_ Hl2].
      inversion Hl2 as [|? ? (n & arn & _ & Ha) _]; subst. congruence.
    + apply get_arn_none. assumption.
Qed.

(** C10: on a listing whose items carry a name and the ARN field,
    [get_campaign_arn_by_name] returns the [campaignArn] of the first
    campaign named [name] and raises [ValueError] exactly when no campaign
    has that name; [get_filter_arn_by_name] does the same with [filterArn]
    over the filters. *)
Theorem arn_by_name_first_match (campaigns filters : list pyval) (name : string) :
  Forall (listed "campaignArn") campaigns ->
  Forall (listed "filterArn") filters ->
  first_match_or_ValueError "campaignArn" name campaigns
    (get_campaign_arn_by_name campaigns name)
  /\ first_match_or_ValueError "filterArn" name filters
       (get_filter_arn_by_name filters name).
Proof.
  intros Hc Hf. split; apply get_arn_by_name_spec; assumption.
Qed.

Lemma arn_by_name_first_match_witness :
  let campaigns :=
    [summary "campaignArn" "personalize-movielens-up" "arn:campaign/up";
     summary "campaignArn" "personalize-movielens-sims" "arn:campaign/sims";
     summary "campaignArn" "personalize-movielens-sims" "arn:campaign/sims-2"] in
  let filters := [summary "filterArn" "by-genre" "arn:filter/by-genre"] in
  first_match_or_ValueError "campaignArn" "personalize-movielens-sims" campaigns
    (get_campaign_arn_by_name campaigns "personalize-movielens-sims")
  /\ first_match_or_ValueError "filterArn" "personalize-movielens-sims" filters
       (get_filter_arn_by_name filters "personalize-movielens-sims").
Proof.
  cbv zeta.
  apply arn_by_name_first_match;
    repeat constructor; eexists _, _; split; reflexivity.
Defined.

(** ** The polling spinner *)

Section SpinnerFacts.

Context {S Snapshot : Type}.
Variable fn_poll_result : world S -> pyresult Snapshot * world S.
Variable fn_is_finished : Snapshot -> world S -> outcome * world S.
Variable fn_stringify_result : Snapshot -> world S -> string * world S.
Variable poll_secs : Z.
Variable timeout_secs : Z.

Local Abbreviation spin_ := (spin fn_poll_result fn_is_finished fn_stringify_result
                     poll_secs timeout_secs).
Local Abbreviation iteration_ := (iteration fn_poll_result fn_is_finished fn_stringify_result
                          poll_secs timeout_secs).
Local Abbreviation iterations_ := (iterations fn_poll_result fn_is_finished fn_stringify_result
                           poll_secs timeout_secs).

Lemma polls_app (a b : list (entry S Snapshot)) :
  polls (a ++ b) = (polls a ++ polls b)%list.
Proof. apply omap_app. Qed.

(** The loop, one iteration at a time. *)
Lemma spin_stop (fuel : nat) (t0 : Z) (w : world S) evs r w' :
  iteration_ t0 w = (evs, Stop r, w') ->
  spin_ (Datatypes.S fuel) t0 w = Run (Some r) evs w'.
Proof. intros H. cbn [spin]. rewrite H. reflexivity. Qed.

Lemma spin_again (fuel : nat) (t0 : Z) (w : world S) evs w' :
  iteration_ t0 w = (evs, Again, w') ->
  spin_ (Datatypes.S fuel) t0 w
  = Run (result (spin_ fuel t0 w')) (evs ++ trace (spin_ fuel t0 w'))
      (final (spin_ fuel t0 w')).
Proof. intros H. cbn [spin]. rewrite H. reflexivity. Qed.

(** Every run the loop computes is a run of the relation. *)
Lemma spin_iterations (fuel : nat) (t0 : Z) (w : world S) :
  iterations_ t0 w (trace (spin_ fuel t0 w)) (result (spin_ fuel t0 w)).
Proof.
  revert w. induction fuel as [|fuel IH]; intros w; cbn [spin].
  - constructor.
  - unfold iteration.
    destruct (fn_poll_result w) as [[s|e] w1] eqn:Hp.
    + destruct (fn_is_finished s w1) as [[| |] w2] eqn:Hc.
      * destruct (fn_stringify_result s w2) as [text w3] eqn:Hf.
        destruct (timeout_secs <? now (sleep poll_secs (emit text [] w3)) - t0) eqn:Ht.
        -- cbn. eapply iterations_timeout; eauto. lia.
        -- cbn. eapply iterations_again; eauto. lia.
      * cbn. eapply iterations_ok; eauto.
      * cbn. eapply iterations_failed; eauto.
    + cbn. eapply iterations_error; eauto.
Qed.

(** Once a run has ended, more fuel changes nothing. *)
Lemma spin_more_fuel (fuel : nat) (t0 : Z) (w : world S) (r : spinner_result Snapshot) :
  result (spin_ fuel t0 w) = Some r ->
  forall fuel', (fuel <= fuel')%nat -> spin_ fuel' t0 w = spin_ fuel t0 w.
Proof.
  revert w. induction fuel as [|fuel IH]; intros w Hr fuel' Hle; cbn [spin] in *.
  - discriminate.
  - destruct fuel' as [|fuel']; [lia|]. cbn [spin].
    destruct (iteration_ t0 w) as [[evs [res|]] w'].
    + reflexivity.
    + cbn in Hr. rewrite (IH w' Hr fuel') by lia. reflexivity.
Qed.

(** The first thing a run with fuel does is the fetch, on the world it
    was started in. *)
Lemma spin_first_poll (fuel : nat) (t0 : Z) (w : world S) :
  exists rest,
    trace (spin_ (Datatypes.S fuel) t0 w)
    = (EvPoll (fst (fn_poll_result w)), snd (fn_poll_result w)) :: rest.
Proof.
  cbn [spin]. unfold iteration.
  destruct (fn_poll_result w) as [[s|e] w1]; cbn [fst snd].
  - destruct (fn_is_finished s w1) as [[| |] w2].
    + destruct (fn_stringify_result s w2) as [text w3].
      destruct (timeout_secs <? _); cbn; eexists; reflexivity.
    + cbn; eexists; reflexivity.
    + cbn; eexists; reflexivity.
  - cbn; eexists; reflexivity.
Qed.

End SpinnerFacts.

Section SpinnerTimeout.

Context {S Snapshot : Type}.
Variable fn_poll_result : world S -> pyresult Snapshot * world S.
Variable fn_is_finished : Snapshot -> world S -> outcome * world S.
Variable fn_stringify_result : Snapshot -> world S -> string * world S.
Variable poll_secs : Z.
Variable timeout_secs : Z.

Local Abbreviation spin_ := (spin fn_poll_result fn_is_finished fn_stringify_result
                     poll_secs timeout_secs).
Local Abbreviation iteration_ := (iteration fn_poll_result fn_is_finished fn_stringify_result
                          poll_secs timeout_secs).

Hypothesis Hpoll : 0 < poll_secs.
Hypothesis Hnever : never_terminal fn_poll_result fn_is_finished.
Hypothesis Hmono : clock_monotone fn_poll_result fn_is_finished fn_stringify_result.

Lemma iteration_never_terminal (t0 : Z) (w : world S) :
  exists s evs v w',
    iteration_ t0 w = (evs, v, w')
    /\ polls evs = [Ret s]
    /\ now w + poll_secs <= now w'
    /\ (instantaneous fn_poll_result fn_is_finished fn_stringify_result ->
        now w' = now w + poll_secs)
    /\ ((v = Again /\ now w' - t0 <= timeout_secs)
        \/ (v = Stop (PollingTimedOut s) /\ timeout_secs < now w' - t0)).
Proof.
  destruct (Hnever w) as (s & Hs & Hc).
  destruct Hmono as (M1 & M2 & M3).
  unfold iteration.
  specialize (M1 w).
  destruct (fn_poll_result w) as [r w1] eqn:E1. cbn [fst snd] in *. subst r.
  specialize (M2 s w1).
  destruct (fn_is_finished s w1) as [o w2] eqn:E2. cbn [fst snd] in *. subst o.
  specialize (M3 s w2).
  destruct (fn_stringify_result s w2) as [text w3] eqn:E3. cbn [fst snd] in *.
  eexists s, _, _, _. split; [reflexivity|].
  split; [reflexivity|]. cbn [sleep emit now].
  split; [lia|]. split.
  - intros (I1 & I2 & I3).
    specialize (I1 w). specialize (I2 s w1). specialize (I3 s w2).
    rewrite E1 in I1. rewrite E2 in I2. rewrite E3 in I3. cbn [snd] in *. lia.
  - destruct (timeout_secs <? now w3 + poll_secs - t0) eqn:Ht; [right|left];
      (split; [reflexivity|lia]).
Qed.

(** Started within the timeout, the loop ends with [PollingTimedOut] after
    at most [n] iterations when [n] poll intervals exceed what is left of
    the timeout; its last iteration began within the timeout. *)
Lemma spin_times_out (n : nat) (t0 : Z) (w : world S) :
  now w - t0 <= timeout_secs ->
  timeout_secs - (now w - t0) < poll_secs * Z.of_nat n ->
  exists fuel s w_last evs,
    (1 <= fuel <= n)%nat
    /\ result (spin_ fuel t0 w) = Some (PollingTimedOut s)
    /\ length (polls (trace (spin_ fuel t0 w))) = fuel
    /\ now w <= now w_last
    /\ now w_last - t0 <= timeout_secs
    /\ iteration_ t0 w_last = (evs, Stop (PollingTimedOut s), final (spin_ fuel t0 w))
    /\ timeout_secs < now (final (spin_ fuel t0 w)) - t0.
Proof.
  revert w. induction n as [|n IH]; intros w Hin Hleft; [lia|].
  destruct (iteration_never_terminal t0 w)
    as (s & evs & v & w' & Hit & Hpolls & Hadv & _ & [[-> Hle]|[-> Hgt]]).
  - destruct (IH w') as (fuel & s' & w_last & evs' & Hf & Hres & Hlen & Hnow & Hlast & Hiter & Hover);
      [lia|nia|].
    exists (Datatypes.S fuel), s', w_last, evs'. cbn [spin]. rewrite Hit.
    cbn [result trace final].
    split; [lia|]. split; [exact Hres|]. split.
    + unfold polls at 1. rewrite omap_app, length_app.
      fold (polls evs). fold (polls (trace (spin_ fuel t0 w'))).
      rewrite Hpolls, Hlen. reflexivity.
    + split; [lia|]. split; [exact Hlast|]. split; [exact Hiter|exact Hover].
  - exists 1%nat, s, w, evs. cbn [spin]. rewrite Hit. cbn [result trace final].
    split; [lia|]. split; [reflexivity|]. split; [rewrite Hpolls; reflexivity|].
    split; [lia|]. split; [exact Hin|]. split; [reflexivity|exact Hgt].
Qed.

End SpinnerTimeout.

(** ** Scripted callbacks *)

Section SpinnerScript.

Context {S Snapshot : Type}.
Variable fn_poll_result : world S -> pyresult Snapshot * world S.
Variable fn_is_finished : Snapshot -> world S -> outcome * world S.
Variable fn_stringify_result : Snapshot -> world S -> string * world S.
Variable poll_secs : Z.
Variable timeout_secs : Z.

Local Abbreviation spin_ := (spin fn_poll_result fn_is_finished fn_stringify_result
                     poll_secs timeout_secs).
Local Abbreviation iteration_ := (iteration fn_poll_result fn_is_finished fn_stringify_result
                          poll_secs timeout_secs).
Local Abbreviation next_ := (next_fetch_world fn_poll_result fn_is_finished
                               fn_stringify_result poll_secs).
Local Abbreviation world_ := (fetch_world fn_poll_result fn_is_finished
                                fn_stringify_result poll_secs).
Local Abbreviation fetch_ := (kth_fetch fn_poll_result fn_is_finished
                                fn_stringify_result poll_secs).
Local Abbreviation outcome_ := (kth_outcome fn_poll_result fn_is_finished
                                  fn_stringify_result poll_secs).
Local Abbreviation not_yet_ := (not_yet_for fn_poll_result fn_is_finished
                                  fn_stringify_result poll_secs timeout_secs).

Lemma classifications_app (a b : list (entry S Snapshot)) :
  classifications (a ++ b) = (classifications a ++ classifications b)%list.
Proof. apply omap_app. Qed.

Lemma displays_app (a b : list (entry S Snapshot)) :
  displays (a ++ b) = (displays a ++ displays b)%list.
Proof. apply omap_app. Qed.

(** One iteration whose snapshot is "not yet finished", within the
    timeout: the loop goes on from the next fetch world. *)
Lemma iteration_not_yet (t0 : Z) (w : world S) :
  outcome_ 0%nat w = Some NotYetFinished ->
  now (next_ w) - t0 <= timeout_secs ->
  exists evs,
    iteration_ t0 w = (evs, Again, next_ w)
    /\ polls evs = [fetch_ 0%nat w]
    /\ map snd (classifications evs) = [NotYetFinished]
    /\ length (displays evs) = 1%nat.
Proof.
  unfold kth_outcome, kth_fetch, next_fetch_world, iteration. cbn [fetch_world].
  destruct (fn_poll_result w) as [[s|e] w1]; [|discriminate].
  destruct (fn_is_finished s w1) as [o w2]. cbn [fst]. intros [= ->].
  destruct (fn_stringify_result s w2) as [text w3]. intros Ht.
  destruct (Z.ltb_spec timeout_secs (now (sleep poll_secs (emit text [] w3)) - t0));
    [lia|].
  eexists. split; [reflexivity|]. repeat split.
Qed.

(** The iterations that end the loop. *)
Lemma iteration_finished (t0 : Z) (w : world S) :
  outcome_ 0%nat w = Some FinishedOk ->
  exists s evs w',
    fetch_ 0%nat w = Ret s
    /\ iteration_ t0 w = (evs, Stop Returned, w')
    /\ w' = snd (fn_is_finished s (snd (fn_poll_result w)))
    /\ polls evs = [Ret s]
    /\ classifications evs = [(s, FinishedOk)]
    /\ displays evs = [].
Proof.
  unfold kth_outcome, kth_fetch, iteration. cbn [fetch_world].
  destruct (fn_poll_result w) as [[s|e] w1]; [|discriminate]. cbn [fst snd].
  destruct (fn_is_finished s w1) as [o w2] eqn:E. cbn [fst]. intros [= ->].
  exists s. eexists _, _. rewrite E. repeat split.
Qed.

Lemma iteration_failed (t0 : Z) (w : world S) :
  outcome_ 0%nat w = Some FatalFailure ->
  exists s evs w',
    fetch_ 0%nat w = Ret s
    /\ iteration_ t0 w = (evs, Stop (JobFailed s), w')
    /\ w' = snd (fn_is_finished s (snd (fn_poll_result w)))
    /\ polls evs = [Ret s]
    /\ classifications evs = [(s, FatalFailure)]
    /\ displays evs = [].
Proof.
  unfold kth_outcome, kth_fetch, iteration. cbn [fetch_world].
  destruct (fn_poll_result w) as [[s|e] w1]; [|discriminate]. cbn [fst snd].
  destruct (fn_is_finished s w1) as [o w2] eqn:E. cbn [fst]. intros [= ->].
  exists s. eexists _, _. rewrite E. repeat split.
Qed.

Lemma iteration_fetch_raises (t0 : Z) (w : world S) (e : pyexn) :
  fetch_ 0%nat w = Raise e ->
  iteration_ t0 w
  = ([(EvPoll (Raise e), snd (fn_poll_result w))], Stop (FetchError e),
     snd (fn_poll_result w)).
Proof.
  unfold kth_fetch, iteration. cbn [fetch_world].
  destruct (fn_poll_result w) as [[s|e0] w1]; cbn [fst snd]; [discriminate|].
  intros [= ->]. reflexivity.
Qed.

Lemma not_yet_next (n : nat) (t0 : Z) (w : world S) :
  not_yet_ (Datatypes.S n) t0 w ->
  outcome_ 0%nat w = Some NotYetFinished
  /\ now (next_ w) - t0 <= timeout_secs
  /\ not_yet_ n t0 (next_ w).
Proof.
  intros H. destruct (H 0%nat ltac:(lia)) as [H0 Ht].
  split; [exact H0|]. split; [exact Ht|].
  intros k Hk. exact (H (Datatypes.S k) ltac:(lia)).
Qed.

Lemma fetches_from_next (n : nat) (w : world S) :
  map (fun k => fetch_ k w) (seq 0 (Datatypes.S n))
  = fetch_ 0%nat w :: map (fun k => fetch_ k (next_ w)) (seq 0 n).
Proof.
  cbn [seq map]. f_equal. rewrite <- fmap_S_seq.
  change (map (fun k => fetch_ k w) (Datatypes.S <$> seq 0 n))
    with ((fun k => fetch_ k w) <$> (Datatypes.S <$> seq 0 n)).
  rewrite <- list_fmap_compose. reflexivity.
Qed.

(** With the first [n] snapshots scripted "not yet finished", [n] rounds
    of the loop are [n] iterations of one fetch each, and the loop goes
    on from the world of invocation number [n]. *)
Lemma spin_not_yets (n : nat) :
  forall (t0 : Z) (w : world S) (fuel : nat),
    not_yet_ n t0 w ->
    exists pre,
      spin_ (n + fuel) t0 w
      = Run (result (spin_ fuel t0 (world_ n w)))
          (pre ++ trace (spin_ fuel t0 (world_ n w)))
          (final (spin_ fuel t0 (world_ n w)))
      /\ polls pre = map (fun k => fetch_ k w) (seq 0 n)
      /\ map snd (classifications pre) = replicate n NotYetFinished
      /\ length (displays pre) = n.
Proof.
  induction n as [|n IH]; intros t0 w fuel H.
  - exists []. cbn. destruct (spin_ fuel t0 w). repeat split.
  - destruct (not_yet_next _ _ _ H) as (H0 & Ht & Hrest).
    destruct (iteration_not_yet t0 w H0 Ht) as (evs & Hit & Hp & Hc & Hd).
    destruct (IH t0 (next_ w) fuel Hrest) as (pre & Hrun & Hp' & Hc' & Hd').
    exists (evs ++ pre)%list.
    change (Datatypes.S n + fuel)%nat with (Datatypes.S (n + fuel)).
    rewrite (spin_again _ _ _ _ _ _ _ _ _ _ Hit), Hrun. cbn [result trace final].
    cbn [fetch_world]. rewrite app_assoc.
    split; [reflexivity|].
    rewrite polls_app, classifications_app, displays_app, map_app, length_app.
    rewrite Hp, Hp', Hc, Hc', Hd, Hd', fetches_from_next.
    repeat split.
Qed.

(** Until then the loop has not ended. *)
Lemma spin_still_polling (fuel : nat) :
  forall (n : nat) (t0 : Z) (w : world S),
    not_yet_ n t0 w -> (fuel <= n)%nat -> result (spin_ fuel t0 w) = None.
Proof.
  induction fuel as [|fuel IH]; intros n t0 w H Hle; [reflexivity|].
  destruct n as [|n]; [lia|].
  destruct (not_yet_next _ _ _ H) as (H0 & Ht & Hrest).
  destruct (iteration_not_yet t0 w H0 Ht) as (evs & Hit & _).
  rewrite (spin_again _ _ _ _ _ _ _ _ _ _ Hit). cbn [result].
  apply (IH n); [exact Hrest|lia].
Qed.

(** The run with enough fuel, when the script ends with an iteration that
    stops the loop. *)
Lemma spin_script_ends (n : nat) (t0 : Z) (w : world S)
    (evs : list (entry S Snapshot)) (r : spinner_result Snapshot) (w' : world S) :
  not_yet_ n t0 w ->
  iteration_ t0 (world_ n w) = (evs, Stop r, w') ->
  forall fuel, (Datatypes.S n <= fuel)%nat ->
    exists pre,
      spin_ fuel t0 w = Run (Some r) (pre ++ evs) w'
      /\ polls pre = map (fun k => fetch_ k w) (seq 0 n)
      /\ map snd (classifications pre) = replicate n NotYetFinished
      /\ length (displays pre) = n.
Proof.
  intros H Hit fuel Hle.
  destruct (spin_not_yets n t0 w (fuel - n) H) as (pre & Hrun & Hp & Hc & Hd).
  replace (n + (fuel - n))%nat with fuel in Hrun by lia.
  destruct (fuel - n)%nat as [|rest] eqn:E; [lia|].
  rewrite (spin_stop _ _ _ _ _ _ _ _ _ _ _ Hit) in Hrun. cbn [result trace final] in Hrun.
  exists pre. repeat split; assumption.
Qed.

Lemma fetches_snoc (n : nat) (w : world S) :
  map (fun k => fetch_ k w) (seq 0 (Datatypes.S n))
  = (map (fun k => fetch_ k w) (seq 0 n) ++ [fetch_ n w])%list.
Proof. rewrite seq_S, map_app. reflexivity. Qed.

(** The three ways a script ends, with enough fuel. *)
Lemma spin_script_finished (n : nat) (t0 : Z) (w : world S) :
  not_yet_ n t0 w ->
  outcome_ n w = Some FinishedOk ->
  exists s,
    fetch_ n w = Ret s
    /\ forall fuel, (Datatypes.S n <= fuel)%nat ->
         result (spin_ fuel t0 w) = Some Returned
         /\ polls (trace (spin_ fuel t0 w))
            = map (fun k => fetch_ k w) (seq 0 (Datatypes.S n))
         /\ map snd (classifications (trace (spin_ fuel t0 w)))
            = (replicate n NotYetFinished ++ [FinishedOk])%list
         /\ length (displays (trace (spin_ fuel t0 w))) = n
         /\ final (spin_ fuel t0 w)
            = snd (fn_is_finished s (snd (fn_poll_result (world_ n w)))).
Proof.
  intros H Ho.
  destruct (iteration_finished t0 (world_ n w) Ho)
    as (s & evs & w' & Hs & Hit & Hw' & Hp & Hc & Hd).
  exists s. split; [exact Hs|]. intros fuel Hle.
  destruct (spin_script_ends n t0 w evs _ w' H Hit fuel Hle)
    as (pre & -> & Hp' & Hc' & Hd').
  cbn [result trace final].
  rewrite polls_app, classifications_app, displays_app, map_app, length_app.
  rewrite Hp, Hp', Hc, Hc', Hd, Hd', fetches_snoc.
  change (fetch_ n w) with (fetch_ 0%nat (world_ n w)). rewrite Hs. cbn.
  repeat split; [lia|exact Hw'].
Qed.

Lemma spin_script_failed (n : nat) (t0 : Z) (w : world S) :
  not_yet_ n t0 w ->
  outcome_ n w = Some FatalFailure ->
  exists s,
    fetch_ n w = Ret s
    /\ forall fuel, (Datatypes.S n <= fuel)%nat ->
         result (spin_ fuel t0 w) = Some (JobFailed s)
         /\ polls (trace (spin_ fuel t0 w))
            = map (fun k => fetch_ k w) (seq 0 (Datatypes.S n))
         /\ map snd (classifications (trace (spin_ fuel t0 w)))
            = (replicate n NotYetFinished ++ [FatalFailure])%list
         /\ length (displays (trace (spin_ fuel t0 w))) = n
         /\ final (spin_ fuel t0 w)
            = snd (fn_is_finished s (snd (fn_poll_result (world_ n w)))).
Proof.
  intros H Ho.
  destruct (iteration_failed t0 (world_ n w) Ho)
    as (s & evs & w' & Hs & Hit & Hw' & Hp & Hc & Hd).
  exists s. split; [exact Hs|]. intros fuel Hle.
  destruct (spin_script_ends n t0 w evs _ w' H Hit fuel Hle)
    as (pre & -> & Hp' & Hc' & Hd').
  cbn [result trace final].
  rewrite polls_app, classifications_app, displays_app, map_app, length_app.
  rewrite Hp, Hp', Hc, Hc', Hd, Hd', fetches_snoc.
  change (fetch_ n w) with (fetch_ 0%nat (world_ n w)). rewrite Hs. cbn.
  repeat split; [lia|exact Hw'].
Qed.

Lemma spin_script_fetch_error (n : nat) (t0 : Z) (w : world S) (e : pyexn) :
  not_yet_ n t0 w ->
  fetch_ n w = Raise e ->
  forall fuel, (Datatypes.S n <= fuel)%nat ->
    result (spin_ fuel t0 w) = Some (FetchError e)
    /\ polls (trace (spin_ fuel t0 w))
       = map (fun k => fetch_ k w) (seq 0 (Datatypes.S n))
    /\ map snd (classifications (trace (spin_ fuel t0 w)))
       = replicate n NotYetFinished
    /\ length (displays (trace (spin_ fuel t0 w))) = n
    /\ last (trace (spin_ fuel t0 w))
       = Some (EvPoll (Raise e), final (spin_ fuel t0 w))
    /\ final (spin_ fuel t0 w) = snd (fn_poll_result (world_ n w)).
Proof.
  intros H He fuel Hle.
  pose proof (iteration_fetch_raises t0 (world_ n w) e He) as Hit.
  destruct (spin_script_ends n t0 w _ _ _ H Hit fuel Hle)
    as (pre & -> & Hp' & Hc' & Hd').
  cbn [result trace final].
  rewrite polls_app, classifications_app, displays_app, map_app, length_app.
  rewrite Hp', Hc', Hd', fetches_snoc, He, last_snoc. cbn.
  rewrite !app_nil_r. repeat split. lia.
Qed.

End SpinnerScript.

Section SpinnerObserved.

Context {S Snapshot : Type}.
Variable fn_poll_result : world S -> pyresult Snapshot * world S.
Variable fn_is_finished : Snapshot -> world S -> outcome * world S.
Variable fn_stringify_result : Snapshot -> world S -> string * world S.
Variable poll_secs : Z.
Variable timeout_secs : Z.

Local Abbreviation spin_ := (spin fn_poll_result fn_is_finished fn_stringify_result
                     poll_secs timeout_secs).
Local Abbreviation next_ := (next_fetch_world fn_poll_result fn_is_finished
                               fn_stringify_result poll_secs).
Local Abbreviation fetch_ := (kth_fetch fn_poll_result fn_is_finished
                                fn_stringify_result poll_secs).
Local Abbreviation outcome_ := (kth_outcome fn_poll_result fn_is_finished
                                  fn_stringify_result poll_secs).
Local Abbreviation not_yet_ := (not_yet_for fn_poll_result fn_is_finished
                                  fn_stringify_result poll_secs timeout_secs).

(** A round of the loop holds one fetch and at most one classification. *)
Lemma spin_fetches_le (fuel : nat) (t0 : Z) (w : world S) :
  (length (polls (trace (spin_ fuel t0 w))) <= fuel)%nat
  /\ (length (classifications (trace (spin_ fuel t0 w))) <= fuel)%nat.
Proof.
  revert w. induction fuel as [|fuel IH]; intros w; [cbn; lia|].
  cbn [spin]. unfold iteration.
  destruct (fn_poll_result w) as [[s|e] w1]; [|cbn; lia].
  destruct (fn_is_finished s w1) as [[| |] w2]; [|cbn; lia|cbn; lia].
  destruct (fn_stringify_result s w2) as [text w3]. cbv zeta.
  destruct (timeout_secs <? _); [cbn; lia|].
  cbn [trace]. rewrite polls_app, classifications_app, !length_app.
  destruct (IH (sleep poll_secs (emit text [] w3))) as [Hp Hc].
  cbn [polls classifications omap fst length] in *. cbn. lia.
Qed.

(** The other way round: a run whose classification log reads [n] times
    "not yet finished" and then a terminal outcome was made by callbacks
    that follow the script, so the script's clause on the timeout holds of
    every such run. *)
Lemma classified_run_follows_script (n : nat) (o : outcome) (fuel : nat) (t0 : Z)
    (w : world S) :
  o <> NotYetFinished ->
  map snd (classifications (trace (spin_ fuel t0 w)))
  = (replicate n NotYetFinished ++ [o])%list ->
  not_yet_ n t0 w /\ outcome_ n w = Some o.
Proof.
  intros Ho. revert n w. induction fuel as [|fuel IH]; intros n w Hlog.
  - cbn in Hlog. destruct n; discriminate Hlog.
  - cbn [spin] in Hlog. unfold iteration in Hlog.
    destruct (fn_poll_result w) as [[s|e] w1] eqn:Ep.
    2:{ cbn in Hlog. destruct n; discriminate Hlog. }
    destruct (fn_is_finished s w1) as [o' w2] eqn:Ec.
    destruct o'.
    + destruct (fn_stringify_result s w2) as [text w3] eqn:Es.
      cbv zeta in Hlog.
      assert (Hnext : next_ w = sleep poll_secs (emit text [] w3)).
      { unfold next_fetch_world. rewrite Ep, Ec, Es. reflexivity. }
      destruct (timeout_secs <? now (sleep poll_secs (emit text [] w3)) - t0) eqn:Et.
      * cbn in Hlog. destruct n as [|n]; cbn in Hlog.
        -- injection Hlog as <-. congruence.
        -- destruct n; discriminate Hlog.
      * cbn [trace] in Hlog. rewrite classifications_app in Hlog.
        cbn in Hlog. destruct n as [|n]; cbn in Hlog.
        -- injection Hlog as <- _. congruence.
        -- injection Hlog as Hlog.
           destruct (IH n _ Hlog) as [Hs Hl]. split.
           ++ intros [|k] Hk.
              ** split.
                 --- unfold kth_outcome. cbn [fetch_world]. rewrite Ep, Ec. reflexivity.
                 --- cbn [fetch_world]. rewrite Hnext. apply Z.ltb_ge in Et. exact Et.
              ** unfold kth_outcome. cbn [fetch_world]. rewrite Hnext.
                 apply (Hs k). lia.
           ++ unfold kth_outcome. cbn [fetch_world]. rewrite Hnext. exact Hl.
    + cbn in Hlog. destruct n as [|n]; cbn in Hlog.
      * injection Hlog as <-. split; [intros k Hk; lia|].
        unfold kth_outcome. cbn [fetch_world]. rewrite Ep, Ec. reflexivity.
      * injection Hlog as Hlog. destruct n; discriminate Hlog.
    + cbn in Hlog. destruct n as [|n]; cbn in Hlog.
      * injection Hlog as <-. split; [intros k Hk; lia|].
        unfold kth_outcome. cbn [fetch_world]. rewrite Ep, Ec. reflexivity.
      * discriminate Hlog.
Qed.

(** Likewise a run whose invocation number [n] raised. *)
Lemma raising_run_follows_script (n : nat) (e : pyexn) (fuel : nat) (t0 : Z)
    (w : world S) :
  polls (trace (spin_ fuel t0 w)) !! n = Some (Raise e) ->
  not_yet_ n t0 w /\ fetch_ n w = Raise e.
Proof.
  revert n w. induction fuel as [|fuel IH]; intros n w Hlog.
  - cbn in Hlog. discriminate Hlog.
  - cbn [spin] in Hlog. unfold iteration in Hlog.
    destruct (fn_poll_result w) as [[s|e'] w1] eqn:Ep.
    2:{ cbn in Hlog. destruct n as [|n]; [|discriminate Hlog].
        injection Hlog as ->. split; [intros k Hk; lia|].
        unfold kth_fetch. cbn [fetch_world]. rewrite Ep. reflexivity. }
    destruct (fn_is_finished s w1) as [o' w2] eqn:Ec.
    destruct o'.
    + destruct (fn_stringify_result s w2) as [text w3] eqn:Es.
      cbv zeta in Hlog.
      assert (Hnext : next_ w = sleep poll_secs (emit text [] w3)).
      { unfold next_fetch_world. rewrite Ep, Ec, Es. reflexivity. }
      destruct (timeout_secs <? now (sleep poll_secs (emit text [] w3)) - t0) eqn:Et.
      * cbn in Hlog. destruct n as [|[|n]]; discriminate Hlog.
      * cbn [trace] in Hlog. rewrite polls_app in Hlog.
        cbn in Hlog. destruct n as [|n]; [discriminate Hlog|]. cbn in Hlog.
        destruct (IH n _ Hlog) as [Hs Hl]. split.
        -- intros [|k] Hk.
           ++ split.
              ** unfold kth_outcome. cbn [fetch_world]. rewrite Ep, Ec. reflexivity.
              ** cbn [fetch_world]. rewrite Hnext. apply Z.ltb_ge in Et. exact Et.
           ++ unfold kth_outcome. cbn [fetch_world]. rewrite Hnext.
              apply (Hs k). lia.
        -- unfold kth_fetch. cbn [fetch_world]. rewrite Hnext. exact Hl.
    + cbn in Hlog. destruct n as [|[|n]]; discriminate Hlog.
    + cbn in Hlog. destruct n as [|[|n]]; discriminate Hlog.
Qed.

(** So what the script gives holds of every run observed to classify, or
    to fail, in that way, whatever its fuel. *)
Lemma observed_run_returns (n fuel : nat) (t0 : Z) (w : world S) :
  map snd (classifications (trace (spin_ fuel t0 w)))
  = (replicate n NotYetFinished ++ [FinishedOk])%list ->
  result (spin_ fuel t0 w) = Some Returned
  /\ length (polls (trace (spin_ fuel t0 w))) = Datatypes.S n.
Proof.
  intros Hlog.
  destruct (classified_run_follows_script n FinishedOk fuel t0 w ltac:(discriminate) Hlog)
    as [Hs Ho].
  assert (Hf : (Datatypes.S n <= fuel)%nat).
  { destruct (spin_fetches_le fuel t0 w) as [_ Hc].
    rewrite <- (length_map snd), Hlog, length_app, length_replicate in Hc.
    cbn in Hc. lia. }
  destruct (spin_script_finished _ _ _ _ _ n t0 w Hs Ho) as (s & _ & Hrun).
  destruct (Hrun fuel Hf) as (Hres & Hp & _).
  split; [exact Hres|]. rewrite Hp, length_map, length_seq. reflexivity.
Qed.

Lemma observed_run_fails (n fuel : nat) (t0 : Z) (w : world S) :
  map snd (classifications (trace (spin_ fuel t0 w)))
  = (replicate n NotYetFinished ++ [FatalFailure])%list ->
  exists s,
    fetch_ n w = Ret s
    /\ result (spin_ fuel t0 w) = Some (JobFailed s)
    /\ length (polls (trace (spin_ fuel t0 w))) = Datatypes.S n.
Proof.
  intros Hlog.
  destruct (classified_run_follows_script n FatalFailure fuel t0 w ltac:(discriminate) Hlog)
    as [Hs Ho].
  assert (Hf : (Datatypes.S n <= fuel)%nat).
  { destruct (spin_fetches_le fuel t0 w) as [_ Hc].
    rewrite <- (length_map snd), Hlog, length_app, length_replicate in Hc.
    cbn in Hc. lia. }
  destruct (spin_script_failed _ _ _ _ _ n t0 w Hs Ho) as (s & Hfetch & Hrun).
  destruct (Hrun fuel Hf) as (Hres & Hp & _).
  exists s. split; [exact Hfetch|]. split; [exact Hres|].
  rewrite Hp, length_map, length_seq. reflexivity.
Qed.

Lemma observed_run_passes_error_on (n fuel : nat) (e : pyexn) (t0 : Z) (w : world S) :
  polls (trace (spin_ fuel t0 w)) !! n = Some (Raise e) ->
  result (spin_ fuel t0 w) = Some (FetchError e)
  /\ length (polls (trace (spin_ fuel t0 w))) = Datatypes.S n.
Proof.
  intros Hlog.
  destruct (raising_run_follows_script n e fuel t0 w Hlog) as [Hs He].
  assert (Hf : (Datatypes.S n <= fuel)%nat).
  { destruct (spin_fetches_le fuel t0 w) as [Hp _].
    apply lookup_lt_Some in Hlog. lia. }
  destruct (spin_script_fetch_error _ _ _ _ _ n t0 w e Hs He fuel Hf) as (Hres & Hp & _).
  split; [exact Hres|]. rewrite Hp, length_map, length_seq. reflexivity.
Qed.

End SpinnerObserved.

(** ** The single-job cells against a scripted service *)

Lemma time_in_calls_snoc (svc : service) (n : nat) :
  forall c, time_in_calls svc c (Datatypes.S n)
            = time_in_calls svc c n + Z.of_nat (latency svc (c + n)).
Proof.
  induction n as [|n IH]; intros c.
  - cbn. rewrite Nat.add_0_r. lia.
  - change (time_in_calls svc c (Datatypes.S (Datatypes.S n)))
      with (Z.of_nat (latency svc c) + time_in_calls svc (Datatypes.S c) (Datatypes.S n)).
    rewrite IH. cbn [time_in_calls].
    replace (Datatypes.S c + n)%nat with (c + Datatypes.S n)%nat by lia. lia.
Qed.

Lemma time_in_calls_le (svc : service) (c k n : nat) :
  (k <= n)%nat -> 0 <= time_in_calls svc c k <= time_in_calls svc c n.
Proof.
  intros Hle. split.
  - clear Hle. revert c. induction k as [|k IH]; intros c; cbn; [lia|].
    specialize (IH (Datatypes.S c)). lia.
  - induction Hle as [|n _ IH]; [lia|]. rewrite time_in_calls_snoc. lia.
Qed.

Section SingleJobScript.

Variable svc : service.
Variables arn kind : string.
Variable p : pyval -> pyresult pyval.
Variables poll_secs timeout_secs : Z.

Local Abbreviation world_ := (fetch_world (poll_one svc arn) (classify_pure p)
                                (stringify_status kind) poll_secs).
Local Abbreviation spinner_ := (polling_spinner (poll_one svc arn) (classify_pure p)
                                  (stringify_status kind) poll_secs timeout_secs).

(** Where the cell stands when it makes describe call number [k], the
    calls before it having returned. *)
Lemma single_job_world (k : nat) :
  forall w : world kernel,
    (forall i, (i < k)%nat ->
       is_raise (respond svc (length (calls (env w)) + i) arn) = false) ->
    length (calls (env (world_ k w))) = (length (calls (env w)) + k)%nat
    /\ now (world_ k w)
       = now w + time_in_calls svc (length (calls (env w))) k + Z.of_nat k * poll_secs.
Proof.
  induction k as [|k IH]; intros w Hret.
  - cbn. split; lia.
  - cbn [fetch_world].
    pose proof (Hret 0%nat ltac:(lia)) as H0. rewrite Nat.add_0_r in H0.
    set (w1 := next_fetch_world (poll_one svc arn) (classify_pure p)
                 (stringify_status kind) poll_secs w).
    assert (Hw1 : length (calls (env w1)) = Datatypes.S (length (calls (env w)))
                  /\ now w1 = now w + Z.of_nat (latency svc (length (calls (env w))))
                              + poll_secs).
    { subst w1. unfold next_fetch_world, poll_one, describe, classify_pure,
        stringify_status.
      destruct (respond svc (length (calls (env w))) arn) as [d|e]; [|discriminate].
      cbn. rewrite length_app. cbn. split; lia. }
    clearbody w1. destruct Hw1 as [Hc Hn].
    destruct (IH w1) as [IHc IHn].
    { intros i Hi. rewrite Hc.
      replace (Datatypes.S (length (calls (env w))) + i)%nat
        with (length (calls (env w)) + Datatypes.S i)%nat by lia.
      apply Hret. lia. }
    rewrite IHc, IHn, Hc, Hn. cbn [time_in_calls]. split; lia.
Qed.

Lemma single_job_fetch (k : nat) (w : world kernel) :
  (forall i, (i < k)%nat ->
     is_raise (respond svc (length (calls (env w)) + i) arn) = false) ->
  kth_fetch (poll_one svc arn) (classify_pure p) (stringify_status kind) poll_secs k w
  = respond svc (length (calls (env w)) + k) arn
  /\ kth_outcome (poll_one svc arn) (classify_pure p) (stringify_status kind)
       poll_secs k w
     = match respond svc (length (calls (env w)) + k) arn with
       | Ret desc => Some (outcome_of (p desc))
       | Raise _ => None
       end
  /\ length (calls (env (snd (poll_one svc arn (world_ k w)))))
     = Datatypes.S (length (calls (env w)) + k).
Proof.
  intros Hret. destruct (single_job_world k w Hret) as [Hc _].
  unfold kth_fetch, kth_outcome. set (wk := world_ k w) in *. clearbody wk.
  unfold poll_one, describe, classify_pure. cbn [fst snd].
  rewrite Hc. split; [reflexivity|]. split.
  - destruct (respond svc (length (calls (env w)) + k) arn); reflexivity.
  - cbn. rewrite length_app, Hc. cbn. lia.
Qed.

Lemma pending_returns (c n : nat) :
  pending_for svc arn p poll_secs timeout_secs c n ->
  forall i, (i < n)%nat -> is_raise (respond svc (c + i) arn) = false.
Proof. intros [H _] i Hi. destruct (H i Hi) as (d & -> & _). reflexivity. Qed.

(** The scripted service scripts the callbacks. *)
Lemma pending_not_yet (n : nat) (w : world kernel) :
  0 <= poll_secs ->
  pending_for svc arn p poll_secs timeout_secs (length (calls (env w))) n ->
  not_yet_for (poll_one svc arn) (classify_pure p) (stringify_status kind)
    poll_secs timeout_secs n (now w) w.
Proof.
  intros Hpoll Hpend k Hk. pose proof (pending_returns _ _ Hpend) as Hret.
  destruct Hpend as [Hp Ht]. split.
  - destruct (single_job_fetch k w) as (_ & -> & _).
    { intros i Hi. apply Hret. lia. }
    destruct (Hp k Hk) as (d & -> & Hd). rewrite Hd. reflexivity.
  - destruct (single_job_world (Datatypes.S k) w) as [_ ->].
    { intros i Hi. apply Hret. lia. }
    pose proof (time_in_calls_le svc (length (calls (env w))) (Datatypes.S k) n
                  ltac:(lia)).
    nia.
Qed.

(** The cell's wait, from the service's answers: after [n] pending
    answers, the answer number [n] decides. *)
Lemma single_job_returns (n : nat) (w : world kernel) (desc : pyval) :
  0 <= poll_secs ->
  pending_for svc arn p poll_secs timeout_secs (length (calls (env w))) n ->
  respond svc (length (calls (env w)) + n) arn = Ret desc ->
  outcome_of (p desc) = FinishedOk ->
  forall fuel, (Datatypes.S n <= fuel)%nat ->
    result (spinner_ fuel w) = Some Returned
    /\ length (polls (trace (spinner_ fuel w))) = Datatypes.S n
    /\ length (displays (trace (spinner_ fuel w))) = n
    /\ length (calls (env (final (spinner_ fuel w))))
       = (length (calls (env w)) + Datatypes.S n)%nat.
Proof.
  intros Hpoll Hpend Hr Ho fuel Hle.
  pose proof (pending_not_yet n w Hpoll Hpend) as Hscript.
  destruct (single_job_fetch n w) as (Hf & Hk & Hcalls).
  { intros i Hi. eapply pending_returns; eassumption. }
  rewrite Hr, Ho in Hk.
  destruct (spin_script_finished _ _ _ _ _ n (now w) w Hscript Hk) as (s & Hs & Hrun).
  destruct (Hrun fuel Hle) as (Hres & Hp & _ & Hd & Hfin).
  unfold polling_spinner. rewrite Hres, Hp, Hd, Hfin, length_map, length_seq.
  repeat split. cbn [classify_pure snd]. rewrite Hcalls. lia.
Qed.

Lemma single_job_fails (n : nat) (w : world kernel) (desc : pyval) :
  0 <= poll_secs ->
  pending_for svc arn p poll_secs timeout_secs (length (calls (env w))) n ->
  respond svc (length (calls (env w)) + n) arn = Ret desc ->
  outcome_of (p desc) = FatalFailure ->
  forall fuel, (Datatypes.S n <= fuel)%nat ->
    result (spinner_ fuel w) = Some (JobFailed desc)
    /\ length (polls (trace (spinner_ fuel w))) = Datatypes.S n
    /\ length (displays (trace (spinner_ fuel w))) = n
    /\ length (calls (env (final (spinner_ fuel w))))
       = (length (calls (env w)) + Datatypes.S n)%nat.
Proof.
  intros Hpoll Hpend Hr Ho fuel Hle.
  pose proof (pending_not_yet n w Hpoll Hpend) as Hscript.
  destruct (single_job_fetch n w) as (Hf & Hk & Hcalls).
  { intros i Hi. eapply pending_returns; eassumption. }
  rewrite Hr, Ho in Hk. rewrite Hr in Hf.
  destruct (spin_script_failed _ _ _ _ _ n (now w) w Hscript Hk) as (s & Hs & Hrun).
  rewrite Hf in Hs. injection Hs as <-.
  destruct (Hrun fuel Hle) as (Hres & Hp & _ & Hd & Hfin).
  unfold polling_spinner. rewrite Hres, Hp, Hd, Hfin, length_map, length_seq.
  repeat split. cbn [classify_pure snd]. rewrite Hcalls. lia.
Qed.

Lemma single_job_fetch_error (n : nat) (w : world kernel) (e : pyexn) :
  0 <= poll_secs ->
  pending_for svc arn p poll_secs timeout_secs (length (calls (env w))) n ->
  respond svc (length (calls (env w)) + n) arn = Raise e ->
  forall fuel, (Datatypes.S n <= fuel)%nat ->
    result (spinner_ fuel w) = Some (FetchError e)
    /\ length (polls (trace (spinner_ fuel w))) = Datatypes.S n
    /\ length (calls (env (final (spinner_ fuel w))))
       = (length (calls (env w)) + Datatypes.S n)%nat.
Proof.
  intros Hpoll Hpend Hr fuel Hle.
  pose proof (pending_not_yet n w Hpoll Hpend) as Hscript.
  destruct (single_job_fetch n w) as (Hf & _ & Hcalls).
  { intros i Hi. eapply pending_returns; eassumption. }
  rewrite Hr in Hf.
  destruct (spin_script_fetch_error _ _ _ _ _ n (now w) w e Hscript Hf fuel Hle)
    as (Hres & Hp & _ & _ & _ & Hfin).
  unfold polling_spinner. rewrite Hres, Hp, Hfin, length_map, length_seq.
  repeat split. rewrite Hcalls. lia.
Qed.

End SingleJobScript.

(** C1: when the callbacks are scripted so that the first [N - 1]
    invocations of the status-producing operation return snapshots the
    predicate classifies "not yet finished", the [N]-th a snapshot it
    classifies "finished successfully", and the [N - 1] suspensions end
    within the timeout, the spinner, given fuel for [N] iterations or
    more, returns normally after exactly [N] invocations, which are the
    scripted ones in order; its first event is the fetch on the world it
    was started in, each iteration holds one fetch followed by its
    classification (and display and suspension) before the next begins,
    [N - 1] progress lines are written, and with less fuel the loop is
    still polling. For the dataset-group cell this reads on the service:
    [N - 1] describe calls answered with a status that is neither
    ["ACTIVE"] nor a failure, then one answered ["ACTIVE"], all within
    the twenty minutes, make the cell return after exactly [N] describe
    calls. And as the run itself shows it: a run, with whatever fuel,
    whose classification log reads [N - 1] times "not yet finished" and
    then "finished successfully" has returned normally after exactly [N]
    invocations. *)
Theorem spinner_returns_after_N_polls :
  (forall (S Snapshot : Type)
          (fn_poll_result : world S -> pyresult Snapshot * world S)
          (fn_is_finished : Snapshot -> world S -> outcome * world S)
          (fn_stringify_result : Snapshot -> world S -> string * world S)
          (poll_secs timeout_secs : Z) (w : world S) (N : nat),
      let spinner := polling_spinner fn_poll_result fn_is_finished fn_stringify_result
                       poll_secs timeout_secs in
      (1 <= N)%nat ->
      not_yet_for fn_poll_result fn_is_finished fn_stringify_result
        poll_secs timeout_secs (N - 1) (now w) w ->
      kth_outcome fn_poll_result fn_is_finished fn_stringify_result
        poll_secs (N - 1) w = Some FinishedOk ->
      (forall fuel, (N <= fuel)%nat ->
         result (spinner fuel w) = Some Returned
         /\ polls (trace (spinner fuel w))
            = map (fun k => kth_fetch fn_poll_result fn_is_finished fn_stringify_result
                              poll_secs k w) (seq 0 N)
         /\ length (polls (trace (spinner fuel w))) = N
         /\ map snd (classifications (trace (spinner fuel w)))
            = (replicate (N - 1) NotYetFinished ++ [FinishedOk])%list
         /\ length (displays (trace (spinner fuel w))) = (N - 1)%nat
         /\ (exists rest,
                trace (spinner fuel w)
                = (EvPoll (fst (fn_poll_result w)), snd (fn_poll_result w)) :: rest)
         /\ iterations fn_poll_result fn_is_finished fn_stringify_result
              poll_secs timeout_secs (now w) w (trace (spinner fuel w)) (Some Returned))
      /\ (forall fuel, (fuel < N)%nat -> result (spinner fuel w) = None))
  /\ (forall (svc : service) (dataset_group_arn : string) (w : world kernel)
             (N : nat) (desc : pyval),
         (1 <= N)%nat ->
         pending_for svc dataset_group_arn is_dsg_ready 20 (20 * 60)
           (length (calls (env w))) (N - 1) ->
         respond svc (length (calls (env w)) + (N - 1)) dataset_group_arn = Ret desc ->
         status_of "datasetGroup" desc = Ret (PStr "ACTIVE") ->
         forall fuel, (N <= fuel)%nat ->
           let r := wait_for_dataset_group svc dataset_group_arn fuel w in
           result r = Some Returned
           /\ length (polls (trace r)) = N
           /\ length (displays (trace r)) = (N - 1)%nat
           /\ length (calls (env (final r))) = (length (calls (env w)) + N)%nat)
  /\ (forall (S Snapshot : Type)
             (fn_poll_result : world S -> pyresult Snapshot * world S)
             (fn_is_finished : Snapshot -> world S -> outcome * world S)
             (fn_stringify_result : Snapshot -> world S -> string * world S)
             (poll_secs timeout_secs : Z) (w : world S) (N fuel : nat),
         let spinner := polling_spinner fn_poll_result fn_is_finished
                          fn_stringify_result poll_secs timeout_secs in
         (1 <= N)%nat ->
         map snd (classifications (trace (spinner fuel w)))
         = (replicate (N - 1) NotYetFinished ++ [FinishedOk])%list ->
         result (spinner fuel w) = Some Returned
         /\ length (polls (trace (spinner fuel w))) = N).
Proof.
  split; [|split].
  - intros S Snapshot fn_poll_result fn_is_finished fn_stringify_result
      poll_secs timeout_secs w N spinner HN Hscript Hlast.
    subst spinner. unfold polling_spinner. split.
    + intros fuel Hle.
      destruct (spin_script_finished _ _ _ _ _ (N - 1) (now w) w Hscript Hlast)
        as (s & _ & Hrun).
      destruct (Hrun fuel ltac:(lia)) as (Hres & Hp & Hc & Hd & _).
      replace (Datatypes.S (N - 1)) with N in Hp by lia.
      split; [exact Hres|]. split; [exact Hp|].
      split; [rewrite Hp, length_map, length_seq; reflexivity|].
      split; [exact Hc|]. split; [exact Hd|]. split.
      * destruct fuel as [|fuel]; [lia|]. apply spin_first_poll.
      * rewrite <- Hres. apply spin_iterations.
    + intros fuel Hlt. eapply spin_still_polling; [exact Hscript|lia].
  - intros svc arn w N desc HN Hpend Hr Hactive fuel Hle. cbv zeta.
    assert (Ho : outcome_of (is_dsg_ready desc) = FinishedOk).
    { apply status_of_inv in Hactive as (x & Hx & Hs).
      unfold is_dsg_ready. rewrite Hx. cbn. rewrite Hs. reflexivity. }
    destruct (single_job_returns svc arn "datasetGroup" is_dsg_ready 20 (20 * 60)
                (N - 1) w desc ltac:(lia) Hpend Hr Ho fuel ltac:(lia))
      as (Hres & Hp & Hd & Hc).
    unfold wait_for_dataset_group.
    replace (Datatypes.S (N - 1)) with N in * by lia.
    repeat split; assumption.
  - intros S Snapshot fn_poll_result fn_is_finished fn_stringify_result
      poll_secs timeout_secs w N fuel spinner HN Hlog.
    subst spinner. unfold polling_spinner in *.
    destruct (observed_run_returns _ _ _ _ _ (N - 1) fuel (now w) w Hlog) as [Hres Hp].
    split; [exact Hres|]. rewrite Hp. lia.
Qed.

(** C2: when the callbacks are scripted so that the first [K - 1]
    snapshots are classified "not yet finished" within the timeout and
    the [K]-th "finished with fatal failure", the spinner, given fuel for
    [K] iterations or more, fails with [JobFailed] carrying the snapshot
    the [K]-th invocation returned, after exactly [K] invocations;
    nothing is retried, and with less fuel the loop is still polling. For
    the batch-job cell: [K - 1] pending answers and then one on which
    [is_batch_job_finished] raises its [ValueError] end the cell with
    [JobFailed] carrying that answer, after exactly [K] describe calls.
    And as the run itself shows it: a run, with whatever fuel, whose
    classification log reads [K - 1] times "not yet finished" and then
    "finished with fatal failure" has failed with [JobFailed] carrying
    the [K]-th snapshot after exactly [K] invocations. *)
Theorem spinner_fails_on_Kth_poll :
  (forall (S Snapshot : Type)
          (fn_poll_result : world S -> pyresult Snapshot * world S)
          (fn_is_finished : Snapshot -> world S -> outcome * world S)
          (fn_stringify_result : Snapshot -> world S -> string * world S)
          (poll_secs timeout_secs : Z) (w : world S) (K : nat),
      let spinner := polling_spinner fn_poll_result fn_is_finished fn_stringify_result
                       poll_secs timeout_secs in
      (1 <= K)%nat ->
      not_yet_for fn_poll_result fn_is_finished fn_stringify_result
        poll_secs timeout_secs (K - 1) (now w) w ->
      kth_outcome fn_poll_result fn_is_finished fn_stringify_result
        poll_secs (K - 1) w = Some FatalFailure ->
      exists s,
        kth_fetch fn_poll_result fn_is_finished fn_stringify_result
          poll_secs (K - 1) w = Ret s
        /\ (forall fuel, (K <= fuel)%nat ->
              result (spinner fuel w) = Some (JobFailed s)
              /\ polls (trace (spinner fuel w))
                 = map (fun k => kth_fetch fn_poll_result fn_is_finished
                                   fn_stringify_result poll_secs k w) (seq 0 K)
              /\ length (polls (trace (spinner fuel w))) = K
              /\ map snd (classifications (trace (spinner fuel w)))
                 = (replicate (K - 1) NotYetFinished ++ [FatalFailure])%list)
        /\ (forall fuel, (fuel < K)%nat -> result (spinner fuel w) = None))
  /\ (forall (svc : service) (batch_job_arn : string) (w : world kernel)
             (K : nat) (desc : pyval),
         (1 <= K)%nat ->
         pending_for svc batch_job_arn is_batch_job_finished 30 (60 * 60)
           (length (calls (env w))) (K - 1) ->
         respond svc (length (calls (env w)) + (K - 1)) batch_job_arn = Ret desc ->
         is_ValueError (is_batch_job_finished desc) ->
         forall fuel, (K <= fuel)%nat ->
           let r := wait_for_batch_job svc batch_job_arn fuel w in
           result r = Some (JobFailed desc)
           /\ length (polls (trace r)) = K
           /\ length (calls (env (final r))) = (length (calls (env w)) + K)%nat)
  /\ (forall (S Snapshot : Type)
             (fn_poll_result : world S -> pyresult Snapshot * world S)
             (fn_is_finished : Snapshot -> world S -> outcome * world S)
             (fn_stringify_result : Snapshot -> world S -> string * world S)
             (poll_secs timeout_secs : Z) (w : world S) (K fuel : nat),
         let spinner := polling_spinner fn_poll_result fn_is_finished
                          fn_stringify_result poll_secs timeout_secs in
         (1 <= K)%nat ->
         map snd (classifications (trace (spinner fuel w)))
         = (replicate (K - 1) NotYetFinished ++ [FatalFailure])%list ->
         exists s,
           kth_fetch fn_poll_result fn_is_finished fn_stringify_result
             poll_secs (K - 1) w = Ret s
           /\ result (spinner fuel w) = Some (JobFailed s)
           /\ length (polls (trace (spinner fuel w))) = K).
Proof.
  split; [|split].
  - intros S Snapshot fn_poll_result fn_is_finished fn_stringify_result
      poll_secs timeout_secs w K spinner HK Hscript Hlast.
    subst spinner. unfold polling_spinner.
    destruct (spin_script_failed _ _ _ _ _ (K - 1) (now w) w Hscript Hlast)
      as (s & Hs & Hrun).
    exists s. split; [exact Hs|]. split.
    + intros fuel Hle.
      destruct (Hrun fuel ltac:(lia)) as (Hres & Hp & Hc & _).
      replace (Datatypes.S (K - 1)) with K in Hp by lia.
      split; [exact Hres|]. split; [exact Hp|].
      split; [rewrite Hp, length_map, length_seq; reflexivity|exact Hc].
    + intros fuel Hlt. eapply spin_still_polling; [exact Hscript|lia].
  - intros svc arn w K desc HK Hpend Hr Hraise fuel Hle. cbv zeta.
    assert (Ho : outcome_of (is_batch_job_finished desc) = FatalFailure).
    { destruct Hraise as (msg & shown & ->). reflexivity. }
    destruct (single_job_fails svc arn "batchInferenceJob" is_batch_job_finished
                30 (60 * 60) (K - 1) w desc ltac:(lia) Hpend Hr Ho fuel ltac:(lia))
      as (Hres & Hp & _ & Hc).
    unfold wait_for_batch_job.
    replace (Datatypes.S (K - 1)) with K in * by lia.
    repeat split; assumption.
  - intros S Snapshot fn_poll_result fn_is_finished fn_stringify_result
      poll_secs timeout_secs w K fuel spinner HK Hlog.
    subst spinner. unfold polling_spinner in *.
    destruct (observed_run_fails _ _ _ _ _ (K - 1) fuel (now w) w Hlog)
      as (s & Hs & Hres & Hp).
    exists s. split; [exact Hs|]. split; [exact Hres|]. rewrite Hp. lia.
Qed.

(** C7: when the callbacks are scripted so that the first [K - 1]
    snapshots are classified "not yet finished" within the timeout and
    the [K]-th invocation of the status-producing operation raises [e],
    the spinner, given fuel for [K] iterations or more, ends with that
    very error, neither [JobFailed] nor [PollingTimedOut], after exactly
    [K] invocations: the failed fetch is the last event of the run and
    the world is left as that fetch left it. For a single-job cell, whose
    status-producing operation is the describe call: [K - 1] pending
    answers and then a describe call that raises [e] end the wait with
    [e] after exactly [K] describe calls. At the import and training
    cells the status-producing operation only builds the [map] object
    and never raises. And as the run itself shows it: a run, with
    whatever fuel, whose [K]-th invocation raised [e] has ended with [e]
    after exactly [K] invocations. *)
Theorem spinner_passes_fetch_error_on :
  (forall (S Snapshot : Type)
          (fn_poll_result : world S -> pyresult Snapshot * world S)
          (fn_is_finished : Snapshot -> world S -> outcome * world S)
          (fn_stringify_result : Snapshot -> world S -> string * world S)
          (poll_secs timeout_secs : Z) (w : world S) (K : nat) (e : pyexn),
      let spinner := polling_spinner fn_poll_result fn_is_finished fn_stringify_result
                       poll_secs timeout_secs in
      (1 <= K)%nat ->
      not_yet_for fn_poll_result fn_is_finished fn_stringify_result
        poll_secs timeout_secs (K - 1) (now w) w ->
      kth_fetch fn_poll_result fn_is_finished fn_stringify_result
        poll_secs (K - 1) w = Raise e ->
      (forall fuel, (K <= fuel)%nat ->
         result (spinner fuel w) = Some (FetchError e)
         /\ (forall s, result (spinner fuel w) <> Some (JobFailed s))
         /\ (forall s, result (spinner fuel w) <> Some (PollingTimedOut s))
         /\ length (polls (trace (spinner fuel w))) = K
         /\ length (classifications (trace (spinner fuel w))) = (K - 1)%nat
         /\ last (trace (spinner fuel w))
            = Some (EvPoll (Raise e), final (spinner fuel w))
         /\ final (spinner fuel w)
            = snd (fn_poll_result
                     (fetch_world fn_poll_result fn_is_finished fn_stringify_result
                        poll_secs (K - 1) w)))
      /\ (forall fuel, (fuel < K)%nat -> result (spinner fuel w) = None))
  /\ (forall (svc : service) (arn kind : string) (p : pyval -> pyresult pyval)
             (poll_secs timeout_secs : Z) (w : world kernel) (K : nat) (e : pyexn),
         (1 <= K)%nat ->
         0 <= poll_secs ->
         pending_for svc arn p poll_secs timeout_secs (length (calls (env w))) (K - 1) ->
         respond svc (length (calls (env w)) + (K - 1)) arn = Raise e ->
         forall fuel, (K <= fuel)%nat ->
           let r := polling_spinner (poll_one svc arn) (classify_pure p)
                      (stringify_status kind) poll_secs timeout_secs fuel w in
           result r = Some (FetchError e)
           /\ length (polls (trace r)) = K
           /\ length (calls (env (final r))) = (length (calls (env w)) + K)%nat)
  /\ (forall w : world kernel, is_raise (fst (poll_waiting w)) = false)
  /\ (forall (S Snapshot : Type)
             (fn_poll_result : world S -> pyresult Snapshot * world S)
             (fn_is_finished : Snapshot -> world S -> outcome * world S)
             (fn_stringify_result : Snapshot -> world S -> string * world S)
             (poll_secs timeout_secs : Z) (w : world S) (K fuel : nat) (e : pyexn),
         let spinner := polling_spinner fn_poll_result fn_is_finished
                          fn_stringify_result poll_secs timeout_secs in
         (1 <= K)%nat ->
         polls (trace (spinner fuel w)) !! (K - 1)%nat = Some (Raise e) ->
         result (spinner fuel w) = Some (FetchError e)
         /\ length (polls (trace (spinner fuel w))) = K).
Proof.
  split; [|split; [|split]].
  - intros S Snapshot fn_poll_result fn_is_finished fn_stringify_result
      poll_secs timeout_secs w K e spinner HK Hscript Hlast.
    subst spinner. unfold polling_spinner. split.
    + intros fuel Hle.
      destruct (spin_script_fetch_error _ _ _ _ _ (K - 1) (now w) w e Hscript Hlast
                  fuel ltac:(lia)) as (Hres & Hp & Hc & _ & Hl & Hfin).
      replace (Datatypes.S (K - 1)) with K in Hp by lia.
      split; [exact Hres|].
      split; [intros s; rewrite Hres; discriminate|].
      split; [intros s; rewrite Hres; discriminate|].
      split; [rewrite Hp, length_map, length_seq; reflexivity|].
      split; [|split; [exact Hl|exact Hfin]].
      rewrite <- (length_map snd), Hc, length_replicate. reflexivity.
    + intros fuel Hlt. eapply spin_still_polling; [exact Hscript|lia].
  - intros svc arn kind p poll_secs timeout_secs w K e HK Hpoll Hpend Hr fuel Hle.
    cbv zeta.
    destruct (single_job_fetch_error svc arn kind p poll_secs timeout_secs
                (K - 1) w e Hpoll Hpend Hr fuel ltac:(lia)) as (Hres & Hp & Hc).
    replace (Datatypes.S (K - 1)) with K in * by lia.
    repeat split; assumption.
  - intros w. reflexivity.
  - intros S Snapshot fn_poll_result fn_is_finished fn_stringify_result
      poll_secs timeout_secs w K fuel e spinner HK Hlog.
    subst spinner. unfold polling_spinner in *.
    destruct (observed_run_passes_error_on _ _ _ _ _ (K - 1) fuel e (now w) w Hlog)
      as [Hres Hp].
    split; [exact Hres|]. rewrite Hp. lia.
Qed.


(** The scenario of the spec at the dataset-group cell: three snapshots
    "not yet finished", the fourth "finished successfully". *)
Lemma spinner_returns_after_N_polls_witness :
  let svc := service_reporting "datasetGroup" (pending_until 3 "ACTIVE") 0 in
  let r := wait_for_dataset_group svc "arn:dataset-group" 10 fresh_world in
  result r = Some Returned
  /\ length (polls (trace r)) = 4%nat
  /\ length (displays (trace r)) = 3%nat
  /\ length (calls (env (final r))) = 4%nat.
Proof.
  cbv zeta.
  destruct (proj1 spinner_returns_after_N_polls _ _
              (poll_one (service_reporting "datasetGroup" (pending_until 3 "ACTIVE") 0)
                 "arn:dataset-group")
              (classify_pure is_dsg_ready) (stringify_status "datasetGroup")
              20 (20 * 60) fresh_world 4%nat) as [Hrun _].
  - lia.
  - intros k Hk. destruct k as [|[|[|k]]]; [| | |lia];
      (split; [vm_compute; reflexivity|vm_compute; discriminate]).
  - vm_compute. reflexivity.
  - destruct (Hrun 10%nat ltac:(lia)) as (Hres & _ & Hlen & _ & Hd & _).
    split; [exact Hres|]. split; [exact Hlen|]. split; [exact Hd|].
    refine (proj2 (proj2 (proj2
              (proj1 (proj2 spinner_returns_after_N_polls)
                 (service_reporting "datasetGroup" (pending_until 3 "ACTIVE") 0)
                 "arn:dataset-group" fresh_world 4%nat
                 (describe_response "datasetGroup" "ACTIVE") _ _ eq_refl eq_refl
                 10%nat _)))).
    + lia.
    + split; [|vm_compute; discriminate].
      intros i Hi. eexists. split; [reflexivity|].
      destruct i as [|[|[|i]]]; [| | |simpl in Hi; lia]; vm_compute; reflexivity.
    + lia.
Defined.

(** The batch job fails on the third poll. *)
Lemma spinner_fails_on_Kth_poll_witness :
  let svc := service_reporting "batchInferenceJob" (pending_until 2 "CREATE FAILED") 0 in
  let r := wait_for_batch_job svc "arn:batch-job" 10 fresh_world in
  result r = Some (JobFailed (describe_response "batchInferenceJob" "CREATE FAILED"))
  /\ length (polls (trace r)) = 3%nat
  /\ length (calls (env (final r))) = 3%nat.
Proof.
  cbv zeta.
  refine (proj1 (proj2 spinner_fails_on_Kth_poll)
            (service_reporting "batchInferenceJob" (pending_until 2 "CREATE FAILED") 0)
            "arn:batch-job" fresh_world 3%nat
            (describe_response "batchInferenceJob" "CREATE FAILED")
            _ _ eq_refl _ 10%nat _).
  - lia.
  - split; [|vm_compute; discriminate].
    intros i Hi. eexists. split; [reflexivity|].
    destruct i as [|[|i]]; [| |simpl in Hi; lia]; vm_compute; reflexivity.
  - eexists _, _. vm_compute. reflexivity.
  - lia.
Defined.

(** The second describe call of the dataset cell is throttled. *)
Lemma spinner_passes_fetch_error_on_witness :
  let svc := service_failing_at 1 "dataset" (pending_until 5 "ACTIVE") in
  let r := wait_for_dataset svc "arn:dataset" 10 fresh_world in
  result r = Some (FetchError (ClientError "ThrottlingException"))
  /\ length (polls (trace r)) = 2%nat
  /\ length (calls (env (final r))) = 2%nat.
Proof.
  cbv zeta.
  refine (proj1 (proj2 spinner_passes_fetch_error_on)
            (service_failing_at 1 "dataset" (pending_until 5 "ACTIVE"))
            "arn:dataset" "dataset" is_ds_ready 20 (20 * 60) fresh_world 2%nat
            (ClientError "ThrottlingException") _ _ _ eq_refl 10%nat _).
  - lia.
  - lia.
  - split; [|vm_compute; discriminate].
    intros i Hi. destruct i as [|i]; [|simpl in Hi; lia].
    eexists. split; [reflexivity|vm_compute; reflexivity].
  - lia.
Defined.



(** ** Session ids *)

Section LoggingFacts.

Variable uuid1_address : N.
Variable tracking_id : string.

Local Abbreviation sid := (generate_random_session_id uuid1_address).

Lemma session_of_one (user_id : Z) (d : gmap Z string) :
  (forall u s, d !! u = Some s -> s = sid) ->
  fst (session_of uuid1_address user_id d) = sid
  /\ (forall u s, snd (session_of uuid1_address user_id d) !! u = Some s -> s = sid)
  /\ snd (session_of uuid1_address user_id d) !! user_id = Some sid
  /\ (forall u s, d !! u = Some s ->
        snd (session_of uuid1_address user_id d) !! u = Some s).
Proof.
  intros Hd. unfold session_of.
  destruct (d !! user_id) as [s|] eqn:E; cbn [fst snd].
  - pose proof (Hd _ _ E) as ->. auto.
  - split; [reflexivity|]. split; [|split].
    + intros u s. destruct (decide (user_id = u)) as [->|Hne].
      * rewrite lookup_insert_eq. congruence.
      * rewrite lookup_insert_ne by assumption. apply Hd.
    + apply lookup_insert_eq.
    + intros u s Hu. destruct (decide (user_id = u)) as [->|Hne]; [congruence|].
      rewrite lookup_insert_ne by assumption. exact Hu.
Qed.

Lemma log_new_review_one user_id item_id rating rec_id impression (t : tracker) :
  let t' := log_new_review uuid1_address tracking_id
              user_id item_id rating rec_id impression t in
  one_session_id uuid1_address t ->
  one_session_id uuid1_address t'
  /\ length (sent t') = Datatypes.S (length (sent t))
  /\ session_dict t' !! user_id = Some sid
  /\ (forall u s, session_dict t !! u = Some s -> session_dict t' !! u = Some s).
Proof.
  intros t' [Hd Hs]. subst t'. unfold log_new_review.
  destruct (session_of_one user_id (session_dict t) Hd) as (H1 & H2 & H3 & H4).
  destruct (session_of uuid1_address user_id (session_dict t)) as [s d].
  cbn [fst snd] in *. subst s. cbn [session_dict sent].
  split; [split|split; [|split]].
  - exact H2.
  - apply Forall_app. split; [exact Hs|]. constructor; [reflexivity|constructor].
  - rewrite length_app. cbn. lia.
  - exact H3.
  - exact H4.
Qed.

Lemma log_reviews_one (gap : Z) (reviews : list review) (t : tracker) :
  let t' := log_reviews uuid1_address tracking_id gap reviews t in
  one_session_id uuid1_address t ->
  one_session_id uuid1_address t'
  /\ length (sent t') = (length (sent t) + length reviews)%nat
  /\ (forall u s, session_dict t !! u = Some s -> session_dict t' !! u = Some s)
  /\ Forall (fun rv : review => session_dict t' !! rv.1.1.1.1 = Some sid) reviews.
Proof.
  revert t. induction reviews as [|[[[[u i] rating] rec_id] imp] reviews IH];
    intros t t' Ht; subst t'; cbn [log_reviews].
  - split; [exact Ht|]. split; [cbn; lia|]. split; [auto|constructor].
  - destruct (log_new_review_one u i rating rec_id imp t Ht) as (H1 & H2 & Hu & Hkeep).
    destruct (IH (Tracker
                    (session_dict (log_new_review uuid1_address tracking_id u i rating rec_id imp t))
                    (sent (log_new_review uuid1_address tracking_id u i rating rec_id imp t))
                    (clock (log_new_review uuid1_address tracking_id u i rating rec_id imp t) + gap)))
      as (H3 & H4 & Hkeep' & Hall).
    + exact H1.
    + split; [exact H3|]. split; [rewrite H4; cbn [sent]; rewrite H2; cbn; lia|].
      split.
      * intros u' s Hs. apply Hkeep'. cbn [session_dict]. apply Hkeep. exact Hs.
      * constructor; [|exact Hall]. cbn [fst]. apply Hkeep'. exact Hu.
Qed.

End LoggingFacts.

(** C9, as the claim words it: two runs in which the function object
    [uuid.uuid1] sits at different addresses send different session ids
    for the same review. *)
Lemma session_id_differs_between_runs :
  let reviews : list review := [(400, 1193, PInt 5, None, None)] in
  let run1 := log_reviews 0x7f3a5c0d1e50 "tracking-id" 1 reviews (fresh_tracker 0) in
  let run2 := log_reviews 0x7f81b2c4de50 "tracking-id" 1 reviews (fresh_tracker 0) in
  map sessionId (sent run1) = ["<function uuid1 at 0x7f3a5c0d1e50>"]
  /\ map sessionId (sent run2) = ["<function uuid1 at 0x7f81b2c4de50>"]
  /\ map sessionId (sent run1) <> map sessionId (sent run2).
Proof.
  cbv zeta. split; [vm_compute; reflexivity|]. split; [vm_compute; reflexivity|].
  vm_compute. discriminate.
Qed.

(** C9, amended: within one run of the notebook, where the function object
    [uuid.uuid1] has one address, [generate_random_session_id] is the one
    string [str(uuid.uuid1)] at every invocation; after any sequence of
    [log_new_review] calls on the fresh [session_dict], every user in
    [session_dict] has that session id, every user reviewed is in it, and
    every [put_events] call, one per review, carried it. Two runs with the
    same address send the same session id. *)
Theorem one_session_id_for_all_users (uuid1_address : N) (tracking_id : string)
    (gap t0 : Z) (reviews : list review) :
  let t := log_reviews uuid1_address tracking_id gap reviews (fresh_tracker t0) in
  generate_random_session_id uuid1_address = function_str "uuid1" uuid1_address
  /\ (forall user_id s, session_dict t !! user_id = Some s ->
        s = generate_random_session_id uuid1_address)
  /\ Forall (fun rv : review =>
               session_dict t !! rv.1.1.1.1
               = Some (generate_random_session_id uuid1_address)) reviews
  /\ Forall (fun c => sessionId c = generate_random_session_id uuid1_address) (sent t)
  /\ length (sent t) = length reviews
  /\ (forall tracking_id' gap' t0' reviews',
        Forall (fun c => sessionId c = generate_random_session_id uuid1_address)
          (sent (log_reviews uuid1_address tracking_id' gap' reviews'
                   (fresh_tracker t0')))).
Proof.
  intros t. subst t.
  assert (Hfresh : forall t0', one_session_id uuid1_address (fresh_tracker t0')).
  { intros t0'. split; [|constructor]. intros u s H. cbn in H.
    rewrite lookup_empty in H. discriminate. }
  destruct (log_reviews_one uuid1_address tracking_id gap reviews
              (fresh_tracker t0) (Hfresh t0)) as ([Hd Hs] & Hlen & _ & Hall).
  split; [reflexivity|]. split; [exact Hd|]. split; [exact Hall|].
  split; [exact Hs|]. split; [rewrite Hlen; reflexivity|].
  intros tracking_id' gap' t0' reviews'.
  apply (log_reviews_one uuid1_address tracking_id' gap' reviews'
           (fresh_tracker t0') (Hfresh t0')).
Qed.

(** ** Lists changed while they are read *)

Lemma list_remove_Some (x : string) (l l' : list string) :
  list_remove x l = Some l' ->
  sublist l' l /\ length l = Datatypes.S (length l')
  /\ (NoDup l -> x ∉ l').
Proof.
  revert l'. induction l as [|y l IH]; intros l' H; cbn in H; [discriminate|].
  destruct (String.eqb y x) eqn:E.
  - injection H as <-. apply String.eqb_eq in E. subst y.
    split; [apply sublist_cons; reflexivity|]. split; [reflexivity|].
    intros Hnd. apply NoDup_cons_1_1 in Hnd. exact Hnd.
  - apply String.eqb_neq in E.
    destruct (list_remove x l) as [l0|]; [|discriminate].
    injection H as <-. destruct (IH l0 eq_refl) as (Hs & Hl & Hn).
    split; [apply sublist_skip, Hs|]. split; [cbn; lia|].
    intros Hnd. apply NoDup_cons in Hnd as [_ Hnd].
    rewrite not_elem_of_cons. split; [congruence|auto].
Qed.

Lemma list_remove_elem (x : string) (l : list string) :
  x ∈ l -> exists l', list_remove x l = Some l'.
Proof.
  induction l as [|y l IH]; intros Hin; [inversion Hin|]. cbn.
  destruct (String.eqb y x) eqn:E; [eexists; reflexivity|].
  apply String.eqb_neq in E. apply elem_of_cons in Hin as [->|Hin]; [congruence|].
  destruct (IH Hin) as [l' ->]. eexists. reflexivity.
Qed.

(** ** The describe log *)

Section CellFacts.

Variable svc : service.

Lemma describe_effect (arn : string) (w : world kernel) :
  let r := describe svc arn w in
  calls (env r.2) = (calls (env w) ++ [(arn, r.1)])%list
  /\ waiting_arns (env r.2) = waiting_arns (env w)
  /\ map_iters (env r.2) = map_iters (env w)
  /\ in_progress_campaigns (env r.2) = in_progress_campaigns (env w)
  /\ stdout r.2 = stdout w
  /\ now w <= now r.2.
Proof. cbn. repeat split; lia. Qed.

Lemma active_seen_app (kind : string) (a b : list (string * pyresult pyval)) :
  active_seen kind (a ++ b) = (active_seen kind a + active_seen kind b)%nat.
Proof. unfold active_seen. rewrite filter_app, length_app. reflexivity. Qed.

Lemma active_seen_one (kind arn : string) (r : pyresult pyval) :
  active_seen kind [(arn, r)] = if shows_active kind (arn, r) then 1%nat else 0%nat.
Proof.
  unfold active_seen. cbn. unfold filter, list_filter.
  destruct (decide (shows_active kind (arn, r) = true)) as [->|Hn]; [reflexivity|].
  destruct (shows_active kind (arn, r)); [congruence|reflexivity].
Qed.

Lemma remove_waiting_effect (arn : pyval) (w : world kernel) :
  let p := remove_waiting arn w in
  calls (env p.2) = calls (env w)
  /\ map_iters (env p.2) = map_iters (env w)
  /\ in_progress_campaigns (env p.2) = in_progress_campaigns (env w)
  /\ now p.2 = now w
  /\ stdout p.2 = stdout w
  /\ sublist (waiting_arns (env p.2)) (waiting_arns (env w))
  /\ (is_raise p.1 = false ->
      length (waiting_arns (env w)) = Datatypes.S (length (waiting_arns (env p.2))))
  /\ (is_raise p.1 = true -> waiting_arns (env p.2) = waiting_arns (env w)).
Proof.
  unfold remove_waiting. destruct arn; cbn; try by_effect.
  destruct (list_remove s (waiting_arns (env w))) as [l|] eqn:E; cbn.
  - destruct (list_remove_Some _ _ _ E) as (Hs & Hl & _). by_effect.
  - by_effect.
Qed.

Lemma job_seen_effect (kind arn_key fail_msg : string) (announce : bool)
    (desc : pyval) (w : world kernel) :
  let p := job_seen kind arn_key fail_msg announce desc w in
  calls (env p.2) = calls (env w)
  /\ map_iters (env p.2) = map_iters (env w)
  /\ in_progress_campaigns (env p.2) = in_progress_campaigns (env w)
  /\ now p.2 = now w
  /\ sublist (waiting_arns (env p.2)) (waiting_arns (env w))
  /\ (is_raise p.1 = false ->
      length (waiting_arns (env w))
      = (length (waiting_arns (env p.2))
         + if desc_active kind desc then 1 else 0)%nat).
Proof.
  unfold job_seen, desc_active.
  change (let* job := getitem desc kind in getitem job "status")
    with (status_of kind desc).
  destruct (status_of kind desc) as [status|e]; cbn [fst snd]; [|by_effect].
  destruct (let* job := getitem desc kind in getitem job arn_key) as [arn|e];
    cbn [fst snd]; [|by_effect].
  destruct (eq_str status "ACTIVE").
  - destruct (remove_waiting_effect arn
                (if announce then emit (nl +:+ "Trained ") [arn] w else w))
      as (H1 & H2 & H3 & H4 & _ & H5 & H6 & _).
    cbv zeta in *.
    destruct (remove_waiting arn _) as [r w'] eqn:E. cbn [fst snd] in *.
    destruct announce; cbn [emit env now] in *;
      (repeat split; try assumption; intros Hr; rewrite (H6 Hr); lia).
  - destruct (contains "FAILED" status) as [[|]|e]; cbn [fst snd]; by_effect.
Qed.

Lemma map_next_effect (h : nat) (w : world kernel) :
  let p := map_next svc h w in
  waiting_arns (env p.2) = waiting_arns (env w)
  /\ in_progress_campaigns (env p.2) = in_progress_campaigns (env w)
  /\ now w <= now p.2
  /\ match p.1 with
     | None => calls (env p.2) = calls (env w)
     | Some r =>
         exists i arn,
           map_iters (env w) !! h = Some (Some i)
           /\ waiting_arns (env w) !! i = Some arn
           /\ calls (env p.2) = (calls (env w) ++ [(arn, r)])%list
           /\ map_iters (env p.2) = <[h := Some (Datatypes.S i)]> (map_iters (env w))
     end.
Proof.
  unfold map_next.
  destruct (map_iters (env w) !! h) as [[i|]|] eqn:Eh; cbn [fst snd];
    try by_effect.
  destruct (waiting_arns (env w) !! i) as [arn|] eqn:Ei; cbn [fst snd];
    [|by_effect].
  cbn. repeat split; try lia. exists i, arn. by_effect.
Qed.

Section JobLoop.

Variables kind arn_key fail_msg : string.
Variable announce : bool.

Local Abbreviation for_descriptions_ := (for_descriptions svc kind arn_key fail_msg announce).

Lemma for_descriptions_effect (fuel h : nat) (w : world kernel)
    (r : pyresult unit) (w' : world kernel) :
  for_descriptions_ fuel h w = Some (r, w') ->
  exists new,
    calls (env w') = (calls (env w) ++ new)%list
    /\ sublist (waiting_arns (env w')) (waiting_arns (env w))
    /\ in_progress_campaigns (env w') = in_progress_campaigns (env w)
    /\ now w <= now w'
    /\ (is_raise r = false ->
        length (waiting_arns (env w))
        = (length (waiting_arns (env w')) + active_seen kind new)%nat).
Proof.
  revert w. induction fuel as [|fuel IH]; intros w H; cbn [for_descriptions] in H;
    [discriminate|].
  pose proof (map_next_effect h w) as Hm. cbv zeta in Hm.
  destruct (map_next svc h w) as [[[desc|e]|] w1]; cbn [fst snd] in Hm;
    destruct Hm as (Hw & Hc & Hn & Hm).
  - destruct Hm as (i & arn & _ & _ & Hcalls & _).
    pose proof (job_seen_effect kind arn_key fail_msg announce desc w1) as Hj.
    cbv zeta in Hj.
    destruct (job_seen kind arn_key fail_msg announce desc w1) as [[u|e] w2];
      cbn [fst snd] in Hj; destruct Hj as (J1 & _ & J3 & J4 & J5 & J6).
    + destruct (IH w2 H) as (new & N1 & N2 & N3 & N4 & N5).
      exists ((arn, Ret desc) :: new). rewrite N1, J1, Hcalls, <- app_assoc.
      split; [reflexivity|]. split; [|split; [|split]].
      * etrans; [exact N2|]. rewrite <- Hw. exact J5.
      * congruence.
      * lia.
      * intros Hr. specialize (N5 Hr). specialize (J6 eq_refl).
        change ((arn, Ret desc) :: new) with ([(arn, Ret desc)] ++ new)%list.
        rewrite active_seen_app, active_seen_one. unfold shows_active. cbn [snd].
        rewrite <- Hw. lia.
    + injection H as <- <-. exists [(arn, Ret desc)]. rewrite J1, Hcalls.
      split; [reflexivity|]. split; [rewrite <- Hw; exact J5|].
      split; [congruence|]. split; [lia|discriminate].
  - destruct Hm as (i & arn & _ & _ & Hcalls & _).
    injection H as <- <-. exists [(arn, Raise e)]. rewrite Hcalls.
    split; [reflexivity|]. split; [rewrite Hw; reflexivity|].
    split; [assumption|]. split; [lia|discriminate].
  - injection H as <- <-. exists []. rewrite Hm, app_nil_r.
    split; [reflexivity|]. split; [rewrite Hw; reflexivity|].
    split; [assumption|]. split; [lia|]. intros _. rewrite Hw. cbn. lia.
Qed.

(** The loop is given enough rounds. *)
Lemma for_descriptions_fuel (fuel h : nat) (w : world kernel) :
  (remaining h w < fuel)%nat -> is_Some (for_descriptions_ fuel h w).
Proof.
  revert w. induction fuel as [|fuel IH]; intros w Hrem; [lia|].
  cbn [for_descriptions].
  pose proof (map_next_effect h w) as Hm. cbv zeta in Hm.
  destruct (map_next svc h w) as [[[desc|e]|] w1]; cbn [fst snd] in Hm;
    destruct Hm as (Hw & _ & _ & Hm); try (eexists; reflexivity).
  destruct Hm as (i & arn & Hh & Hi & _ & Hiters).
  pose proof (job_seen_effect kind arn_key fail_msg announce desc w1) as Hj.
  cbv zeta in Hj.
  destruct (job_seen kind arn_key fail_msg announce desc w1) as [[u|e] w2];
    cbn [fst snd] in Hj; [|eexists; reflexivity].
  destruct Hj as (_ & J2 & _ & _ & J5 & _).
  apply IH. unfold remaining in *. rewrite Hh in Hrem.
  rewrite J2, Hiters, list_lookup_insert_eq by (eapply lookup_lt_Some; eassumption).
  apply sublist_length in J5. rewrite Hw in J5.
  apply lookup_lt_Some in Hi. lia.
Qed.

Lemma are_jobs_finished_effect (h : nat) (w : world kernel) :
  let p := are_jobs_finished svc kind arn_key fail_msg announce h w in
  exists new,
    calls (env p.2) = (calls (env w) ++ new)%list
    /\ sublist (waiting_arns (env p.2)) (waiting_arns (env w))
    /\ in_progress_campaigns (env p.2) = in_progress_campaigns (env w)
    /\ now w <= now p.2
    /\ (is_raise p.1 = false ->
        length (waiting_arns (env w))
        = (length (waiting_arns (env p.2)) + active_seen kind new)%nat)
    /\ (p.1 = Ret (PBool true) <-> is_raise p.1 = false /\ waiting_arns (env p.2) = [])
    /\ (p.1 = Ret PNone <-> is_raise p.1 = false /\ waiting_arns (env p.2) <> []).
Proof.
  unfold are_jobs_finished.
  destruct (for_descriptions_fuel (Datatypes.S (length (waiting_arns (env w)))) h w)
    as [[r w'] Hf].
  { unfold remaining. destruct (map_iters (env w) !! h) as [[i|]|]; lia. }
  rewrite Hf.
  destruct (for_descriptions_effect _ _ _ _ _ Hf) as (new & N1 & N2 & N3 & N4 & N5).
  destruct r as [u|e]; cbn [fst snd].
  - destruct (Nat.eqb (length (waiting_arns (env w'))) 0) eqn:E; cbn [fst snd].
    + apply Nat.eqb_eq in E. apply nil_length_inv in E.
      exists new. do 4 (split; [assumption|]).
      split; [intros _; apply N5; reflexivity|]. split.
      * split; [intros _; split; [reflexivity|exact E]|reflexivity].
      * split; [discriminate|intros [_ H]; congruence].
    + apply Nat.eqb_neq in E.
      assert (Hne : waiting_arns (env w') <> []) by (intros Hnil; rewrite Hnil in E; apply E; reflexivity).
      exists new. do 4 (split; [assumption|]).
      split; [intros _; apply N5; reflexivity|]. split.
      * split; [discriminate|intros [_ H]; congruence].
      * split; [intros _; split; [reflexivity|exact Hne]|reflexivity].
  - exists new. do 4 (split; [assumption|]).
    split; [discriminate|]. split.
    + split; [discriminate|intros [H _]; discriminate].
    + split; [discriminate|intros [H _]; discriminate].
Qed.

End JobLoop.

End CellFacts.

(** C5, as the claim words it: evaluating [are_imports_finished] on a
    snapshot whose first job answers ["ACTIVE"] changes the global
    [waiting_arns]. *)
Lemma are_imports_finished_changes_waiting_arns :
  let svc := job_service "datasetImportJob" "datasetImportJobArn"
               (fun _ arn => if String.eqb arn "arn:import/interactions"
                             then "ACTIVE" else "CREATE IN_PROGRESS") in
  let w := set_env (set_waiting_arns ["arn:import/interactions"; "arn:import/items"]
                      fresh_kernel) fresh_world in
  let snapshot := new_map w in
  let p := are_imports_finished svc snapshot.1 snapshot.2 in
  waiting_arns (env snapshot.2) = ["arn:import/interactions"; "arn:import/items"]
  /\ p.1 = Ret PNone
  /\ waiting_arns (env p.2) = ["arn:import/items"]
  /\ waiting_arns (env p.2) <> waiting_arns (env snapshot.2).
Proof.
  cbv zeta. split; [reflexivity|]. split; [vm_compute; reflexivity|].
  split; [vm_compute; reflexivity|]. vm_compute. discriminate.
Qed.

(** C5, amended: the single-job predicates ([is_dsg_ready], [is_ds_ready],
    [is_batch_job_finished]) are functions of their snapshot, and handed
    to the spinner they leave the world as it is. [are_imports_finished]
    and [are_solutions_finished] do change [waiting_arns]: entries are
    only removed, one for each description read with status ["ACTIVE"]
    when nothing is raised, and the value returned says whether
    [waiting_arns] is left empty. *)
Theorem predicates_pure_or_removing_active_jobs :
  (forall (d : pyval) (w : world kernel),
      classify_pure is_dsg_ready d w = (outcome_of (is_dsg_ready d), w)
      /\ classify_pure is_ds_ready d w = (outcome_of (is_ds_ready d), w)
      /\ classify_pure is_batch_job_finished d w
         = (outcome_of (is_batch_job_finished d), w))
  /\ (forall svc descriptions w,
         removes_active_jobs "datasetImportJob" w
           (are_imports_finished svc descriptions w))
  /\ (forall svc descriptions w,
         removes_active_jobs "solutionVersion" w
           (are_solutions_finished svc descriptions w)).
Proof.
  split; [intros d w; repeat split|].
  split; intros svc h w; unfold are_imports_finished, are_solutions_finished.
  - destruct (are_jobs_finished_effect svc "datasetImportJob" "datasetImportJobArn"
                "Data import failed!" false h w) as (new & H1 & H2 & _ & _ & H5 & H6 & H7).
    exists new. split; [exact H1|]. split; [exact H2|]. split; [exact H5|].
    split; [exact H6|exact H7].
  - destruct (are_jobs_finished_effect svc "solutionVersion" "solutionVersionArn"
                "Build failed!" true h w) as (new & H1 & H2 & _ & _ & H5 & H6 & H7).
    exists new. split; [exact H1|]. split; [exact H2|]. split; [exact H5|].
    split; [exact H6|exact H7].
Qed.

(** ** One snapshot per iteration *)

Section DisplayFacts.

Context {S Snapshot : Type}.
Variable fn_poll_result : world S -> pyresult Snapshot * world S.
Variable fn_is_finished : Snapshot -> world S -> outcome * world S.
Variable fn_stringify_result : Snapshot -> world S -> string * world S.
Variable poll_secs : Z.
Variable timeout_secs : Z.

Lemma iterations_display (t0 : Z) (w : world S) tr r :
  iterations fn_poll_result fn_is_finished fn_stringify_result
    poll_secs timeout_secs t0 w tr r ->
  displayed_as_classified fn_poll_result fn_is_finished fn_stringify_result tr.
Proof.
  unfold displayed_as_classified.
  induction 1 as [| | | |w s text w1 w2 w3 Hp Hc Hf Ht
                  |w s text w1 w2 w3 rest r Hp Hc Hf Ht Hrest IH];
    intros pre post s0 text0 w4 Htr.
  - destruct pre; discriminate.
  - destruct pre as [|? [|? ?]]; discriminate.
  - destruct pre as [|? [|? [|? ?]]]; discriminate.
  - destruct pre as [|? [|? [|? ?]]]; discriminate.
  - destruct pre as [|p1 [|p2 [|p3 [|p4 [|p5 pre]]]]]; try discriminate.
    injection Htr as <- <- <- <- <- <-.
    exists [], w, w1, w2, w3. repeat split; assumption || reflexivity.
  - destruct pre as [|p1 [|p2 [|p3 [|p4 pre]]]]; try discriminate.
    + injection Htr as <- <- <- <- <- <-.
      exists [], w, w1, w2, w3. repeat split; assumption || reflexivity.
    + injection Htr as <- <- <- <- Hrest'.
      destruct (IH _ _ _ _ _ Hrest') as (pre' & v0 & v1 & v2 & v3 & -> & H1 & H2 & H3 & H4).
      exists ((EvPoll (Ret s), w1) :: (EvClassify s NotYetFinished, w2)
                :: (EvDisplay s text, emit text [] w3)
                :: (EvSleep poll_secs, sleep poll_secs (emit text [] w3)) :: pre'),
             v0, v1, v2, v3.
      repeat split; assumption || reflexivity.
Qed.

End DisplayFacts.

Lemma waiting_cell_display (svc : service)
    (p : nat -> world kernel -> pyresult pyval * world kernel) (noun : string)
    (tr : list (entry kernel nat)) :
  displayed_as_classified poll_waiting (classify_with p) (stringify_waiting noun) tr ->
  displayed_without_refetch tr.
Proof.
  intros H pre post s text w4 Htr.
  destruct (H pre post s text w4 Htr) as (pre' & w0 & w1 & w2 & w3 & -> & Hp & _ & Hf & ->).
  exists pre', w0, w1, w2. unfold poll_waiting, new_map in Hp.
  injection Hp as <- <-. unfold stringify_waiting in Hf. injection Hf as _ <-.
  repeat split; reflexivity.
Qed.

(** C6: in every run of the spinner, whatever the callbacks, each display
    is of the snapshot that the same iteration's fetch returned and its
    predicate classified, the formatter starting from the world the
    predicate left; in the two multi-job cells that snapshot is the [map]
    object created by the fetch, and between its classification and its
    display no describe call is made. *)
Theorem classified_and_displayed_same_snapshot :
  (forall (S Snapshot : Type)
          (fn_poll_result : world S -> pyresult Snapshot * world S)
          (fn_is_finished : Snapshot -> world S -> outcome * world S)
          (fn_stringify_result : Snapshot -> world S -> string * world S)
          (poll_secs timeout_secs : Z) (fuel : nat) (w : world S),
      displayed_as_classified fn_poll_result fn_is_finished fn_stringify_result
        (trace (polling_spinner fn_poll_result fn_is_finished fn_stringify_result
                  poll_secs timeout_secs fuel w)))
  /\ (forall svc arns fuel w,
         displayed_without_refetch (trace (wait_for_imports svc arns fuel w)))
  /\ (forall svc arns fuel w,
         displayed_without_refetch (trace (wait_for_solutions svc arns fuel w))).
Proof.
  assert (Hgen : forall (S Snapshot : Type)
          (fn_poll_result : world S -> pyresult Snapshot * world S)
          (fn_is_finished : Snapshot -> world S -> outcome * world S)
          (fn_stringify_result : Snapshot -> world S -> string * world S)
          (poll_secs timeout_secs : Z) (fuel : nat) (w : world S),
      displayed_as_classified fn_poll_result fn_is_finished fn_stringify_result
        (trace (polling_spinner fn_poll_result fn_is_finished fn_stringify_result
                  poll_secs timeout_secs fuel w))).
  { intros. unfold polling_spinner. eapply iterations_display, spin_iterations. }
  split; [exact Hgen|].
  split; intros svc arns fuel w; unfold wait_for_imports, wait_for_solutions;
    (eapply waiting_cell_display; [exact svc|apply Hgen]).
Qed.

Lemma classified_and_displayed_same_snapshot_witness :
  let svc := job_service "datasetImportJob" "datasetImportJobArn"
               (fun n _ => pending_until 2 "ACTIVE" n) in
  let r := wait_for_imports svc ["arn:import/interactions"; "arn:import/items"]
             10 fresh_world in
  result r = Some Returned
  /\ displays (trace r) = [(0%nat, "2 imports in progress"); (1%nat, "1 imports in progress")]
  /\ displayed_without_refetch (trace r).
Proof.
  cbv zeta. split; [vm_compute; reflexivity|]. split; [vm_compute; reflexivity|].
  apply (proj1 (proj2 classified_and_displayed_same_snapshot)).
Defined.

(** ** The campaign wait loop *)

Lemma never_polled_snoc (new : list (string * pyresult pyval))
    (arn : string) (resp : pyresult pyval) :
  never_polled_after_terminal new ->
  (forall a r, (a, r) ∈ new -> terminal_status r = true -> a <> arn) ->
  never_polled_after_terminal (new ++ [(arn, resp)]).
Proof.
  intros Hnew Hne l1 a r l2 Hsplit Hterm.
  destruct l2 as [|c l2 _] using rev_ind.
  - cbn. apply not_elem_of_nil.
  - rewrite app_comm_cons, app_assoc in Hsplit.
    apply app_inj_tail in Hsplit as [Hsplit Hc]. subst c.
    rewrite fmap_app, elem_of_app. cbn. intros [Hin|Hin].
    + exact (Hnew l1 a r l2 Hsplit Hterm Hin).
    + apply list_elem_of_singleton in Hin. subst a.
      apply (Hne arn r); [|exact Hterm|reflexivity].
      rewrite Hsplit. apply elem_of_app. right. apply elem_of_cons. left. reflexivity.
Qed.

Section CampaignFacts.

Variable svc : service.

Lemma remove_in_progress_elem (arn : string) (w : world kernel) :
  arn ∈ in_progress_campaigns (env w) ->
  exists l,
    list_remove arn (in_progress_campaigns (env w)) = Some l
    /\ remove_in_progress arn w = (Ret tt, set_env (set_in_progress_campaigns l (env w)) w).
Proof.
  intros Hin. destruct (list_remove_elem _ _ Hin) as [l Hl].
  exists l. split; [exact Hl|]. unfold remove_in_progress. rewrite Hl. reflexivity.
Qed.

(** What one round of the inner loop at most does: answers are logged,
    campaigns are only removed, the clock does not go back. *)
Lemma for_campaigns_effect (fuel idx : nat) (w : world kernel)
    (r : pyresult unit) (w' : world kernel) :
  for_campaigns svc fuel idx w = Some (r, w') ->
  sublist (in_progress_campaigns (env w')) (in_progress_campaigns (env w))
  /\ now w <= now w'.
Proof.
  revert idx w. induction fuel as [|fuel IH]; intros idx w H;
    cbn [for_campaigns] in H; [discriminate|].
  destruct (in_progress_campaigns (env w) !! idx) as [arn|] eqn:Ei.
  2:{ injection H as <- <-. split; [reflexivity|lia]. }
  pose proof (describe_effect svc arn w) as Hd. cbv zeta in Hd.
  destruct (describe svc arn w) as [resp w1]. cbn [fst snd] in Hd.
  destruct Hd as (_ & _ & _ & Hin & _ & Hnow).
  assert (Harn : arn ∈ in_progress_campaigns (env w1)).
  { rewrite Hin. eapply list_elem_of_lookup_2. exact Ei. }
  destruct (let* resp0 := resp in
            let* c := getitem resp0 "campaign" in getitem c "status") as [status|e].
  2:{ injection H as <- <-. split; [rewrite Hin; reflexivity|lia]. }
  destruct (eq_str status "ACTIVE"); [|destruct (eq_str status "CREATE FAILED")].
  - destruct (remove_in_progress_elem arn
                (emit "Build succeeded for " [PStr arn] w1) Harn) as (l & Hl & Hrm).
    rewrite Hrm in H.
    destruct (IH _ _ H) as [Hs Hn]. cbn in Hs, Hn.
    apply list_remove_Some in Hl as (Hsub & _ & _). cbn in Hsub.
    split; [|lia]. etrans; [exact Hs|]. rewrite <- Hin. exact Hsub.
  - destruct (remove_in_progress_elem arn
                (emit "Build failed for " [PStr arn] w1) Harn) as (l & Hl & Hrm).
    rewrite Hrm in H.
    destruct (IH _ _ H) as [Hs Hn]. cbn in Hs, Hn.
    apply list_remove_Some in Hl as (Hsub & _ & _). cbn in Hsub.
    split; [|lia]. etrans; [exact Hs|]. rewrite <- Hin. exact Hsub.
  - destruct (IH _ _ H) as [Hs Hn]. split; [rewrite <- Hin; exact Hs|lia].
Qed.

(** The inner loop is given enough rounds. *)
Lemma for_campaigns_fuel (fuel idx : nat) (w : world kernel) :
  (length (in_progress_campaigns (env w)) - idx < fuel)%nat ->
  is_Some (for_campaigns svc fuel idx w).
Proof.
  revert idx w. induction fuel as [|fuel IH]; intros idx w Hlt; [lia|].
  cbn [for_campaigns].
  destruct (in_progress_campaigns (env w) !! idx) as [arn|] eqn:Ei;
    [|eexists; reflexivity].
  pose proof (describe_effect svc arn w) as Hd. cbv zeta in Hd.
  destruct (describe svc arn w) as [resp w1]. cbn [fst snd] in Hd.
  destruct Hd as (_ & _ & _ & Hin & _ & _).
  assert (Harn : arn ∈ in_progress_campaigns (env w1)).
  { rewrite Hin. eapply list_elem_of_lookup_2. exact Ei. }
  apply lookup_lt_Some in Ei.
  destruct (let* resp0 := resp in
            let* c := getitem resp0 "campaign" in getitem c "status") as [status|e];
    [|eexists; reflexivity].
  destruct (eq_str status "ACTIVE"); [|destruct (eq_str status "CREATE FAILED")].
  - destruct (remove_in_progress_elem arn
                (emit "Build succeeded for " [PStr arn] w1) Harn) as (l & Hl & ->).
    apply IH. apply list_remove_Some in Hl as (_ & Hlen & _). cbn in *.
    rewrite Hin in Hlen. lia.
  - destruct (remove_in_progress_elem arn
                (emit "Build failed for " [PStr arn] w1) Harn) as (l & Hl & ->).
    apply IH. apply list_remove_Some in Hl as (_ & Hlen & _). cbn in *.
    rewrite Hin in Hlen. lia.
  - apply IH. rewrite Hin. lia.
Qed.

Lemma terminal_status_eq (resp : pyresult pyval) :
  terminal_status resp
  = match (let* resp0 := resp in
           let* c := getitem resp0 "campaign" in getitem c "status") with
    | Ret status => eq_str status "ACTIVE" || eq_str status "CREATE FAILED"
    | Raise _ => false
    end.
Proof.
  unfold terminal_status, campaign_status_of.
  destruct (let* resp0 := resp in
            let* c := getitem resp0 "campaign" in getitem c "status"); reflexivity.
Qed.

(** The invariant after one describe call about a campaign still in
    progress: kept as it is when the answer is not terminal, and kept
    once the campaign is removed when it is. *)
Lemma campaigns_inv_describe (old : list (string * pyresult pyval))
    (arn : string) (w : world kernel) :
  campaigns_inv old w ->
  arn ∈ in_progress_campaigns (env w) ->
  let p := describe svc arn w in
  (terminal_status p.1 = false -> campaigns_inv old p.2)
  /\ (forall l text shown,
        list_remove arn (in_progress_campaigns (env w)) = Some l ->
        campaigns_inv old
          (set_env (set_in_progress_campaigns l (env (emit text shown p.2)))
             (emit text shown p.2))).
Proof.
  intros (new & Hcalls & Hnd & Hnever & Hdone) Harn. cbn.
  generalize (respond svc (length (calls (env w))) arn). intros resp.
  assert (Hsnoc : never_polled_after_terminal (new ++ [(arn, resp)])).
  { apply never_polled_snoc; [exact Hnever|].
    intros a r Hin Hterm ->. exact (Hdone _ _ Hin Hterm Harn). }
  split.
  - intros Hterm. exists (new ++ [(arn, resp)])%list.
    cbn. rewrite Hcalls, app_assoc. split; [reflexivity|]. split; [exact Hnd|].
    split; [exact Hsnoc|].
    intros a r Hin Ht. apply elem_of_app in Hin as [Hin|Hin]; [eauto|].
    apply list_elem_of_singleton in Hin. injection Hin as -> ->. congruence.
  - intros l text shown Hl.
    destruct (list_remove_Some _ _ _ Hl) as (Hsub & _ & Hnot).
    exists (new ++ [(arn, resp)])%list.
    cbn. rewrite Hcalls, app_assoc. split; [reflexivity|].
    split; [eapply sublist_NoDup; eassumption|]. split; [exact Hsnoc|].
    intros a r Hin Ht. apply elem_of_app in Hin as [Hin|Hin].
    + intros Hal. eapply Hdone; [exact Hin|exact Ht|].
      eapply elem_of_sublist; eassumption.
    + apply list_elem_of_singleton in Hin. injection Hin as -> ->. auto.
Qed.

Lemma for_campaigns_inv (old : list (string * pyresult pyval))
    (fuel idx : nat) (w : world kernel) (r : pyresult unit) (w' : world kernel) :
  campaigns_inv old w ->
  for_campaigns svc fuel idx w = Some (r, w') ->
  campaigns_inv old w'.
Proof.
  revert idx w. induction fuel as [|fuel IH]; intros idx w Hinv H;
    cbn [for_campaigns] in H; [discriminate|].
  destruct (in_progress_campaigns (env w) !! idx) as [arn|] eqn:Ei.
  2:{ injection H as <- <-. exact Hinv. }
  assert (Harn : arn ∈ in_progress_campaigns (env w))
    by (eapply list_elem_of_lookup_2; exact Ei).
  destruct (campaigns_inv_describe old arn w Hinv Harn) as [Hkeep Hrem].
  destruct (list_remove_elem _ _ Harn) as [l Hl].
  cbv zeta in *.
  pose proof (terminal_status_eq (describe svc arn w).1) as Hterm.
  pose proof (describe_effect svc arn w) as Hd. cbv zeta in Hd.
  destruct (describe svc arn w) as [resp w1]. cbn [fst snd] in *.
  destruct Hd as (_ & _ & _ & Hin & _ & _).
  destruct (let* resp0 := resp in
            let* c := getitem resp0 "campaign" in getitem c "status") as [status|e].
  2:{ injection H as <- <-. apply Hkeep. exact Hterm. }
  unfold remove_in_progress in H. cbn [emit env] in H. rewrite Hin, Hl in H.
  destruct (eq_str status "ACTIVE"); [|destruct (eq_str status "CREATE FAILED")].
  - eapply IH; [|exact H]. apply (Hrem l "Build succeeded for " [PStr arn] Hl).
  - eapply IH; [|exact H]. apply (Hrem l "Build failed for " [PStr arn] Hl).
  - eapply IH; [|exact H]. apply Hkeep. exact Hterm.
Qed.

Lemma while_campaigns_inv (old : list (string * pyresult pyval))
    (fuel : nat) (max_time : Z) (w : world kernel)
    (r : pyresult unit) (w' : world kernel) :
  campaigns_inv old w ->
  while_campaigns svc fuel max_time w = Some (r, w') ->
  campaigns_inv old w'
  /\ (r = Ret tt -> in_progress_campaigns (env w') = [] \/ max_time <= now w').
Proof.
  revert w. induction fuel as [|fuel IH]; intros w Hinv H;
    cbn [while_campaigns] in H; [discriminate|].
  destruct (now w <? max_time) eqn:Et.
  2:{ injection H as <- <-. split; [exact Hinv|]. intros _. right. lia. }
  destruct (for_campaigns svc _ 0 w) as [[[u|e] w1]|] eqn:Ef; [| |discriminate].
  - pose proof (for_campaigns_inv old _ _ _ _ _ Hinv Ef) as Hinv1.
    destruct (length (in_progress_campaigns (env w1)) <=? 0)%nat eqn:El.
    + injection H as <- <-. split; [exact Hinv1|]. intros _. left.
      apply Nat.leb_le in El. apply nil_length_inv. lia.
    + eapply IH; [|exact H]. exact Hinv1.
  - injection H as <- <-. split; [|discriminate].
    exact (for_campaigns_inv old _ _ _ _ _ Hinv Ef).
Qed.

(** The deadline bounds the number of rounds: each one that goes on
    sleeps for a minute. *)
Lemma while_campaigns_fuel (fuel : nat) (max_time : Z) (w : world kernel) :
  max_time - now w <= 60 * Z.of_nat fuel ->
  is_Some (while_campaigns svc (Datatypes.S fuel) max_time w).
Proof.
  revert w. induction fuel as [|fuel IH]; intros w Hleft; cbn [while_campaigns].
  - destruct (now w <? max_time) eqn:Et; [lia|eexists; reflexivity].
  - destruct (now w <? max_time) eqn:Et; [|eexists; reflexivity].
    destruct (for_campaigns_fuel
                (Datatypes.S (length (in_progress_campaigns (env w)))) 0 w)
      as [[r w1] Hf]; [lia|].
    rewrite Hf. destruct (for_campaigns_effect _ _ _ _ _ Hf) as [_ Hnow].
    destruct r as [u|e]; [|eexists; reflexivity].
    destruct (length (in_progress_campaigns (env w1)) <=? 0)%nat;
      [eexists; reflexivity|].
    apply IH. cbn. lia.
Qed.

(** Once the loop has ended, more fuel changes nothing. *)
Lemma while_campaigns_more_fuel (fuel : nat) (max_time : Z) (w : world kernel)
    (x : pyresult unit * world kernel) :
  while_campaigns svc fuel max_time w = Some x ->
  forall fuel', (fuel <= fuel')%nat -> while_campaigns svc fuel' max_time w = Some x.
Proof.
  revert w. induction fuel as [|fuel IH]; intros w H fuel' Hle;
    cbn [while_campaigns] in H; [discriminate|].
  destruct fuel' as [|fuel']; [lia|]. cbn [while_campaigns].
  destruct (now w <? max_time); [|exact H].
  destruct (for_campaigns svc _ 0 w) as [[[u|e] w1]|]; [|exact H|exact H].
  destruct (length (in_progress_campaigns (env w1)) <=? 0)%nat; [exact H|].
  apply IH; [exact H|lia].
Qed.

End CampaignFacts.

(** ** The campaign wait loop: when it ends *)

Lemma time_in_calls_app (svc : service) (a : nat) :
  forall c b, time_in_calls svc c (a + b)
              = time_in_calls svc c a + time_in_calls svc (c + a) b.
Proof.
  induction a as [|a IH]; intros c b.
  - cbn. rewrite Nat.add_0_r. reflexivity.
  - cbn [Nat.add time_in_calls]. rewrite IH.
    replace (Datatypes.S c + a)%nat with (c + Datatypes.S a)%nat by lia. lia.
Qed.

Lemma still_waiting_app (a b : list (string * list pyval)) :
  still_waiting (a ++ b) = (still_waiting a + still_waiting b)%nat.
Proof. unfold still_waiting. rewrite filter_app, length_app. reflexivity. Qed.

Lemma still_waiting_none (out : list (string * list pyval)) :
  still_waiting out = 0%nat ->
  forall line, line ∈ out ->
               line.1 <> "At least one campaign build is still in progress".
Proof.
  unfold still_waiting. intros H line Hin Heq.
  assert (Hf : line ∈ filter (fun l : string * list pyval =>
                                l.1 = "At least one campaign build is still in progress")
                        out)
    by (apply list_elem_of_filter; split; assumption).
  apply nil_length_inv in H. rewrite H in Hf. inversion Hf.
Qed.

Lemma last_elem_of {A} (l : list A) (x : A) : last l = Some x -> x ∈ l.
Proof.
  intros H. apply last_Some in H as [l' ->]. apply elem_of_app. right. left.
Qed.

Section CampaignExit.

Variable svc : service.

(** One pass over the list: what it prints are announcements, one for
    each campaign it removes, and the time it takes is the time of its
    describe calls. *)
Lemma for_campaigns_pass (fuel idx : nat) (w : world kernel)
    (r : pyresult unit) (w' : world kernel) :
  for_campaigns svc fuel idx w = Some (r, w') ->
  exists more new,
    stdout w' = (stdout w ++ more)%list
    /\ calls (env w') = (calls (env w) ++ new)%list
    /\ now w' = now w + time_in_calls svc (length (calls (env w))) (length new)
    /\ still_waiting more = 0%nat
    /\ length (in_progress_campaigns (env w))
       = (length (in_progress_campaigns (env w')) + length more)%nat.
Proof.
  revert idx w. induction fuel as [|fuel IH]; intros idx w H;
    cbn [for_campaigns] in H; [discriminate|].
  destruct (in_progress_campaigns (env w) !! idx) as [arn|] eqn:Ei.
  2:{ injection H as <- <-. exists [], []. rewrite !app_nil_r. cbn.
      repeat split; lia. }
  assert (Harn : arn ∈ in_progress_campaigns (env w))
    by (eapply list_elem_of_lookup_2; exact Ei).
  unfold describe in H. cbv zeta in H.
  set (resp := respond svc (length (calls (env w))) arn) in *. clearbody resp.
  assert (Hstep : forall w2 l,
             stdout w2 = (stdout w ++ l)%list ->
             calls (env w2) = (calls (env w) ++ [(arn, resp)])%list ->
             now w2 = now w + Z.of_nat (latency svc (length (calls (env w)))) ->
             still_waiting l = 0%nat ->
             length (in_progress_campaigns (env w))
             = (length (in_progress_campaigns (env w2)) + length l)%nat ->
             for_campaigns svc fuel (Datatypes.S idx) w2 = Some (r, w') ->
             exists more new,
               stdout w' = (stdout w ++ more)%list
               /\ calls (env w') = (calls (env w) ++ new)%list
               /\ now w' = now w + time_in_calls svc (length (calls (env w))) (length new)
               /\ still_waiting more = 0%nat
               /\ length (in_progress_campaigns (env w))
                  = (length (in_progress_campaigns (env w')) + length more)%nat).
  { intros w2 l Hout Hcalls Hnow Hstill Hlen Hrun.
    destruct (IH _ _ Hrun) as (more & new & O & C & N & St & L).
    exists (l ++ more)%list, ((arn, resp) :: new).
    split; [rewrite O, Hout, app_assoc; reflexivity|].
    split; [rewrite C, Hcalls, <- app_assoc; reflexivity|].
    split.
    { rewrite N, Hnow, Hcalls, length_app. cbn [length time_in_calls].
      replace (length (calls (env w)) + 1)%nat
        with (Datatypes.S (length (calls (env w)))) by lia. lia. }
    split; [rewrite still_waiting_app, Hstill, St; reflexivity|].
    rewrite length_app. lia. }
  destruct (let* resp0 := resp in
            let* c := getitem resp0 "campaign" in getitem c "status")
    as [status|e].
  2:{ injection H as <- <-. exists [], [(arn, resp)]. rewrite app_nil_r. cbn.
      repeat split; lia. }
  destruct (list_remove_elem _ _ Harn) as [l Hl].
  pose proof (list_remove_Some _ _ _ Hl) as (_ & Hlen & _).
  unfold remove_in_progress in H. cbn [emit env] in H.
  change (in_progress_campaigns (set_calls (calls (env w) ++ [(arn, resp)]) (env w)))
    with (in_progress_campaigns (env w)) in H.
  rewrite Hl in H.
  destruct (eq_str status "ACTIVE"); [|destruct (eq_str status "CREATE FAILED")].
  - eapply (Hstep _ [("Build succeeded for ", [PStr arn])]); [..|exact H];
      cbn; try reflexivity; lia.
  - eapply (Hstep _ [("Build failed for ", [PStr arn])]); [..|exact H];
      cbn; try reflexivity; lia.
  - eapply (Hstep _ []); [..|exact H]; cbn; try reflexivity; try lia.
    rewrite app_nil_r. reflexivity.
Qed.

(** How the loop ends: right after a pass that left the list empty, with
    nothing printed or slept after it, or at the deadline check that
    follows a "still in progress" line and its minute of sleep. All the
    time it takes is the time of its describe calls and one minute for
    each such line. *)
Lemma while_campaigns_exit (fuel : nat) (max_time : Z) (w : world kernel)
    (r : pyresult unit) (w' : world kernel) :
  while_campaigns svc fuel max_time w = Some (r, w') ->
  exists more new,
    stdout w' = (stdout w ++ more)%list
    /\ calls (env w') = (calls (env w) ++ new)%list
    /\ now w' = now w + time_in_calls svc (length (calls (env w))) (length new)
                + 60 * Z.of_nat (still_waiting more)
    /\ (r = Ret tt ->
        (in_progress_campaigns (env w') = []
         /\ (more = [] -> in_progress_campaigns (env w) = [])
         /\ (forall line, last more = Some line ->
               line.1 <> "At least one campaign build is still in progress"))
        \/ (in_progress_campaigns (env w') <> []
            /\ max_time <= now w'
            /\ ((more = [] /\ w' = w)
                \/ last more
                   = Some ("At least one campaign build is still in progress", [])))).
Proof.
  revert w. induction fuel as [|fuel IH]; intros w H;
    cbn [while_campaigns] in H; [discriminate|].
  destruct (Z.ltb_spec (now w) max_time) as [Hlt|Hge].
  2:{ injection H as <- <-. exists [], []. rewrite !app_nil_r. cbn.
      split; [reflexivity|]. split; [reflexivity|]. split; [lia|]. intros _.
      destruct (in_progress_campaigns (env w)) eqn:E.
      - left. repeat split; [discriminate].
      - right. split; [discriminate|]. split; [lia|]. left. split; reflexivity. }
  destruct (for_campaigns svc _ 0 w) as [[[u|e] w1]|] eqn:Ef; [| |discriminate].
  2:{ destruct (for_campaigns_pass _ _ _ _ _ Ef) as (more & new & O & C & N & St & L).
      injection H as <- <-. exists more, new. rewrite St.
      split; [exact O|]. split; [exact C|]. split; [lia|discriminate]. }
  destruct (for_campaigns_pass _ _ _ _ _ Ef) as (more & new & O & C & N & St & L).
  destruct (Nat.leb_spec (length (in_progress_campaigns (env w1))) 0) as [Hemp|Hne].
  - injection H as <- <-. exists more, new. rewrite St.
    split; [exact O|]. split; [exact C|]. split; [lia|]. intros _. left.
    assert (He : in_progress_campaigns (env w1) = [])
      by (apply nil_length_inv; lia).
    split; [exact He|]. split.
    + intros ->. rewrite He in L. cbn in L. apply nil_length_inv. exact L.
    + intros line Hl. apply (still_waiting_none more St). apply last_elem_of. exact Hl.
  - destruct (IH _ H) as (more' & new' & O' & C' & N' & E').
    cbn [sleep emit stdout env now] in O', C', N', E'.
    exists (more ++ ("At least one campaign build is still in progress", []) :: more')%list,
      (new ++ new')%list.
    split; [rewrite O', O, <- !app_assoc; reflexivity|].
    split; [rewrite C', C, <- app_assoc; reflexivity|].
    split.
    { rewrite N', N, C, !length_app, time_in_calls_app, still_waiting_app, St.
      change (("At least one campaign build is still in progress", []) :: more')
        with ([("At least one campaign build is still in progress",
                ([] : list pyval))] ++ more')%list.
      rewrite still_waiting_app.
      change (still_waiting [("At least one campaign build is still in progress",
                              ([] : list pyval))]) with 1%nat.
      lia. }
    intros Hr. destruct (E' Hr) as [(He & Hnil & Hlast)|(Hn & Hmax & Hlast)].
    + left. split; [exact He|].
      assert (Hmore' : more' <> []).
      { intros Hm. specialize (Hnil Hm). rewrite Hnil in Hne. cbn in Hne. lia. }
      split; [intros Hm; destruct more; discriminate|].
      intros line Hl. apply Hlast.
      rewrite last_app in Hl. cbn [last] in Hl.
      destruct more' as [|m more']; [congruence|].
      change (last (("At least one campaign build is still in progress", [])
                      :: m :: more')) with (last (m :: more')) in Hl.
      destruct (last (m :: more')) eqn:El; [exact Hl|].
      apply last_None in El. discriminate.
    + right. split; [exact Hn|]. split; [exact Hmax|]. right.
      rewrite last_app.
      destruct Hlast as [[-> _]|Hlast]; [reflexivity|].
      destruct more' as [|m more']; [discriminate|].
      change (last (("At least one campaign build is still in progress", [])
                      :: m :: more')) with (last (m :: more')).
      rewrite Hlast. reflexivity.
Qed.

End CampaignExit.

(** C8: with three (or any number of) distinct campaigns to wait for, the
    cell ends, with the same outcome for every fuel from 181 on; a
    campaign that a describe call showed ["ACTIVE"] or ["CREATE FAILED"]
    is not in [in_progress_campaigns] any more and no later describe call
    is about it; the time the loop takes is the time of its describe
    calls and one minute for each "still in progress" line; and it is
    left normally in one of two ways only: with [in_progress_campaigns]
    empty, right after the pass that emptied it, no "still in progress"
    line and no sleep coming after, or with campaigns still listed, once
    the three hours have passed, right after such a line and its sleep. *)
Theorem campaigns_never_polled_after_terminal (svc : service)
    (campaign_arns : list string) (w : world kernel) :
  NoDup campaign_arns ->
  (exists r w',
      forall fuel, (181 <= fuel)%nat ->
        wait_for_campaigns svc campaign_arns fuel w = Some (r, w'))
  /\ (forall fuel r w',
         wait_for_campaigns svc campaign_arns fuel w = Some (r, w') ->
         exists new more,
           calls (env w') = (calls (env w) ++ new)%list
           /\ stdout w' = (stdout w ++ more)%list
           /\ never_polled_after_terminal new
           /\ (forall a resp, (a, resp) ∈ new -> terminal_status resp = true ->
                 a ∉ in_progress_campaigns (env w'))
           /\ now w' = now w + time_in_calls svc (length (calls (env w))) (length new)
                       + 60 * Z.of_nat (still_waiting more)
           /\ (r = Ret tt ->
               (in_progress_campaigns (env w') = []
                /\ (forall line, last more = Some line ->
                      line.1 <> "At least one campaign build is still in progress"))
               \/ (in_progress_campaigns (env w') <> []
                   /\ now w + 3 * 60 * 60 <= now w'
                   /\ last more
                      = Some ("At least one campaign build is still in progress", [])))).
Proof.
  intros Hnd. unfold wait_for_campaigns. cbn [set_env now env]. split.
  - destruct (while_campaigns_fuel svc 180 (now w + 3 * 60 * 60)
                (World (now w) (stdout w)
                   (set_in_progress_campaigns campaign_arns (env w))))
      as [[r w'] Hrun]; [cbn; lia|].
    exists r, w'. intros fuel Hle.
    eapply while_campaigns_more_fuel; [exact Hrun|exact Hle].
  - intros fuel r w' Hrun.
    assert (Hinv : campaigns_inv (calls (env w))
                     (set_env (set_in_progress_campaigns campaign_arns (env w)) w)).
    { exists []. cbn. rewrite app_nil_r. split; [reflexivity|].
      split; [exact Hnd|]. split.
      - intros l1 a resp l2 Hsplit. destruct l1; discriminate.
      - intros a resp Hin. inversion Hin. }
    destruct (while_campaigns_inv svc (calls (env w)) _ _ _ _ _ Hinv Hrun)
      as [(new & H1 & _ & H3 & H4) _].
    destruct (while_campaigns_exit svc _ _ _ _ _ Hrun)
      as (more & new' & O & C & N & E).
    cbn [stdout env calls now set_env set_in_progress_campaigns] in O, C, N, E.
    assert (new' = new) by (rewrite H1 in C; apply app_inv_head in C; congruence).
    subst new'.
    exists new, more. split; [exact H1|]. split; [exact O|].
    split; [exact H3|]. split; [exact H4|]. split; [exact N|].
    intros Hr. destruct (E Hr) as [(He & _ & Hl)|(Hn & Hmax & Hl)].
    + left. split; assumption.
    + right. split; [exact Hn|]. split; [exact Hmax|].
      destruct Hl as [[_ ->]|Hl]; [|exact Hl].
      cbn [now set_env] in Hmax. lia.
Qed.

(** The three campaigns of the notebook: the first call finds the third
    one active, the later ones find all of them active. The loop ends
    125 seconds after it began (five describe calls of one second, two
    minutes of sleep), right after the last campaign is announced. *)
Lemma campaigns_never_polled_after_terminal_witness :
  let svc := Service
               (fun n arn =>
                  Ret (describe_response "campaign"
                         (if (Nat.ltb n 2) then "CREATE IN_PROGRESS" else "ACTIVE")))
               (fun _ => 1%nat) in
  let arns := ["arn:campaign/up"; "arn:campaign/sims"; "arn:campaign/rerank"] in
  exists fuel w' more,
    wait_for_campaigns svc arns fuel fresh_world = Some (Ret tt, w')
    /\ in_progress_campaigns (env w') = []
    /\ never_polled_after_terminal (calls (env w'))
    /\ now w' = 125
    /\ stdout w' = (stdout fresh_world ++ more)%list
    /\ (forall line, last more = Some line ->
          line.1 <> "At least one campaign build is still in progress").
Proof.
  cbv zeta.
  destruct (campaigns_never_polled_after_terminal
              (Service
                 (fun n arn =>
                    Ret (describe_response "campaign"
                           (if (Nat.ltb n 2) then "CREATE IN_PROGRESS" else "ACTIVE")))
                 (fun _ => 1%nat))
              ["arn:campaign/up"; "arn:campaign/sims"; "arn:campaign/rerank"]
              fresh_world) as [_ Hrun].
  - apply (bool_decide_unpack _). vm_compute. reflexivity.
  - destruct (Hrun 10%nat _ _ ltac:(vm_compute; reflexivity))
      as (new & more & Hc & Ho & Hn & _ & _ & Hexit).
    eexists 10%nat, _, more. split; [vm_compute; reflexivity|].
    split; [reflexivity|].
    split; [cbn in Hc; rewrite <- Hc in Hn; exact Hn|].
    split; [reflexivity|]. split; [exact Ho|].
    destruct (Hexit eq_refl) as [[_ Hlast]|[Hne _]]; [exact Hlast|].
    exfalso. apply Hne. reflexivity.
Defined.

(* ===================================================================== *)
(** * Further properties of the cells                                     *)
(* ===================================================================== *)

(** ** Splitting and joining *)

(** [+:+] is not unfolded by [cbn]: the two equations of its definition. *)
Ltac push_append :=
  repeat match goal with
  | |- context [String ?c ?a +:+ ?b] =>
      change (String c a +:+ b) with (String c (a +:+ b))
  | |- context [EmptyString +:+ ?b] => change (EmptyString +:+ b) with b
  end.

Lemma split_on_cons (sep : ascii) (s : string) :
  exists p ps, split_on sep s = p :: ps.
Proof.
  induction s as [|c s (p & ps & IH)]; cbn.
  - eexists _, _. reflexivity.
  - destruct (Ascii.eqb c sep); [eexists _, _; reflexivity|].
    rewrite IH. eexists _, _. reflexivity.
Qed.

Lemma split_on_length (sep : ascii) (s : string) :
  length (split_on sep s) = Datatypes.S (count_char sep s).
Proof.
  induction s as [|c s IH]; cbn; [reflexivity|].
  destruct (Ascii.eqb c sep); cbn.
  - rewrite IH. reflexivity.
  - destruct (split_on_cons sep s) as (p & ps & E). rewrite E in *. cbn in *. lia.
Qed.

Lemma join_cons (sep p : string) (ps : list string) :
  ps <> [] -> join sep (p :: ps) = p +:+ sep +:+ join sep ps.
Proof. destruct ps; [congruence|reflexivity]. Qed.

Lemma split_on_free (sep : ascii) (s : string) :
  count_char sep s = 0%nat -> split_on sep s = [s].
Proof.
  induction s as [|c s IH]; cbn; [reflexivity|].
  destruct (Ascii.eqb c sep); [discriminate|]. cbn. intros H. rewrite IH by exact H.
  reflexivity.
Qed.

Lemma split_on_app (sep : ascii) (p rest : string) :
  count_char sep p = 0%nat ->
  split_on sep (p +:+ String sep rest) = p :: split_on sep rest.
Proof.
  induction p as [|c p IH]; push_append; cbn.
  - rewrite Ascii.eqb_refl. reflexivity.
  - destruct (Ascii.eqb c sep); [discriminate|]. cbn. intros H.
    rewrite IH by exact H. reflexivity.
Qed.

Lemma split_join (sep : ascii) (p : string) (ps : list string) :
  Forall (fun q => count_char sep q = 0%nat) (p :: ps) ->
  split_on sep (join (String sep "") (p :: ps)) = p :: ps.
Proof.
  revert p. induction ps as [|q ps IH]; intros p Hfree.
  - cbn. apply split_on_free. inversion Hfree; assumption.
  - rewrite join_cons by discriminate. inversion Hfree as [|? ? Hp Hrest]; subst.
    change (String sep "" +:+ join (String sep "") (q :: ps))
      with (String sep (join (String sep "") (q :: ps))).
    rewrite split_on_app by exact Hp. rewrite IH by exact Hrest. reflexivity.
Qed.

Lemma split_on_parts_free (sep : ascii) (s : string) :
  Forall (fun q => count_char sep q = 0%nat) (split_on sep s).
Proof.
  induction s as [|c s IH]; cbn.
  - repeat constructor.
  - destruct (Ascii.eqb c sep) eqn:E.
    + constructor; [reflexivity|exact IH].
    + destruct (split_on_cons sep s) as (p & ps & Es). rewrite Es in *.
      inversion IH; subst. constructor; [|assumption]. cbn. rewrite E. assumption.
Qed.

Lemma split_on_six (s : string) :
  count_char ":" s = 5%nat ->
  exists a b c d e f, split_on ":" s = [a; b; c; d; e; f].
Proof.
  intros H. pose proof (split_on_length ":" s) as L. rewrite H in L.
  destruct (split_on ":" s) as [|a [|b [|c [|d [|e [|f [|g l]]]]]]]; try discriminate.
  eauto 10.
Qed.

(** ** The dataset-group ARN and the role name *)

(** X1: when the role ARN has exactly five colons and neither the region
    nor the dataset-group name contains one, the cell returns an ARN whose
    six fields are: the role ARN's first, second and fifth field
    unchanged, ["personalize"], the region, and ["dataset-group/"]
    followed by the name. *)
Theorem dataset_group_arn_fields (personalize_role_arn region dataset_group_name : string) :
  count_char ":" personalize_role_arn = 5%nat ->
  count_char ":" region = 0%nat ->
  count_char ":" dataset_group_name = 0%nat ->
  exists header partition svc reg acct_id resource dataset_group_arn,
    split_on ":" personalize_role_arn = [header; partition; svc; reg; acct_id; resource]
    /\ derive_dataset_group_arn personalize_role_arn region dataset_group_name
       = Ret dataset_group_arn
    /\ split_on ":" dataset_group_arn
       = [header; partition; "personalize"; region; acct_id;
          "dataset-group/" +:+ dataset_group_name].
Proof.
  intros Harn Hregion Hname.
  destruct (split_on_six _ Harn) as (a & b & c & d & e & f & E).
  pose proof (split_on_parts_free ":" personalize_role_arn) as Hfree.
  unfold derive_dataset_group_arn. rewrite E in *.
  exists a, b, c, d, e, f. eexists. split; [reflexivity|]. split; [reflexivity|].
  apply (split_join ":").
  repeat match goal with H : Forall _ (_ :: _) |- _ => inversion H; clear H; subst end.
  repeat constructor; assumption.
Qed.

Lemma dataset_group_arn_fields_witness :
  exists header partition svc reg acct_id resource dataset_group_arn,
    split_on ":" "arn:aws:iam::123456789012:role/PersonalizeRolePOC"
      = [header; partition; svc; reg; acct_id; resource]
    /\ derive_dataset_group_arn "arn:aws:iam::123456789012:role/PersonalizeRolePOC"
         "us-east-1" "personalize-poc-lab" = Ret dataset_group_arn
    /\ split_on ":" dataset_group_arn
       = [header; partition; "personalize"; "us-east-1"; acct_id;
          "dataset-group/" +:+ "personalize-poc-lab"].
Proof.
  apply (dataset_group_arn_fields
           "arn:aws:iam::123456789012:role/PersonalizeRolePOC"
           "us-east-1" "personalize-poc-lab"); reflexivity.
Defined.

(** X2: the cell returns exactly when the role ARN has five colons; with
    fewer or more the unpacking raises a [ValueError], and with fewer its
    message tells the number of fields found. *)
Theorem dataset_group_arn_needs_five_colons
    (personalize_role_arn region dataset_group_name : string) :
  let colons := count_char ":" personalize_role_arn in
  let r := derive_dataset_group_arn personalize_role_arn region dataset_group_name in
  ((exists dataset_group_arn, r = Ret dataset_group_arn) <-> colons = 5%nat)
  /\ (is_ValueError r <-> colons <> 5%nat)
  /\ ((colons < 5)%nat ->
      r = Raise (ValueError ("not enough values to unpack (expected 6, got "
                               +:+ str_of_nat (Datatypes.S colons) +:+ ")") []))
  /\ ((5 < colons)%nat ->
      r = Raise (ValueError "too many values to unpack (expected 6)" [])).
Proof.
  cbv zeta. unfold derive_dataset_group_arn.
  pose proof (split_on_length ":" personalize_role_arn) as L.
  set (parts := split_on ":" personalize_role_arn) in *.
  set (n := count_char ":" personalize_role_arn) in *. clearbody parts n.
  assert (E : n = pred (length parts)) by lia.
  destruct parts as [|a [|b [|c [|d [|e [|f [|g l]]]]]]]; cbn [length] in *;
    try discriminate; subst n; cbn [pred].
  all: repeat split; unfold is_ValueError; intros;
    repeat match goal with
           | H : exists _, _ |- _ => destruct H
           | H : _ /\ _ |- _ => destruct H
           end;
    try discriminate; try lia; try congruence; eauto.
Qed.

Lemma dataset_group_arn_needs_five_colons_witness :
  derive_dataset_group_arn "arn" "us-east-1" "personalize-poc-lab"
  = Raise (ValueError "not enough values to unpack (expected 6, got 1)" []).
Proof.
  apply (proj1 (proj2 (proj2 (dataset_group_arn_needs_five_colons
                                "arn" "us-east-1" "personalize-poc-lab")))).
  vm_compute. lia.
Defined.

(** X20: run on its own result, with the same region and name, the
    cell returns that result again: a role ARN with five colons gives a
    dataset-group ARN that the cell leaves as it is. *)
Theorem dataset_group_arn_is_kept (personalize_role_arn region dataset_group_name : string) :
  count_char ":" personalize_role_arn = 5%nat ->
  count_char ":" region = 0%nat ->
  count_char ":" dataset_group_name = 0%nat ->
  exists dataset_group_arn,
    derive_dataset_group_arn personalize_role_arn region dataset_group_name
    = Ret dataset_group_arn
    /\ derive_dataset_group_arn dataset_group_arn region dataset_group_name
       = Ret dataset_group_arn.
Proof.
  intros Harn Hregion Hname.
  destruct (split_on_six _ Harn) as (a & b & c & d & e & f & E).
  pose proof (split_on_parts_free ":" personalize_role_arn) as Hfree.
  rewrite E in Hfree.
  repeat match goal with H : Forall _ (_ :: _) |- _ => inversion H; clear H; subst end.
  eexists. split.
  - unfold derive_dataset_group_arn. rewrite E. reflexivity.
  - unfold derive_dataset_group_arn.
    rewrite (split_join ":") by (repeat constructor; assumption).
    reflexivity.
Qed.

Lemma dataset_group_arn_is_kept_witness :
  derive_dataset_group_arn
    "arn:aws:personalize:us-east-1:123456789012:dataset-group/personalize-poc-lab"
    "us-east-1" "personalize-poc-lab"
  = Ret "arn:aws:personalize:us-east-1:123456789012:dataset-group/personalize-poc-lab".
Proof.
  destruct (dataset_group_arn_is_kept
              "arn:aws:iam::123456789012:role/PersonalizeRolePOC"
              "us-east-1" "personalize-poc-lab" eq_refl eq_refl eq_refl)
    as (out & Hout & Hkept).
  vm_compute in Hout. injection Hout as <-. exact Hkept.
Defined.

Lemma partition_on_free (sep : ascii) (s : string) :
  count_char sep s = 0%nat -> partition_on sep s = (s, "", "").
Proof.
  induction s as [|c s IH]; cbn; [reflexivity|].
  destruct (Ascii.eqb c sep); [discriminate|]. cbn. intros H.
  rewrite IH by exact H. reflexivity.
Qed.

Lemma partition_on_first (sep : ascii) (pre post : string) :
  count_char sep pre = 0%nat ->
  partition_on sep (pre +:+ String sep post) = (pre, String sep "", post).
Proof.
  induction pre as [|c pre IH]; push_append; cbn.
  - rewrite Ascii.eqb_refl. reflexivity.
  - destruct (Ascii.eqb c sep); [discriminate|]. cbn. intros H.
    rewrite IH by exact H. reflexivity.
Qed.

(** X3: the role name of the clean-up notebook is all that follows the
    first slash of the role ARN, later slashes included, and the empty
    string when the ARN has no slash. *)
Theorem role_name_follows_first_slash (personalize_role_arn : string) :
  (count_char "/" personalize_role_arn = 0%nat -> role_name_of personalize_role_arn = "")
  /\ (forall pre post,
        personalize_role_arn = pre +:+ "/" +:+ post ->
        count_char "/" pre = 0%nat ->
        role_name_of personalize_role_arn = post).
Proof.
  unfold role_name_of. split.
  - intros H. rewrite partition_on_free by exact H. reflexivity.
  - intros pre post -> H.
    change (pre +:+ "/" +:+ post) with (pre +:+ String "/" post).
    rewrite partition_on_first by exact H. reflexivity.
Qed.

Lemma role_name_follows_first_slash_witness :
  role_name_of "arn:aws:iam::123456789012:role/service-role/PersonalizeRolePOC"
  = "service-role/PersonalizeRolePOC".
Proof.
  apply (proj2 (role_name_follows_first_slash
                  "arn:aws:iam::123456789012:role/service-role/PersonalizeRolePOC")
           "arn:aws:iam::123456789012:role" "service-role/PersonalizeRolePOC");
    reflexivity.
Defined.

(** ** Padding the columns of a table of recommendations *)

Lemma pad_to_spec (n_recs : Z) (titles : list pyval) :
  0 <= n_recs ->
  pad_to n_recs titles
  = (take (Z.to_nat n_recs) titles
       ++ replicate (Z.to_nat n_recs - length titles) PNone)%list.
Proof.
  intros H. unfold pad_to, slice_to.
  destruct (Z.leb_spec 0 n_recs); [|lia].
  rewrite take_app, take_replicate. f_equal. f_equal. lia.
Qed.

Lemma pad_to_length (n_recs : Z) (titles : list pyval) :
  0 <= n_recs -> length (pad_to n_recs titles) = Z.to_nat n_recs.
Proof.
  intros H. rewrite pad_to_spec by exact H.
  rewrite length_app, length_take, length_replicate. lia.
Qed.

Lemma collect_recs_keeps titles_for n_recs user_ids :
  forall up_user_recs table label,
    collect_recs titles_for n_recs user_ids up_user_recs = Ret table ->
    is_Some (up_user_recs !! label) -> is_Some (table !! label).
Proof.
  induction user_ids as [|u rest IH]; intros init table label Hrun Hin; cbn in Hrun.
  - congruence.
  - destruct (titles_for u) as [titles|e]; [|discriminate]. cbn in Hrun.
    eapply IH; [exact Hrun|].
    destruct (decide (user_label u = label)) as [->|Hne].
    + rewrite lookup_insert_eq. eauto.
    + rewrite lookup_insert_ne by exact Hne. exact Hin.
Qed.

Lemma collect_recs_columns titles_for n_recs user_ids :
  forall up_user_recs table label column,
    collect_recs titles_for n_recs user_ids up_user_recs = Ret table ->
    table !! label = Some column ->
    up_user_recs !! label = Some column
    \/ exists user_id titles,
         user_id ∈ user_ids /\ label = user_label user_id
         /\ titles_for user_id = Ret titles /\ column = pad_to n_recs titles.
Proof.
  induction user_ids as [|u rest IH]; intros init table label column Hrun Hcol;
    cbn in Hrun.
  - left. congruence.
  - destruct (titles_for u) as [titles|e] eqn:Et; [|discriminate]. cbn in Hrun.
    destruct (IH _ _ _ _ Hrun Hcol) as [Hinit|(u' & t' & Hin & -> & Ht & ->)].
    + destruct (decide (user_label u = label)) as [<-|Hne].
      * rewrite lookup_insert_eq in Hinit. right. exists u, titles.
        repeat split; [left|exact Et|congruence].
      * rewrite lookup_insert_ne in Hinit by exact Hne. left. exact Hinit.
    + right. exists u', t'. repeat split; [right; exact Hin|exact Ht].
Qed.

(** X4: when the loop over the users goes through with a non-negative
    [n_recs], the table started from [{}] has a column for every user,
    and every column has exactly [n_recs] rows: the first [n_recs] titles
    returned for some user of the list, followed by [None]s when there
    were fewer. *)
Theorem padded_table_columns_have_n_recs_rows
    (titles_for : string + Z -> pyresult (list pyval)) (n_recs : Z)
    (user_ids : list (string + Z)) (table : gmap string (list pyval)) :
  0 <= n_recs ->
  collect_recs titles_for n_recs user_ids ∅ = Ret table ->
  (forall user_id, user_id ∈ user_ids -> is_Some (table !! user_label user_id))
  /\ (forall label column,
        table !! label = Some column ->
        length column = Z.to_nat n_recs
        /\ exists user_id titles,
             user_id ∈ user_ids /\ label = user_label user_id
             /\ titles_for user_id = Ret titles
             /\ column = (take (Z.to_nat n_recs) titles
                            ++ replicate (Z.to_nat n_recs - length titles) PNone)%list).
Proof.
  intros Hn Hrun. split.
  - clear Hn. revert Hrun. generalize (∅ : gmap string (list pyval)).
    induction user_ids as [|u rest IH]; intros init Hrun user_id Hin.
    + inversion Hin.
    + cbn in Hrun. destruct (titles_for u) as [titles|e]; [|discriminate].
      cbn in Hrun. apply elem_of_cons in Hin as [->|Hin].
      * eapply collect_recs_keeps; [exact Hrun|]. rewrite lookup_insert_eq. eauto.
      * eapply IH; eassumption.
  - intros label column Hcol.
    destruct (collect_recs_columns _ _ _ _ _ _ _ Hrun Hcol)
      as [Hinit|(u & titles & Hin & -> & Ht & ->)].
    + rewrite lookup_empty in Hinit. discriminate.
    + split; [apply pad_to_length; exact Hn|].
      exists u, titles. repeat split; try assumption. apply pad_to_spec; exact Hn.
Qed.

Lemma padded_table_columns_have_n_recs_rows_witness :
  let titles_for := fun user_id : string + Z =>
                      match user_id with
                      | inl _ => Ret [PStr "Toy Story"]
                      | inr _ => Ret [PStr "Heat"; PStr "Casino"; PStr "Se7en"]
                      end in
  exists table,
    collect_recs titles_for 2 [inl "Anonymous"; inr 300] ∅ = Ret table
    /\ table !! "User Anonymous" = Some [PStr "Toy Story"; PNone]
    /\ table !! "User 300" = Some [PStr "Heat"; PStr "Casino"]
    /\ forall label column, table !! label = Some column -> length column = 2%nat.
Proof.
  intros titles_for. eexists. split; [reflexivity|].
  split; [reflexivity|]. split; [reflexivity|].
  intros label column Hcol.
  refine (proj1 (proj2 (padded_table_columns_have_n_recs_rows
                          titles_for 2 [inl "Anonymous"; inr 300] _ _ eq_refl)
                   label column Hcol)).
  lia.
Defined.

(** ** ARN look-up: what is raised, and with which text *)

Lemma getitem_raises (v : pyval) (k : string) (e : pyexn) :
  getitem v k = Raise e ->
  e = KeyError k \/ exists msg, e = TypeError msg.
Proof.
  unfold getitem. destruct v as [| | | | |d];
    try (intros [= <-]; right; eexists; reflexivity).
  destruct (assoc k d); [discriminate|]. intros [= <-]. left. reflexivity.
Qed.

Lemma next_filter_skips (wanted : string) (pre rest : list pyval) :
  Forall (fun c => name_is wanted c = Ret false) pre ->
  next_filter (name_is wanted) (pre ++ rest) = next_filter (name_is wanted) rest.
Proof.
  induction 1 as [|c pre Hc _ IH]; [reflexivity|].
  cbn. rewrite Hc. cbn. exact IH.
Qed.

Lemma next_filter_no_name (wanted : string) (items : list pyval) (names : list string) :
  names_of items = Ret names -> wanted ∉ names ->
  next_filter (name_is wanted) items = Raise StopIteration.
Proof.
  intros Hn Hnot. apply names_of_spec in Hn.
  induction Hn as [|c n items names Hc _ IH]; [reflexivity|].
  apply not_elem_of_cons in Hnot as [Hne Hnot].
  cbn. unfold name_is. rewrite Hc. cbn.
  destruct (String.eqb_spec n wanted) as [->|_]; [congruence|].
  apply IH. exact Hnot.
Qed.

(** X5: when every item of the listing has a [str] name and none of them
    is the name asked for, both look-ups raise a [ValueError] whose text
    gives the name asked for and then every name of the listing, in the
    order of the listing, one per line. *)
Theorem arn_not_found_lists_every_name (items : list pyval) (name : string)
    (names : list string) :
  names_of items = Ret names -> name ∉ names ->
  get_campaign_arn_by_name items name
  = Raise (ValueError (not_found_message "Campaign" name names) [])
  /\ get_filter_arn_by_name items name
     = Raise (ValueError (not_found_message "Filter" name names) []).
Proof.
  intros Hn Hnot.
  unfold get_campaign_arn_by_name, get_filter_arn_by_name, get_arn_by_name.
  rewrite (next_filter_no_name _ _ _ Hn Hnot), Hn. split; reflexivity.
Qed.

Lemma arn_not_found_lists_every_name_witness :
  get_filter_arn_by_name
    [summary "filterArn" "by-genre" "arn:filter/by-genre";
     summary "filterArn" "unwatched" "arn:filter/unwatched"] "watched"
  = Raise (ValueError (not_found_message "Filter" "watched" ["by-genre"; "unwatched"]) []).
Proof.
  refine (proj2 (arn_not_found_lists_every_name
                   [summary "filterArn" "by-genre" "arn:filter/by-genre";
                    summary "filterArn" "unwatched" "arn:filter/unwatched"]
                   "watched" ["by-genre"; "unwatched"] eq_refl _)).
  apply (bool_decide_unpack _). vm_compute. reflexivity.
Defined.

(** X6: an error met before a match is found is not turned into the
    "not found" [ValueError]: when the items in front are named otherwise
    and the next item cannot be subscripted by ["name"], or is the match
    but lacks the ARN field, that [KeyError] (or [TypeError]) is what the
    look-up raises, whatever follows in the listing. *)
Theorem arn_lookup_passes_item_errors_on (what arn_key wanted : string)
    (pre post : list pyval) (c : pyval) (e : pyexn) :
  Forall (fun c' => name_is wanted c' = Ret false) pre ->
  getitem c "name" = Raise e
  \/ (name_is wanted c = Ret true /\ getitem c arn_key = Raise e) ->
  get_arn_by_name what arn_key (pre ++ c :: post) wanted = Raise e
  /\ ~ is_ValueError (get_arn_by_name what arn_key (pre ++ c :: post) wanted).
Proof.
  intros Hpre Hc.
  assert (He : (exists k, e = KeyError k) \/ (exists msg, e = TypeError msg)).
  { destruct Hc as [Hc|[_ Hc]]; apply getitem_raises in Hc as [->|[msg ->]]; eauto. }
  assert (Hr : get_arn_by_name what arn_key (pre ++ c :: post) wanted = Raise e).
  { unfold get_arn_by_name. rewrite next_filter_skips by exact Hpre. cbn [next_filter].
    destruct Hc as [Hc|[Hhit Hc]].
    - unfold name_is. rewrite Hc. cbn.
      destruct He as [[k ->]|[msg ->]]; reflexivity.
    - rewrite Hhit. cbn. exact Hc. }
  split; [exact Hr|]. rewrite Hr. intros (msg & shown & H).
  destruct He as [[k ->]|[m ->]]; discriminate.
Qed.

Lemma arn_lookup_passes_item_errors_on_witness :
  get_arn_by_name "Campaign" "campaignArn"
    [summary "campaignArn" "personalize-movielens-up" "arn:campaign/up";
     PDict [("status", PStr "ACTIVE")];
     summary "campaignArn" "personalize-movielens-sims" "arn:campaign/sims"]
    "personalize-movielens-sims"
  = Raise (KeyError "name").
Proof.
  refine (proj1 (arn_lookup_passes_item_errors_on "Campaign" "campaignArn"
                   "personalize-movielens-sims"
                   [summary "campaignArn" "personalize-movielens-up" "arn:campaign/up"]
                   [summary "campaignArn" "personalize-movielens-sims" "arn:campaign/sims"]
                   (PDict [("status", PStr "ACTIVE")]) (KeyError "name") _ _)).
  - repeat constructor.
  - left. reflexivity.
Defined.

(** ** The single-job predicates on any description *)

Lemma eq_str_true (v : pyval) (s : string) : eq_str v s = true <-> v = PStr s.
Proof.
  destruct v; cbn; try (split; [discriminate|intros [=]]).
  rewrite String.eqb_eq. split; [intros ->; reflexivity|intros [= ->]; reflexivity].
Qed.

Lemma status_tail_any (needle msg : string) (kind : string) (desc status : pyval) :
  status_of kind desc = Ret status ->
  true_only_if_active kind desc
    (if eq_str status "ACTIVE" then Ret (PBool true)
     else let* failed := contains needle status in
          if failed : bool then Raise (ValueError msg [desc]) else Ret PNone).
Proof.
  intros Hs. unfold true_only_if_active. rewrite Hs.
  split; [discriminate|]. split.
  - intros ? [= <-]. destruct status; try exact I; reflexivity.
  - destruct (eq_str status "ACTIVE") eqn:E.
    + apply eq_str_true in E. subst status.
      split; [split; reflexivity|]. intros v [= <-]. left. reflexivity.
    + assert (Hne : status <> PStr "ACTIVE").
      { intros ->. cbn in E. discriminate. }
      split.
      * split; [|intros [= ?]; congruence].
        destruct (contains needle status) as [[|]|e]; discriminate.
      * intros v. destruct (contains needle status) as [[|]|e]; cbn;
          try discriminate. intros [= <-]. right. reflexivity.
Qed.

Lemma status_raise_any (kind : string) (desc : pyval) (e : pyexn)
    (k : pyval -> pyresult pyval) :
  status_of kind desc = Raise e ->
  true_only_if_active kind desc
    (let* x := getitem desc kind in let* status := getitem x "status" in k status).
Proof.
  intros Hs. unfold true_only_if_active. rewrite Hs. unfold status_of in Hs.
  destruct (getitem desc kind) as [x|e0]; cbn [Py.bind] in Hs |- *;
    [rewrite Hs; cbn [Py.bind]|injection Hs as ->].
  all: split; [intros ? [= <-]; reflexivity|].
  all: split; [discriminate|].
  all: split; [split; discriminate|discriminate].
Qed.

(** X7: on any description, each of the three single-job predicates
    raises the error met when the status is read (a missing key), raises
    [TypeError] for a status that is [None], a [bool] or an [int],
    returns [True] exactly for the [str] status ["ACTIVE"], and never
    returns anything but [True] or [None]. *)
Theorem single_job_predicates_on_any_description (desc : pyval) :
  true_only_if_active "datasetGroup" desc (is_dsg_ready desc)
  /\ true_only_if_active "dataset" desc (is_ds_ready desc)
  /\ true_only_if_active "batchInferenceJob" desc (is_batch_job_finished desc).
Proof.
  split; [|split].
  all: match goal with |- true_only_if_active ?kind _ _ =>
         destruct (status_of kind desc) as [status|e] eqn:Hs end.
  all: try (apply status_of_inv in Hs as Hinv; destruct Hinv as (x & Hx & Hst);
            unfold is_dsg_ready, is_ds_ready, is_batch_job_finished;
            rewrite Hx; cbn [Py.bind]; rewrite Hst; cbn [Py.bind];
            apply status_tail_any; exact Hs).
  all: eapply status_raise_any; exact Hs.
Qed.

(** ** The multi-job predicates: a list read while it shrinks *)

Lemma left_behind_le (i n : nat) : (left_behind i n <= n)%nat.
Proof.
  unfold left_behind. destruct (Nat.leb_spec i n) as [H|H]; [|lia].
  assert ((n - i) / 2 <= n - i)%nat by (apply Nat.Div0.div_le_upper_bound; lia).
  lia.
Qed.

Lemma left_behind_step (i n n' : nat) :
  (i < n)%nat -> (n <= Datatypes.S n')%nat -> (n' <= n)%nat ->
  (left_behind i n <= left_behind (Datatypes.S i) n')%nat.
Proof.
  intros Hi Hlo Hhi. unfold left_behind.
  destruct (Nat.leb_spec i n) as [_|?]; [|lia].
  assert (E : (n - i = 2 * ((n - i) / 2) + (n - i) mod 2)%nat)
    by (apply Nat.div_mod_eq).
  assert (Hm : ((n - i) mod 2 < 2)%nat) by (apply Nat.mod_upper_bound; lia).
  destruct (Nat.leb_spec (Datatypes.S i) n') as [Hle|Hgt].
  - assert (E' : (n' - Datatypes.S i
                  = 2 * ((n' - Datatypes.S i) / 2) + (n' - Datatypes.S i) mod 2)%nat)
      by (apply Nat.div_mod_eq).
    assert (Hm' : ((n' - Datatypes.S i) mod 2 < 2)%nat)
      by (apply Nat.mod_upper_bound; lia).
    lia.
  - lia.
Qed.

Lemma left_behind_last (i n : nat) :
  (i < n)%nat -> (Datatypes.S (left_behind i n) <= n)%nat.
Proof.
  intros Hi. unfold left_behind. destruct (Nat.leb_spec i n) as [_|?]; [|lia].
  assert (E : (n - i = 2 * ((n - i) / 2) + (n - i) mod 2)%nat)
    by (apply Nat.div_mod_eq).
  lia.
Qed.

Lemma left_behind_fresh (n : nat) : left_behind 0 n = (n / 2)%nat.
Proof. unfold left_behind. cbn. rewrite Nat.sub_0_r. reflexivity. Qed.

Section JobLoopBounds.

Variable svc : service.
Variables kind arn_key fail_msg : string.
Variable announce : bool.

(** One description seen takes at most one job off the list. *)
Lemma job_seen_at_most_one (desc : pyval) (w : world kernel) :
  let p := job_seen kind arn_key fail_msg announce desc w in
  (length (waiting_arns (env w)) <= Datatypes.S (length (waiting_arns (env p.2))))%nat
  /\ (length (waiting_arns (env p.2)) <= length (waiting_arns (env w)))%nat
  /\ map_iters (env p.2) = map_iters (env w).
Proof.
  unfold job_seen.
  destruct (let* job := getitem desc kind in getitem job "status") as [status|e];
    cbn [fst snd]; [|by_effect].
  destruct (let* job := getitem desc kind in getitem job arn_key) as [arn|e];
    cbn [fst snd]; [|by_effect].
  destruct (eq_str status "ACTIVE").
  - destruct (remove_waiting_effect arn
                (if announce then emit (nl +:+ "Trained ") [arn] w else w))
      as (_ & H2 & _ & _ & _ & H5 & H6 & H7).
    cbv zeta in *.
    destruct (remove_waiting arn _) as [r w'] eqn:E. cbn [fst snd] in *.
    apply sublist_length in H5.
    destruct announce; cbn [emit env] in *;
      (split; [|split; [exact H5|exact H2]]);
      (destruct r as [u|e]; [rewrite (H6 eq_refl)|rewrite (H7 eq_refl)]; lia).
  - destruct (contains "FAILED" status) as [[|]|e]; cbn [fst snd]; by_effect.
Qed.

Lemma for_descriptions_left (fuel h : nat) (w : world kernel)
    (r : pyresult unit) (w' : world kernel) (i : nat) :
  for_descriptions svc kind arn_key fail_msg announce fuel h w = Some (r, w') ->
  map_iters (env w) !! h = Some (Some i) ->
  (left_behind i (length (waiting_arns (env w))) <= length (waiting_arns (env w')))%nat.
Proof.
  revert w i. induction fuel as [|fuel IH]; intros w i H Hh;
    cbn [for_descriptions] in H; [discriminate|].
  pose proof (map_next_effect svc h w) as Hm. cbv zeta in Hm.
  destruct (map_next svc h w) as [[[desc|e]|] w1]; cbn [fst snd] in Hm;
    destruct Hm as (Hw & _ & _ & Hm).
  - destruct Hm as (i' & arn & Hh' & Hi & _ & Hiters).
    rewrite Hh in Hh'. injection Hh' as <-.
    pose proof (job_seen_at_most_one desc w1) as Hj. cbv zeta in Hj.
    destruct (job_seen kind arn_key fail_msg announce desc w1) as [[u|e] w2];
      cbn [fst snd] in Hj; destruct Hj as (Hlo & Hhi & Hsame).
    + apply lookup_lt_Some in Hi. rewrite Hw in Hlo, Hhi.
      etrans; [|apply (IH w2 (Datatypes.S i) H)].
      * apply left_behind_step; assumption.
      * rewrite Hsame, Hiters. apply list_lookup_insert_eq.
        eapply lookup_lt_Some. exact Hh.
    + injection H as <- <-. apply lookup_lt_Some in Hi. rewrite Hw in Hlo.
      pose proof (left_behind_last _ _ Hi). lia.
  - injection H as <- <-. rewrite Hw. apply left_behind_le.
  - injection H as <- <-. rewrite Hw. apply left_behind_le.
Qed.

Lemma new_map_fresh (w : world kernel) :
  map_iters (env (new_map w).2) !! (new_map w).1 = Some (Some 0%nat)
  /\ waiting_arns (env (new_map w).2) = waiting_arns (env w)
  /\ calls (env (new_map w).2) = calls (env w).
Proof.
  cbn. split; [|split; reflexivity].
  apply list_lookup_middle. reflexivity.
Qed.

Lemma are_jobs_finished_leaves_half (w : world kernel) :
  let p := are_jobs_finished svc kind arn_key fail_msg announce
             (new_map w).1 (new_map w).2 in
  (length (waiting_arns (env w)) / 2 <= length (waiting_arns (env p.2)))%nat
  /\ ((2 <= length (waiting_arns (env w)))%nat -> p.1 <> Ret (PBool true)).
Proof.
  destruct (new_map_fresh w) as (Hh & Hw & _).
  set (h := (new_map w).1) in *. set (w1 := (new_map w).2) in *. clearbody h w1.
  cbv zeta. rewrite <- Hw.
  assert (Hlen : (length (waiting_arns (env w1)) / 2
                  <= length (waiting_arns
                               (env (are_jobs_finished svc kind arn_key fail_msg
                                       announce h w1).2)))%nat).
  { unfold are_jobs_finished.
    destruct (for_descriptions svc kind arn_key fail_msg announce
                (Datatypes.S (length (waiting_arns (env w1)))) h w1)
      as [[[u|e] w']|] eqn:Hf.
    - pose proof (for_descriptions_left _ _ _ _ _ _ Hf Hh) as Hl.
      rewrite left_behind_fresh in Hl.
      destruct (Nat.eqb (length (waiting_arns (env w'))) 0); exact Hl.
    - pose proof (for_descriptions_left _ _ _ _ _ _ Hf Hh) as Hl.
      rewrite left_behind_fresh in Hl. exact Hl.
    - cbn [snd]. rewrite <- left_behind_fresh. apply left_behind_le. }
  split; [exact Hlen|].
  intros H2 Htrue.
  destruct (are_jobs_finished_effect svc kind arn_key fail_msg announce h w1)
    as (new & _ & _ & _ & _ & _ & Ht & _).
  cbv zeta in Ht. apply Ht in Htrue as [_ Hnil]. rewrite Hnil in Hlen. cbn [length] in Hlen.
  assert (1 <= length (waiting_arns (env w1)) / 2)%nat; [|lia].
  apply Nat.div_le_lower_bound; lia.
Qed.

Lemma list_remove_middle (a : string) (pre rest : list string) :
  a ∉ pre -> list_remove a (pre ++ a :: rest) = Some (pre ++ rest)%list.
Proof.
  induction pre as [|b pre IH]; intros Hnot; cbn.
  - rewrite String.eqb_refl. reflexivity.
  - apply not_elem_of_cons in Hnot as [Hne Hnot].
    destruct (String.eqb_spec b a) as [->|_]; [congruence|].
    rewrite IH by exact Hnot. reflexivity.
Qed.

Lemma evens_cons {A} (a : A) (l : list A) : evens (a :: l) = a :: odds l.
Proof. destruct l; reflexivity. Qed.

Lemma odds_cons {A} (a : A) (l : list A) : odds (a :: l) = evens l.
Proof. reflexivity. Qed.

Lemma for_descriptions_all_active (fuel h : nat) :
  forall (w : world kernel) (pre rest : list string) r w',
    for_descriptions svc kind arn_key fail_msg announce fuel h w = Some (r, w') ->
    map_iters (env w) !! h = Some (Some (length pre)) ->
    waiting_arns (env w) = (pre ++ rest)%list ->
    NoDup (pre ++ rest) ->
    all_active svc kind arn_key rest ->
    r = Ret tt
    /\ waiting_arns (env w') = (pre ++ odds rest)%list
    /\ (calls (env w')).*1 = ((calls (env w)).*1 ++ evens rest)%list.
Proof.
  induction fuel as [|fuel IH]; intros w pre rest r w' H Hh Hw Hnd Hact;
    cbn [for_descriptions] in H; [discriminate|].
  unfold map_next in H. rewrite Hh, Hw in H.
  destruct rest as [|a rest].
  - rewrite app_nil_r in H. rewrite lookup_ge_None_2 in H by lia.
    injection H as <- <-. cbn. rewrite !app_nil_r in *.
    split; [reflexivity|]. split; [exact Hw|reflexivity].
  - rewrite list_lookup_middle in H by reflexivity.
    unfold describe in H. cbn [env set_env set_map_iters calls now stdout] in H.
    destruct (Hact (length (calls (env w))) a) as (desc & Hresp & Hstatus & Harn);
      [left|].
    rewrite Hresp in H. cbn [fst snd] in H.
    unfold job_seen in H.
    change (let* job := getitem desc kind in getitem job "status")
      with (status_of kind desc) in H.
    change (let* job := getitem desc kind in getitem job arn_key)
      with (arn_of kind arn_key desc) in H.
    rewrite Hstatus, Harn in H. cbn [eq_str] in H.
    rewrite String.eqb_refl in H.
    assert (Hnot : a ∉ pre).
    { apply NoDup_app in Hnd as (_ & Hdis & _). intros Hin.
      apply (Hdis a Hin). left. }
    unfold remove_waiting in H.
    assert (Hrm : forall w0 : world kernel,
               waiting_arns (env w0) = (pre ++ a :: rest)%list ->
               list_remove a (waiting_arns (env w0)) = Some (pre ++ rest)%list).
    { intros w0 ->. apply list_remove_middle. exact Hnot. }
    rewrite Hrm in H by (destruct announce; cbn; exact Hw).
    assert (Hnd' : NoDup (pre ++ rest)).
    { eapply sublist_NoDup; [exact Hnd|].
      apply sublist_app; [reflexivity|]. apply sublist_cons. reflexivity. }
    destruct rest as [|b rest].
    + destruct fuel as [|fuel]; cbn [for_descriptions] in H; [discriminate|].
      unfold map_next in H.
      destruct announce; cbn in H;
        rewrite list_lookup_insert_eq in H by (eapply lookup_lt_Some; exact Hh);
        rewrite app_nil_r in H;
        rewrite lookup_ge_None_2 in H by lia;
        injection H as <- <-; cbn; rewrite fmap_app, app_nil_r; by_effect.
    + destruct (IH _ (pre ++ [b])%list rest r w' H) as (Hr & Hwait & Hcalls).
      * destruct announce; cbn;
          rewrite list_lookup_insert_eq by (eapply lookup_lt_Some; exact Hh);
          rewrite length_app; cbn; do 2 f_equal; lia.
      * destruct announce; cbn; rewrite <- app_assoc; reflexivity.
      * rewrite <- app_assoc. exact Hnd'.
      * intros n arn Hin. apply Hact. right. right. exact Hin.
      * split; [exact Hr|]. rewrite Hwait, Hcalls.
        rewrite odds_cons, !evens_cons, odds_cons, <- app_assoc.
        split; [reflexivity|].
        destruct announce; cbn; rewrite fmap_app, <- app_assoc; reflexivity.
Qed.

Lemma are_jobs_finished_all_active (w : world kernel) :
  NoDup (waiting_arns (env w)) ->
  all_active svc kind arn_key (waiting_arns (env w)) ->
  every_other_described w
    (are_jobs_finished svc kind arn_key fail_msg announce (new_map w).1 (new_map w).2).
Proof.
  intros Hnd Hact.
  destruct (new_map_fresh w) as (Hh & Hw & Hc).
  set (h := (new_map w).1) in *. set (w1 := (new_map w).2) in *. clearbody h w1.
  unfold every_other_described. cbv zeta. rewrite <- Hw, <- Hc.
  unfold are_jobs_finished.
  destruct (for_descriptions_fuel svc kind arn_key fail_msg announce
              (Datatypes.S (length (waiting_arns (env w1)))) h w1) as [[r w'] Hf].
  { unfold remaining. rewrite Hh. lia. }
  rewrite Hf.
  destruct (for_descriptions_all_active _ _ w1 [] (waiting_arns (env w1)) r w' Hf)
    as (-> & Hwait & Hcalls); try assumption; try reflexivity.
  { rewrite Hw. exact Hnd. }
  { rewrite Hw. exact Hact. }
  cbn [app] in Hwait.
  assert (Hodd : Nat.eqb (length (waiting_arns (env w'))) 0
                 = (length (waiting_arns (env w1)) <=? 1)%nat).
  { rewrite Hwait. destruct (waiting_arns (env w1)) as [|a [|b l]]; reflexivity. }
  rewrite Hodd.
  destruct (length (waiting_arns (env w1)) <=? 1)%nat; cbn [fst snd];
    (split; [exact Hwait|split; [exact Hcalls|reflexivity]]).
Qed.

End JobLoopBounds.

(** X8: one evaluation of [are_imports_finished] or
    [are_solutions_finished] on a new [map] object leaves at least half
    (rounded down) of the jobs in [waiting_arns], whatever the service
    answers: the iterator moves on over a list that shrinks under it.
    With two or more jobs waiting, that evaluation does not return
    [True]. *)
Theorem waiting_jobs_at_most_halved (svc : service) (w : world kernel) :
  let n := length (waiting_arns (env w)) in
  let imports := are_imports_finished svc (new_map w).1 (new_map w).2 in
  let solutions := are_solutions_finished svc (new_map w).1 (new_map w).2 in
  (n / 2 <= length (waiting_arns (env imports.2)))%nat
  /\ (n / 2 <= length (waiting_arns (env solutions.2)))%nat
  /\ ((2 <= n)%nat ->
      imports.1 <> Ret (PBool true) /\ solutions.1 <> Ret (PBool true)).
Proof.
  cbv zeta. unfold are_imports_finished, are_solutions_finished.
  destruct (are_jobs_finished_leaves_half svc "datasetImportJob"
              "datasetImportJobArn" "Data import failed!" false w) as [I1 I2].
  destruct (are_jobs_finished_leaves_half svc "solutionVersion"
              "solutionVersionArn" "Build failed!" true w) as [S1 S2].
  cbv zeta in *. split; [exact I1|]. split; [exact S1|].
  intros H. split; [apply I2|apply S2]; exact H.
Qed.

Lemma waiting_jobs_at_most_halved_witness :
  let svc := job_service "solutionVersion" "solutionVersionArn" (fun _ _ => "ACTIVE") in
  let w := set_env (set_waiting_arns ["arn:solution/up"; "arn:solution/sims";
                                      "arn:solution/rerank"] fresh_kernel)
             fresh_world in
  (are_solutions_finished svc (new_map w).1 (new_map w).2).1 <> Ret (PBool true).
Proof.
  cbv zeta.
  refine (proj2 (proj2 (proj2 (waiting_jobs_at_most_halved _ _)) _)).
  vm_compute. lia.
Defined.

(** X9: when the jobs of [waiting_arns] are distinct and the service
    shows every one of them ["ACTIVE"], one evaluation of
    [are_imports_finished] or [are_solutions_finished] on a new [map]
    object describes the jobs at the even positions only (0, 2, 4, ...),
    removes them, and leaves those at the odd positions undescribed in
    [waiting_arns]; it returns [True] when the list had at most one job
    and [None] otherwise. *)
Theorem active_jobs_every_other_described (svc : service) (w : world kernel) :
  NoDup (waiting_arns (env w)) ->
  (all_active svc "datasetImportJob" "datasetImportJobArn" (waiting_arns (env w)) ->
   every_other_described w (are_imports_finished svc (new_map w).1 (new_map w).2))
  /\ (all_active svc "solutionVersion" "solutionVersionArn" (waiting_arns (env w)) ->
      every_other_described w (are_solutions_finished svc (new_map w).1 (new_map w).2)).
Proof.
  intros Hnd. split; intros Hact; apply are_jobs_finished_all_active; assumption.
Qed.

Lemma active_jobs_every_other_described_witness :
  let svc := job_service "datasetImportJob" "datasetImportJobArn"
               (fun _ _ => "ACTIVE") in
  let w := set_env (set_waiting_arns ["arn:import/interactions"; "arn:import/items";
                                      "arn:import/users"] fresh_kernel)
             fresh_world in
  every_other_described w (are_imports_finished svc (new_map w).1 (new_map w).2).
Proof.
  cbv zeta.
  refine (proj1 (active_jobs_every_other_described _ _ _) _).
  - apply (bool_decide_unpack _). vm_compute. reflexivity.
  - intros n arn _. eexists. split; [reflexivity|]. split; reflexivity.
Defined.

(** ** The campaign wait loop: what is printed, what is left, what fails *)

Lemma list_remove_perm (x : string) (l l' : list string) :
  list_remove x l = Some l' -> l ≡ₚ x :: l'.
Proof.
  revert l'. induction l as [|y l IH]; intros l' H; cbn in H; [discriminate|].
  destruct (String.eqb_spec y x) as [->|_].
  - injection H as <-. reflexivity.
  - destruct (list_remove x l) as [l0|]; [|discriminate]. injection H as <-.
    rewrite (IH l0 eq_refl). apply Permutation_swap.
Qed.

Lemma announced_app (a b : list (string * list pyval)) :
  announced (a ++ b) = (announced a ++ announced b)%list.
Proof. apply omap_app. Qed.

Section CampaignAccount.

Variable svc : service.

Lemma for_campaigns_account (fuel idx : nat) (w : world kernel)
    (r : pyresult unit) (w' : world kernel) :
  for_campaigns svc fuel idx w = Some (r, w') ->
  exists more new,
    stdout w' = (stdout w ++ more)%list
    /\ calls (env w') = (calls (env w) ++ new)%list
    /\ (announced more ++ in_progress_campaigns (env w'))%list
       ≡ₚ in_progress_campaigns (env w)
    /\ (left_behind idx (length (in_progress_campaigns (env w)))
        <= length (in_progress_campaigns (env w')))%nat
    /\ (forall e, r = Raise e ->
          exists arn resp,
            last new = Some (arn, resp)
            /\ arn ∈ in_progress_campaigns (env w)
            /\ (let* resp0 := resp in
                let* c := getitem resp0 "campaign" in getitem c "status") = Raise e).
Proof.
  revert idx w. induction fuel as [|fuel IH]; intros idx w H;
    cbn [for_campaigns] in H; [discriminate|].
  destruct (in_progress_campaigns (env w) !! idx) as [arn|] eqn:Ei.
  2:{ injection H as <- <-. exists [], []. rewrite !app_nil_r.
      repeat split; try reflexivity; [apply left_behind_le|discriminate]. }
  assert (Harn : arn ∈ in_progress_campaigns (env w))
    by (eapply list_elem_of_lookup_2; exact Ei).
  apply lookup_lt_Some in Ei.
  unfold describe in H. cbv zeta in H.
  set (resp := respond svc (length (calls (env w))) arn) in *. clearbody resp.
  set (w1 := World (now w + Z.of_nat (latency svc (length (calls (env w)))))
               (stdout w) (set_calls (calls (env w) ++ [(arn, resp)]) (env w))) in *.
  assert (Hstep : forall w2 l,
             stdout w2 = (stdout w ++ l)%list ->
             calls (env w2) = (calls (env w) ++ [(arn, resp)])%list ->
             (announced l ++ in_progress_campaigns (env w2))%list
             ≡ₚ in_progress_campaigns (env w) ->
             (length (in_progress_campaigns (env w))
              <= Datatypes.S (length (in_progress_campaigns (env w2))))%nat ->
             (length (in_progress_campaigns (env w2))
              <= length (in_progress_campaigns (env w)))%nat ->
             for_campaigns svc fuel (Datatypes.S idx) w2 = Some (r, w') ->
             exists more new,
               stdout w' = (stdout w ++ more)%list
               /\ calls (env w') = (calls (env w) ++ new)%list
               /\ (announced more ++ in_progress_campaigns (env w'))%list
                  ≡ₚ in_progress_campaigns (env w)
               /\ (left_behind idx (length (in_progress_campaigns (env w)))
                   <= length (in_progress_campaigns (env w')))%nat
               /\ (forall e, r = Raise e ->
                     exists arn0 resp0,
                       last new = Some (arn0, resp0)
                       /\ arn0 ∈ in_progress_campaigns (env w)
                       /\ (let* resp1 := resp0 in
                           let* c := getitem resp1 "campaign" in getitem c "status")
                          = Raise e)).
  { intros w2 l Hout Hcalls Hperm Hlo Hhi Hrun.
    destruct (IH _ _ Hrun) as (more & new & O & C & P & B & R).
    exists (l ++ more)%list, ((arn, resp) :: new).
    split; [rewrite O, Hout, app_assoc; reflexivity|].
    split; [rewrite C, Hcalls, <- app_assoc; reflexivity|].
    split.
    { rewrite announced_app, <- app_assoc, P. exact Hperm. }
    split.
    { etrans; [|exact B]. apply left_behind_step; assumption. }
    intros e He. destruct (R e He) as (arn0 & resp0 & L & Hin & Hst).
    exists arn0, resp0. split; [|split; [|exact Hst]].
    - change ((arn, resp) :: new) with ([(arn, resp)] ++ new)%list.
      rewrite last_app, L. reflexivity.
    - rewrite <- Hperm. apply elem_of_app. right. exact Hin. }
  destruct (let* resp0 := resp in
            let* c := getitem resp0 "campaign" in getitem c "status")
    as [status|e] eqn:Est.
  2:{ injection H as <- <-. exists [], [(arn, resp)]. rewrite app_nil_r.
      split; [reflexivity|]. split; [reflexivity|]. split; [reflexivity|].
      split; [apply left_behind_le|].
      intros e0 [= <-]. exists arn, resp. repeat split; assumption. }
  destruct (list_remove_elem _ _ Harn) as [l Hl].
  pose proof (list_remove_perm _ _ _ Hl) as Hperm.
  pose proof (list_remove_Some _ _ _ Hl) as (_ & Hlen & _).
  unfold remove_in_progress in H. cbn [emit env w1] in H.
  change (in_progress_campaigns (set_calls (calls (env w) ++ [(arn, resp)]) (env w)))
    with (in_progress_campaigns (env w)) in H.
  rewrite Hl in H.
  destruct (eq_str status "ACTIVE"); [|destruct (eq_str status "CREATE FAILED")].
  - eapply (Hstep _ [("Build succeeded for ", [PStr arn])]); [..|exact H];
      cbn; try reflexivity; [symmetry; exact Hperm|lia|lia].
  - eapply (Hstep _ [("Build failed for ", [PStr arn])]); [..|exact H];
      cbn; try reflexivity; [symmetry; exact Hperm|lia|lia].
  - eapply (Hstep _ []); [..|exact H]; cbn; try reflexivity; try lia.
    rewrite app_nil_r. reflexivity.
Qed.

Lemma while_campaigns_account (fuel : nat) (max_time : Z) (w : world kernel)
    (r : pyresult unit) (w' : world kernel) :
  while_campaigns svc fuel max_time w = Some (r, w') ->
  exists more new,
    stdout w' = (stdout w ++ more)%list
    /\ calls (env w') = (calls (env w) ++ new)%list
    /\ (announced more ++ in_progress_campaigns (env w'))%list
       ≡ₚ in_progress_campaigns (env w)
    /\ now w <= now w'
    /\ (forall e, r = Raise e ->
          exists arn resp,
            last new = Some (arn, resp)
            /\ arn ∈ in_progress_campaigns (env w)
            /\ (let* resp0 := resp in
                let* c := getitem resp0 "campaign" in getitem c "status") = Raise e).
Proof.
  revert w. induction fuel as [|fuel IH]; intros w H;
    cbn [while_campaigns] in H; [discriminate|].
  destruct (now w <? max_time).
  2:{ injection H as <- <-. exists [], []. rewrite !app_nil_r.
      repeat split; first [reflexivity|lia|discriminate]. }
  destruct (for_campaigns svc _ 0 w) as [[[u|e] w1]|] eqn:Ef; [| |discriminate].
  - destruct (for_campaigns_account _ _ _ _ _ Ef) as (more & new & O & C & P & _ & _).
    destruct (for_campaigns_effect _ _ _ _ _ _ Ef) as [_ Hnow].
    destruct (length (in_progress_campaigns (env w1)) <=? 0)%nat.
    + injection H as <- <-. exists more, new.
      repeat split; try assumption. discriminate.
    + destruct (IH _ H) as (more' & new' & O' & C' & P' & N' & R').
      cbn [sleep emit stdout env now] in O', C', P', N', R'.
      exists (more ++ ("At least one campaign build is still in progress", []) :: more')%list,
        (new ++ new')%list.
      split; [rewrite O', O, <- !app_assoc; reflexivity|].
      split; [rewrite C', C, <- app_assoc; reflexivity|].
      split.
      { rewrite announced_app. cbn [announced omap]. fold (announced more').
        rewrite <- app_assoc. cbn. rewrite P'. exact P. }
      split; [lia|].
      intros e He. destruct (R' e He) as (arn & resp & L & Hin & Hst).
      exists arn, resp. split; [rewrite last_app, L; reflexivity|].
      split; [|exact Hst].
      rewrite <- P. apply elem_of_app. right. exact Hin.
  - destruct (for_campaigns_account _ _ _ _ _ Ef) as (more & new & O & C & P & _ & R).
    destruct (for_campaigns_effect _ _ _ _ _ _ Ef) as [_ Hnow].
    injection H as <- <-. exists more, new. repeat split; try assumption.
Qed.

(** With two campaigns or more the first pass over the list cannot empty
    it. *)
Lemma while_campaigns_first_pass (fuel : nat) (max_time : Z) (w : world kernel)
    (w' : world kernel) :
  (2 <= length (in_progress_campaigns (env w)))%nat ->
  now w < max_time ->
  while_campaigns svc fuel max_time w = Some (Ret tt, w') ->
  now w + 60 <= now w'
  /\ ("At least one campaign build is still in progress", []) ∈ stdout w'.
Proof.
  intros H2 Ht H. destruct fuel as [|fuel]; cbn [while_campaigns] in H; [discriminate|].
  destruct (Z.ltb_spec (now w) max_time) as [_|?]; [|lia].
  destruct (for_campaigns svc _ 0 w) as [[[u|e] w1]|] eqn:Ef; [| |discriminate].
  2:{ discriminate. }
  destruct (for_campaigns_account _ _ _ _ _ Ef) as (_ & _ & _ & _ & _ & B & _).
  destruct (for_campaigns_effect _ _ _ _ _ _ Ef) as [_ Hnow].
  rewrite left_behind_fresh in B.
  assert (1 <= length (in_progress_campaigns (env w)) / 2)%nat
    by (apply Nat.div_le_lower_bound; lia).
  destruct (Nat.leb_spec (length (in_progress_campaigns (env w1))) 0) as [?|_]; [lia|].
  destruct (while_campaigns_account _ _ _ _ _ H) as (more & _ & O & _ & _ & N & _).
  cbn [sleep emit stdout env now] in O, N.
  split; [lia|]. rewrite O. apply elem_of_app. left. apply elem_of_app. right. left.
Qed.

End CampaignAccount.

(** X10: with two campaigns or more, the wait loop never ends normally
    at its first pass: when it ends normally, it has printed that a build
    is still in progress and slept a minute at least once, even if every
    campaign was ["ACTIVE"] from the start, because removing a campaign
    makes the [for] loop skip the next one. *)
Theorem two_campaigns_take_a_minute (svc : service) (campaign_arns : list string)
    (fuel : nat) (w w' : world kernel) :
  (2 <= length campaign_arns)%nat ->
  wait_for_campaigns svc campaign_arns fuel w = Some (Ret tt, w') ->
  now w + 60 <= now w'
  /\ ("At least one campaign build is still in progress", []) ∈ stdout w'.
Proof.
  intros H2 Hrun. unfold wait_for_campaigns in Hrun.
  apply (while_campaigns_first_pass svc) in Hrun; [exact Hrun|exact H2|cbn; lia].
Qed.

Lemma two_campaigns_take_a_minute_witness :
  let svc := service_reporting "campaign" (fun _ => "ACTIVE") 0 in
  exists w',
    wait_for_campaigns svc ["arn:campaign/up"; "arn:campaign/sims"] 5 fresh_world
    = Some (Ret tt, w')
    /\ now fresh_world + 60 <= now w'
    /\ ("At least one campaign build is still in progress", []) ∈ stdout w'.
Proof.
  cbv zeta. eexists. split; [vm_compute; reflexivity|].
  apply (two_campaigns_take_a_minute
           (service_reporting "campaign" (fun _ => "ACTIVE") 0)
           ["arn:campaign/up"; "arn:campaign/sims"] 5 fresh_world).
  - cbn. lia.
  - vm_compute. reflexivity.
Defined.

(** X11: however the wait loop ends, the campaigns it announced as
    succeeded or failed, together with those still in
    [in_progress_campaigns], are exactly the campaigns it was given:
    none is announced twice, none is lost, and none is both announced
    and still in the list. *)
Theorem campaigns_announced_or_still_listed (svc : service)
    (campaign_arns : list string) (fuel : nat) (w : world kernel)
    (r : pyresult unit) (w' : world kernel) :
  wait_for_campaigns svc campaign_arns fuel w = Some (r, w') ->
  exists more,
    stdout w' = (stdout w ++ more)%list
    /\ (announced more ++ in_progress_campaigns (env w'))%list ≡ₚ campaign_arns.
Proof.
  intros Hrun. unfold wait_for_campaigns in Hrun.
  destruct (while_campaigns_account svc _ _ _ _ _ Hrun) as (more & _ & O & _ & P & _).
  exists more. split; [exact O|exact P].
Qed.

Lemma campaigns_announced_or_still_listed_witness :
  let svc := Service
               (fun n arn =>
                  Ret (describe_response "campaign"
                         (if String.eqb arn "arn:campaign/sims" then "CREATE FAILED"
                          else if Nat.ltb n 3 then "CREATE IN_PROGRESS" else "ACTIVE")))
               (fun _ => 1%nat) in
  let arns := ["arn:campaign/up"; "arn:campaign/sims"; "arn:campaign/rerank"] in
  exists w' more,
    wait_for_campaigns svc arns 10 fresh_world = Some (Ret tt, w')
    /\ stdout w' = (stdout fresh_world ++ more)%list
    /\ (announced more ++ in_progress_campaigns (env w'))%list ≡ₚ arns.
Proof.
  cbv zeta.
  destruct (campaigns_announced_or_still_listed
              (Service
                 (fun n arn =>
                    Ret (describe_response "campaign"
                           (if String.eqb arn "arn:campaign/sims" then "CREATE FAILED"
                            else if Nat.ltb n 3 then "CREATE IN_PROGRESS" else "ACTIVE")))
                 (fun _ => 1%nat))
              ["arn:campaign/up"; "arn:campaign/sims"; "arn:campaign/rerank"]
              10 fresh_world _ _ ltac:(vm_compute; reflexivity)) as (more & O & P).
  eexists _, more. split; [vm_compute; reflexivity|]. split; [exact O|exact P].
Defined.

(** X12: the wait loop raises only what the last describe call raised,
    or what subscripting its answer by ["campaign"] and ["status"]
    raised; that call was about a campaign of the list, nothing is
    called after it, and [remove] never fails. *)
Theorem campaign_wait_raises_what_describe_raised (svc : service)
    (campaign_arns : list string) (fuel : nat) (w : world kernel)
    (e : pyexn) (w' : world kernel) :
  wait_for_campaigns svc campaign_arns fuel w = Some (Raise e, w') ->
  exists new arn resp,
    calls (env w') = (calls (env w) ++ new)%list
    /\ last new = Some (arn, resp)
    /\ arn ∈ campaign_arns
    /\ (let* resp0 := resp in
        let* c := getitem resp0 "campaign" in getitem c "status") = Raise e.
Proof.
  intros Hrun. unfold wait_for_campaigns in Hrun.
  destruct (while_campaigns_account svc _ _ _ _ _ Hrun) as (_ & new & _ & C & _ & _ & R).
  destruct (R e eq_refl) as (arn & resp & L & Hin & Hst).
  exists new, arn, resp. repeat split; assumption.
Qed.

Lemma campaign_wait_raises_what_describe_raised_witness :
  let svc := service_failing_at 1 "campaign" (fun _ => "CREATE IN_PROGRESS") in
  let arns := ["arn:campaign/up"; "arn:campaign/sims"; "arn:campaign/rerank"] in
  exists w' new,
    wait_for_campaigns svc arns 10 fresh_world
    = Some (Raise (ClientError "ThrottlingException"), w')
    /\ calls (env w') = (calls (env fresh_world) ++ new)%list
    /\ last new = Some ("arn:campaign/sims", Raise (ClientError "ThrottlingException")).
Proof.
  cbv zeta.
  destruct (campaign_wait_raises_what_describe_raised
              (service_failing_at 1 "campaign" (fun _ => "CREATE IN_PROGRESS"))
              ["arn:campaign/up"; "arn:campaign/sims"; "arn:campaign/rerank"]
              10 fresh_world _ _ ltac:(vm_compute; reflexivity))
    as (new & arn & resp & C & L & _ & _).
  eexists _, new. split; [vm_compute; reflexivity|]. split; [exact C|].
  cbn in C. subst new. vm_compute. reflexivity.
Defined.

(** ** Event logging: one request per review *)

Lemma session_of_dom (uuid1_address : N) (user_id : Z) (d : gmap Z string) :
  dom (session_of uuid1_address user_id d).2 = dom d ∪ {[user_id]}.
Proof.
  unfold session_of. destruct (d !! user_id) as [s|] eqn:E; cbn [snd].
  - apply (elem_of_dom_2 (D := gset Z)) in E. apply set_eq. intros x.
    rewrite elem_of_union, elem_of_singleton. split; [auto|].
    intros [H| ->]; assumption.
  - rewrite dom_insert_L. apply (comm_L (∪)).
Qed.

Lemma log_new_review_sent (uuid1_address : N) (tracking_id : string)
    user_id item_id rating rec_id impression (t : tracker) :
  let t' := log_new_review uuid1_address tracking_id
              user_id item_id rating rec_id impression t in
  dom (session_dict t') = dom (session_dict t) ∪ {[user_id]}
  /\ exists c, sent t' = (sent t ++ [c])%list
               /\ sent_for tracking_id c (user_id, item_id, rating, rec_id, impression).
Proof.
  cbv zeta. unfold log_new_review.
  pose proof (session_of_dom uuid1_address user_id (session_dict t)) as Hd.
  destruct (session_of uuid1_address user_id (session_dict t)) as [s d].
  cbn [snd] in Hd. cbn [session_dict sent]. split; [exact Hd|].
  eexists. split; [reflexivity|]. unfold sent_for. cbn [trackingId userId eventList].
  split; [reflexivity|]. split; [reflexivity|]. eexists. split; [reflexivity|].
  destruct impression, rec_id; cbn; repeat split; reflexivity.
Qed.

Lemma log_reviews_sent (uuid1_address : N) (tracking_id : string)
    (gap : Z) (reviews : list review) (t : tracker) :
  let t' := log_reviews uuid1_address tracking_id gap reviews t in
  dom (session_dict t') = dom (session_dict t) ∪ list_to_set (reviewers reviews)
  /\ exists new, sent t' = (sent t ++ new)%list
                 /\ Forall2 (sent_for tracking_id) new reviews.
Proof.
  revert t. induction reviews as [|[[[[u i] rating] rec_id] imp] reviews IH];
    intros t; cbv zeta; cbn [log_reviews].
  - split; [cbn; rewrite union_empty_r_L; reflexivity|]. exists []. rewrite app_nil_r.
    split; [reflexivity|constructor].
  - destruct (log_new_review_sent uuid1_address tracking_id u i rating rec_id imp t)
      as (Hd & c & Hs & Hc).
    cbv zeta in Hd, Hs.
    set (t1 := log_new_review uuid1_address tracking_id u i rating rec_id imp t) in *.
    destruct (IH (Tracker (session_dict t1) (sent t1) (clock t1 + gap)))
      as (Hd' & new & Hs' & Hall).
    cbv zeta in Hd', Hs'. cbn [session_dict sent] in Hd', Hs'.
    split.
    + rewrite Hd', Hd. cbn [reviewers map fst]. rewrite list_to_set_cons.
      rewrite (assoc_L (∪)). reflexivity.
    + exists (c :: new). split; [rewrite Hs', Hs, <- app_assoc; reflexivity|].
      constructor; assumption.
Qed.

(** X13: after any sequence of [log_new_review] calls on the fresh
    [session_dict], the requests sent are one per review, in the order
    of the reviews; each carries the tracking id, [str(user_id)] as the
    user, and one event of type ["review"] with the rating, [str(item_id)]
    and, only when they were given, the impression and the recommendation
    id; and the keys of [session_dict] are exactly the users reviewed. *)
Theorem put_events_one_per_review (uuid1_address : N) (tracking_id : string)
    (gap t0 : Z) (reviews : list review) :
  let t := log_reviews uuid1_address tracking_id gap reviews (fresh_tracker t0) in
  dom (session_dict t) = list_to_set (reviewers reviews)
  /\ Forall2 (sent_for tracking_id) (sent t) reviews.
Proof.
  cbv zeta.
  destruct (log_reviews_sent uuid1_address tracking_id gap reviews (fresh_tracker t0))
    as (Hd & new & Hs & Hall).
  cbv zeta in Hd, Hs. cbn [fresh_tracker session_dict sent] in Hd, Hs.
  split.
  - rewrite Hd, dom_empty_L, union_empty_l_L. reflexivity.
  - rewrite Hs. exact Hall.
Qed.

Lemma to_int_not_nil (z : Z) :
  Z.to_int z <> Decimal.Pos Decimal.Nil /\ Z.to_int z <> Decimal.Neg Decimal.Nil.
Proof.
  destruct z as [|p|p]; cbn; split; try discriminate;
    intros [= H]; exact (DecimalPos.Unsigned.to_uint_nonnil p H).
Qed.

(** [str] sends different integers to different strings. *)
Lemma str_of_Z_inj (a b : Z) : str_of_Z a = str_of_Z b -> a = b.
Proof.
  unfold str_of_Z. intros H.
  apply (f_equal DecimalString.NilZero.int_of_string) in H.
  destruct (to_int_not_nil a) as [A1 A2]. destruct (to_int_not_nil b) as [B1 B2].
  rewrite !DecimalString.NilZero.isi in H by assumption.
  injection H as H. apply DecimalZ.to_int_inj. exact H.
Qed.

(** X14: of the requests sent for any sequence of reviews logged on the
    fresh [session_dict], two carry the same [userId] exactly when the
    two reviews are by the same user, and yet all of them carry one
    [sessionId]: the session id does not tell users apart. *)
Theorem users_differ_where_sessions_do_not (uuid1_address : N) (tracking_id : string)
    (gap t0 : Z) (reviews : list review) (i j : nat)
    (rv rv' : review) (c c' : put_events_call) :
  let t := log_reviews uuid1_address tracking_id gap reviews (fresh_tracker t0) in
  reviews !! i = Some rv -> reviews !! j = Some rv' ->
  sent t !! i = Some c -> sent t !! j = Some c' ->
  (userId c = userId c' <-> rv.1.1.1.1 = rv'.1.1.1.1)
  /\ sessionId c = sessionId c'.
Proof.
  cbv zeta. intros Hi Hj Hc Hc'.
  destruct (log_reviews_sent uuid1_address tracking_id gap reviews (fresh_tracker t0))
    as (_ & new & Hs & Hall).
  cbv zeta in Hs. cbn [fresh_tracker sent app] in Hs. rewrite Hs in Hc, Hc'.
  pose proof (Forall2_lookup_lr _ _ _ _ _ _ Hall Hc Hi) as Hrv.
  pose proof (Forall2_lookup_lr _ _ _ _ _ _ Hall Hc' Hj) as Hrv'.
  destruct rv as [[[[u it] ra] re] im], rv' as [[[[u' it'] ra'] re'] im'].
  destruct Hrv as (_ & Hu & _), Hrv' as (_ & Hu' & _). cbn [fst].
  split.
  - rewrite Hu, Hu'. split; [apply str_of_Z_inj|intros ->; reflexivity].
  - assert (Hfresh : one_session_id uuid1_address (fresh_tracker t0)).
    { split; [|constructor]. intros x s H. cbn in H. rewrite lookup_empty in H.
      discriminate. }
    destruct (log_reviews_one uuid1_address tracking_id gap reviews
                (fresh_tracker t0) Hfresh) as ([_ Hsid] & _).
    rewrite Hs in Hsid. rewrite Forall_lookup in Hsid.
    rewrite (Hsid _ _ Hc), (Hsid _ _ Hc'). reflexivity.
Qed.

Lemma users_differ_where_sessions_do_not_witness :
  let t := log_reviews 0x7f3a5c0d1e50 "tracking-id" 1
             [(400, 1193, PInt 5, None, None); (401, 260, PInt 4, None, None)]
             (fresh_tracker 0) in
  exists c c',
    sent t = [c; c']
    /\ userId c <> userId c'
    /\ sessionId c = sessionId c'.
Proof.
  cbv zeta. eexists _, _. split; [reflexivity|].
  destruct (users_differ_where_sessions_do_not 0x7f3a5c0d1e50 "tracking-id" 1 0
              [(400, 1193, PInt 5, None, None); (401, 260, PInt 4, None, None)]
              0 1 _ _ _ _ eq_refl eq_refl eq_refl eq_refl) as [Hu Hs].
  split; [|exact Hs]. intros H. apply Hu in H. cbn in H. lia.
Defined.

(** ** The clean-up cells *)

Lemma calls_of_app (op : string) (a b : list step) :
  calls_of op (a ++ b) = (calls_of op a ++ calls_of op b)%list.
Proof. apply omap_app. Qed.

Lemma naps_of_app (a b : list step) :
  naps_of (a ++ b) = (naps_of a ++ naps_of b)%list.
Proof. apply omap_app. Qed.

Lemma succeeded_app (op : string) (a b : list step) :
  succeeded op (a ++ b) <-> succeeded op a \/ succeeded op b.
Proof.
  unfold succeeded. split.
  - intros (kw & v & Hin). apply elem_of_app in Hin as [Hin|Hin]; eauto.
  - intros [(kw & v & Hin)|(kw & v & Hin)]; exists kw, v; apply elem_of_app; auto.
Qed.

Lemma succeeded_nil (op : string) : ~ succeeded op [].
Proof. intros (kw & v & Hin). inversion Hin. Qed.

Section Schemas.

Variable svc : api.
Hypothesis Hexpected : schema_errors_expected svc.

Lemma delete_schema_or_warn_spec (any_schemas_deleted : bool) (schema_arn : pyval)
    (t : list step) :
  exists new b,
    delete_schema_or_warn svc any_schemas_deleted schema_arn t = (Ret b, (t ++ new)%list)
    /\ calls_of "delete_schema" new = [[("schemaArn", schema_arn)]]
    /\ Forall (fun ms => ms = 200) (naps_of new)
    /\ ((b = true /\ succeeded "delete_schema" new)
        \/ (b = any_schemas_deleted /\ ~ succeeded "delete_schema" new)).
Proof.
  unfold delete_schema_or_warn, cell_bind, say, call, nap, cell_ret.
  set (t1 := (t ++ [Printed "DELETING SCHEMA " [schema_arn]])%list).
  destruct (svc (length t1) "delete_schema" [("schemaArn", schema_arn)])
    as [v|e] eqn:Ecall.
  - eexists _, true. subst t1. rewrite <- !app_assoc. cbn [app].
    split; [reflexivity|]. split; [reflexivity|]. split; [repeat constructor|].
    left. split; [reflexivity|]. eexists _, v. right. left.
  - destruct (Hexpected _ _ _ Ecall) as [-> | ->]; cbn.
    + eexists _, any_schemas_deleted. subst t1. rewrite <- !app_assoc. cbn [app].
      split; [reflexivity|]. split; [reflexivity|]. split; [constructor|].
      right. split; [reflexivity|]. intros (kw & v & Hin).
      repeat (apply elem_of_cons in Hin as [Hin|Hin]; [discriminate|]).
      inversion Hin.
    + eexists _, any_schemas_deleted. subst t1. rewrite <- !app_assoc. cbn [app].
      split; [reflexivity|]. split; [reflexivity|]. split; [constructor|].
      right. split; [reflexivity|]. intros (kw & v & Hin).
      repeat (apply elem_of_cons in Hin as [Hin|Hin]; [discriminate|]).
      inversion Hin.
Qed.

Lemma delete_schemas_loop (schema_arns : list pyval) :
  forall (any_schemas_deleted : bool) (t : list step),
  exists new b,
    for_each (delete_schema_or_warn svc) any_schemas_deleted schema_arns t
    = (Ret b, (t ++ new)%list)
    /\ calls_of "delete_schema" new = map (fun a => [("schemaArn", a)]) schema_arns
    /\ Forall (fun ms => ms = 200) (naps_of new)
    /\ (b = true <-> any_schemas_deleted = true \/ succeeded "delete_schema" new).
Proof.
  induction schema_arns as [|a rest IH]; intros any t; cbn [for_each].
  - exists [], any. rewrite app_nil_r. split; [reflexivity|]. split; [reflexivity|].
    split; [constructor|]. split; [auto|]. intros [H|H]; [exact H|].
    destruct (succeeded_nil _ H).
  - unfold cell_bind at 1.
    destruct (delete_schema_or_warn_spec any a t) as (new1 & b1 & -> & C1 & N1 & S1).
    destruct (IH b1 (t ++ new1)%list) as (new2 & b2 & -> & C2 & N2 & S2).
    exists (new1 ++ new2)%list, b2. rewrite app_assoc.
    split; [reflexivity|].
    split; [rewrite calls_of_app, C1, C2; reflexivity|].
    split; [rewrite naps_of_app; apply Forall_app; split; assumption|].
    rewrite S2, succeeded_app.
    destruct S1 as [[-> Hs]|[-> Hn]]; tauto.
Qed.

End Schemas.

(** X15: when [delete_schema] fails only with the two errors the cell
    expects, the schema cell ends normally: it has tried to delete every
    schema of [schema_arns] once, in order, going on after a failure,
    and it waits the 60 seconds exactly when at least one deletion
    succeeded. *)
Theorem schema_cell_tries_every_schema (svc : api) (schema_arns : list pyval)
    (t : list step) :
  schema_errors_expected svc ->
  exists new,
    delete_schemas svc schema_arns t = (Ret tt, (t ++ new)%list)
    /\ calls_of "delete_schema" new = map (fun a => [("schemaArn", a)]) schema_arns
    /\ (60000 ∈ naps_of new <-> succeeded "delete_schema" new).
Proof.
  intros Hexp. unfold delete_schemas. unfold cell_bind at 1.
  destruct (delete_schemas_loop svc Hexp schema_arns false t)
    as (new & b & -> & C & N & S).
  assert (Hno : 60000 ∉ naps_of new).
  { intros Hin. rewrite Forall_forall in N. specialize (N _ Hin). discriminate. }
  destruct b.
  - exists (new ++ [Printed "WAITING 60s for schema deletions to propagate" [];
                    Slept 60000; Printed "Done!" []])%list.
    split; [unfold cell_bind, say, nap, cell_ret; rewrite <- !app_assoc; reflexivity|].
    split; [rewrite calls_of_app, C; cbn; rewrite app_nil_r; reflexivity|].
    rewrite naps_of_app, succeeded_app. cbn. split.
    + intros _. left. destruct (proj1 S eq_refl) as [?|?]; [discriminate|assumption].
    + intros _. apply elem_of_app. right. left.
  - exists (new ++ [Printed "Done!" []])%list.
    split; [unfold cell_bind, say, nap, cell_ret; rewrite <- !app_assoc; reflexivity|].
    split; [rewrite calls_of_app, C; cbn; rewrite app_nil_r; reflexivity|].
    rewrite naps_of_app, succeeded_app. cbn. rewrite app_nil_r. split.
    + intros Hin. contradiction.
    + intros [Hs|Hs].
      * assert (false = true) by (apply S; right; exact Hs). discriminate.
      * destruct Hs as (kw & v & Hin).
        repeat (apply elem_of_cons in Hin as [Hin|Hin]; [discriminate|]).
        inversion Hin.
Qed.

Lemma schema_cell_tries_every_schema_witness :
  let svc : api :=
    fun _ _ kwargs =>
      match kwargs with
      | [(_, PStr a)] =>
          if String.eqb a "arn:schema/shared"
          then Raise (ClientError "ResourceInUseException") else Ret (PDict [])
      | _ => Ret (PDict [])
      end in
  exists new,
    delete_schemas svc [PStr "arn:schema/shared"; PStr "arn:schema/interactions"] []
    = (Ret tt, new)
    /\ calls_of "delete_schema" new
       = [[("schemaArn", PStr "arn:schema/shared")];
          [("schemaArn", PStr "arn:schema/interactions")]]
    /\ 60000 ∈ naps_of new.
Proof.
  cbv zeta.
  destruct (schema_cell_tries_every_schema
              (fun _ _ kwargs =>
                 match kwargs with
                 | [(_, PStr a)] =>
                     if String.eqb a "arn:schema/shared"
                     then Raise (ClientError "ResourceInUseException") else Ret (PDict [])
                 | _ => Ret (PDict [])
                 end)
              [PStr "arn:schema/shared"; PStr "arn:schema/interactions"] [])
    as (new & Hrun & Hcalls & Hwait).
  - intros n kwargs e H.
    destruct kwargs as [|[k [| | |a| |]] [|]]; try discriminate.
    destruct (String.eqb a "arn:schema/shared"); [|discriminate].
    injection H as <-. right. reflexivity.
  - exists new. split; [exact Hrun|]. split; [exact Hcalls|].
    cbn in Hrun. injection Hrun as <-. apply (bool_decide_unpack _). vm_compute.
    reflexivity.
Defined.

Section Listed.

Variable svc : api.
Variables list_op list_key arn_key delete_op announce : string.

Local Abbreviation delete_one :=
  (fun (_ : unit) (x : pyval) =>
     do* arn := lift (getitem x arn_key) in
     say announce [arn] ;;*
     (do* _ := call svc delete_op [(arn_key, arn)] in nap 200)).

Lemma delete_each_spec (xs : list pyval) :
  forall (t : list step) r t',
    for_each delete_one tt xs t = (r, t') ->
    exists new,
      t' = (t ++ new)%list
      /\ Forall (fun ms => ms = 200) (naps_of new)
      /\ (r = Ret tt -> Forall2 (deletion_of arn_key) (calls_of delete_op new) xs).
Proof.
  induction xs as [|x xs IH]; intros t r t' H; cbn [for_each] in H.
  - injection H as <- <-. exists []. rewrite app_nil_r. split; [reflexivity|].
    split; constructor.
  - unfold cell_bind, lift, say, call, nap in H.
    destruct (getitem x arn_key) as [arn|e] eqn:Earn.
    2:{ injection H as <- <-. exists []. rewrite app_nil_r. split; [reflexivity|].
        split; [constructor|discriminate]. }
    cbn [fst snd] in H.
    destruct (svc (length (t ++ [Printed announce [arn]])) delete_op [(arn_key, arn)])
      as [v|e] eqn:Ecall.
    + destruct (IH _ _ _ H) as (new & -> & N & C).
      exists ([Printed announce [arn]; Called delete_op [(arn_key, arn)] (Ret v);
               Slept 200] ++ new)%list.
      split; [rewrite <- !app_assoc; reflexivity|].
      split; [rewrite naps_of_app; apply Forall_app; split;
              [repeat constructor|exact N]|].
      intros Hr. rewrite calls_of_app. cbn. rewrite String.eqb_refl. cbn.
      constructor; [exists arn; split; [exact Earn|reflexivity]|exact (C Hr)].
    + injection H as <- <-.
      exists [Printed announce [arn]; Called delete_op [(arn_key, arn)] (Raise e)].
      rewrite <- !app_assoc. split; [reflexivity|]. split; [constructor|discriminate].
Qed.

Lemma delete_listed_spec (dataset_group_arn : pyval) (t : list step) r t' :
  list_op <> delete_op ->
  delete_listed svc list_op list_key arn_key delete_op announce dataset_group_arn t
  = (r, t') ->
  exists new,
    t' = (t ++ new)%list
    /\ Forall (fun ms => ms = 200) (naps_of new)
    /\ (forall xs, r = Ret xs -> Forall2 (deletion_of arn_key) (calls_of delete_op new) xs).
Proof.
  intros Hne H. unfold delete_listed in H.
  unfold cell_bind at 1 in H. unfold call at 1 in H.
  set (kw := [("datasetGroupArn", dataset_group_arn); ("maxResults", PInt 100)]) in *.
  assert (Hlist : forall a, calls_of delete_op [Called list_op kw a] = []).
  { intros a. cbn. apply String.eqb_neq in Hne. rewrite Hne. reflexivity. }
  destruct (svc (length t) list_op kw) as [resp|e].
  2:{ injection H as <- <-. eexists. split; [reflexivity|].
      split; [constructor|discriminate]. }
  unfold cell_bind at 1 in H. unfold lift at 1 in H.
  destruct (getitem resp list_key) as [listing|e].
  2:{ injection H as <- <-. eexists. split; [reflexivity|].
      split; [constructor|discriminate]. }
  unfold cell_bind at 1 in H. unfold lift at 1 in H.
  destruct (items_of listing) as [xs|e].
  2:{ injection H as <- <-. eexists. split; [reflexivity|].
      split; [constructor|discriminate]. }
  unfold cell_bind at 1 in H.
  destruct (for_each _ tt xs _) as [[[]|e] t1] eqn:Eloop.
  - apply delete_each_spec in Eloop as (new & -> & N & C).
    unfold cell_ret in H. injection H as <- <-.
    exists (Called list_op kw (Ret resp) :: new). rewrite <- app_assoc.
    split; [reflexivity|]. split; [exact N|].
    intros ? [= <-].
    change (Called list_op kw (Ret resp) :: new)
      with ([Called list_op kw (Ret resp)] ++ new)%list.
    rewrite calls_of_app, Hlist. exact (C eq_refl).
  - apply delete_each_spec in Eloop as (new & -> & N & _).
    injection H as <- <-.
    exists (Called list_op kw (Ret resp) :: new). rewrite <- app_assoc.
    split; [reflexivity|]. split; [exact N|discriminate].
Qed.

End Listed.

(** X16: when the filter cell ends normally it has asked for the
    deletion of every filter listed, in order, and it has waited the 30
    seconds exactly when [trackers], the list left by the tracker cell,
    is not empty; whether any filter was deleted plays no part. *)
Theorem filter_cell_waits_by_trackers (svc : api) (dataset_group_arn : pyval)
    (trackers filters : list pyval) (t t' : list step) :
  delete_filters svc dataset_group_arn trackers t = (Ret filters, t') ->
  exists new,
    t' = (t ++ new)%list
    /\ Forall2 (deletion_of "filterArn") (calls_of "delete_filter" new) filters
    /\ (30000 ∈ naps_of new <-> trackers <> []).
Proof.
  intros H. unfold delete_filters in H. unfold cell_bind at 1 in H.
  destruct (delete_listed svc _ _ _ _ _ dataset_group_arn t) as [[xs|e] t1] eqn:El;
    [|discriminate].
  apply delete_listed_spec in El as (new & -> & N & C); [|discriminate].
  assert (Hno : 30000 ∉ naps_of new).
  { intros Hin. rewrite Forall_forall in N. specialize (N _ Hin). discriminate. }
  unfold cell_bind, say, nap, cell_ret in H.
  destruct trackers as [|x trackers]; cbn [length Nat.eqb negb] in H;
    injection H as <- <-; rewrite <- !app_assoc; eexists;
    (split; [reflexivity|]);
    (split; [rewrite calls_of_app; cbn; rewrite app_nil_r; exact (C _ eq_refl)|]);
    rewrite naps_of_app, elem_of_app; cbn.
  - split; [intros [?|Hin]; [contradiction|inversion Hin]|congruence].
  - split; [discriminate|]. intros _. right. left.
Qed.

Lemma filter_cell_waits_by_trackers_witness :
  let svc : api :=
    fun _ op _ =>
      if String.eqb op "list_filters"
      then Ret (PDict [("Filters", PList [summary "filterArn" "by-genre"
                                           "arn:filter/by-genre"])])
      else Ret (PDict []) in
  exists new,
    delete_filters svc (PStr "arn:dataset-group/poc") [] [] = 
      (Ret [summary "filterArn" "by-genre" "arn:filter/by-genre"], new)
    /\ calls_of "delete_filter" new = [[("filterArn", PStr "arn:filter/by-genre")]]
    /\ 30000 ∉ naps_of new.
Proof.
  cbv zeta.
  destruct (filter_cell_waits_by_trackers
              (fun _ op _ =>
                 if String.eqb op "list_filters"
                 then Ret (PDict [("Filters", PList [summary "filterArn" "by-genre"
                                                      "arn:filter/by-genre"])])
                 else Ret (PDict []))
              (PStr "arn:dataset-group/poc") [] _ [] _ eq_refl)
    as (new & Hrun & _ & Hwait).
  cbn [app] in Hrun. subst new.
  eexists. split; [reflexivity|]. split; [reflexivity|].
  intros Hin. apply Hwait in Hin. congruence.
Defined.

Section ListedThenWait.

Variable svc : api.
Variables list_op list_key arn_key delete_op announce text : string.
Variable ms : Z.
Hypothesis Hops : list_op <> delete_op.
Hypothesis Hms : ms <> 200.

(** The shape shared by the tracker and the solution cell. *)
Lemma listed_then_wait (dataset_group_arn : pyval) (t : list step) r t' :
  (do* xs := delete_listed svc list_op list_key arn_key delete_op announce
               dataset_group_arn in
   (if negb (Nat.eqb (length xs) 0)
    then say text [] ;;* nap ms else cell_ret tt) ;;*
   say "Done!" [] ;;*
   cell_ret xs) t = (r, t') ->
  exists new,
    t' = (t ++ new)%list
    /\ match r with
       | Ret xs =>
           Forall2 (deletion_of arn_key) (calls_of delete_op new) xs
           /\ (ms ∈ naps_of new <-> xs <> [])
       | Raise _ => ms ∉ naps_of new
       end.
Proof.
  intros H. unfold cell_bind at 1 in H.
  destruct (delete_listed svc _ _ _ _ _ dataset_group_arn t) as [[xs|e] t1] eqn:El;
    apply delete_listed_spec in El as (new & -> & N & C); try exact Hops.
  all: assert (Hno : ms ∉ naps_of new)
    by (intros Hin; rewrite Forall_forall in N; specialize (N _ Hin); congruence).
  2:{ injection H as <- <-. exists new. split; [reflexivity|exact Hno]. }
  unfold cell_bind, say, nap, cell_ret in H.
  destruct xs as [|x xs]; cbn [length Nat.eqb negb fst snd] in H;
    injection H as <- <-; rewrite <- !app_assoc; eexists;
    (split; [reflexivity|]);
    (split; [rewrite calls_of_app; cbn; rewrite app_nil_r; exact (C _ eq_refl)|]);
    rewrite naps_of_app, elem_of_app; cbn.
  - split; [intros [?|Hin]; [contradiction|inversion Hin]|congruence].
  - split; [discriminate|]. intros _. right. left.
Qed.

End ListedThenWait.

(** X17: the tracker cell and the solution cell only add to the log;
    when one ends normally it has asked for the deletion of every item
    listed, in order, and has waited (30 s, 120 s) exactly when the
    listing was not empty; when it fails it has not waited. *)
Theorem tracker_and_solution_cells_wait_if_any_listed (svc : api)
    (dataset_group_arn : pyval) (t : list step) :
  (exists new,
      (delete_trackers svc dataset_group_arn t).2 = (t ++ new)%list
      /\ match (delete_trackers svc dataset_group_arn t).1 with
         | Ret trackers =>
             Forall2 (deletion_of "eventTrackerArn")
               (calls_of "delete_event_tracker" new) trackers
             /\ (30000 ∈ naps_of new <-> trackers <> [])
         | Raise _ => 30000 ∉ naps_of new
         end)
  /\ (exists new,
         (delete_solutions svc dataset_group_arn t).2 = (t ++ new)%list
         /\ match (delete_solutions svc dataset_group_arn t).1 with
            | Ret solutions =>
                Forall2 (deletion_of "solutionArn")
                  (calls_of "delete_solution" new) solutions
                /\ (120000 ∈ naps_of new <-> solutions <> [])
            | Raise _ => 120000 ∉ naps_of new
            end).
Proof.
  split.
  - destruct (delete_trackers svc dataset_group_arn t) as [r t'] eqn:E.
    apply (listed_then_wait svc "list_event_trackers" "eventTrackers" "eventTrackerArn"
             "delete_event_tracker" "DELETING EVENT TRACKER "
             "WAITING 30s for tracker deletions to propagate" 30000) in E;
      [exact E|discriminate|discriminate].
  - destruct (delete_solutions svc dataset_group_arn t) as [r t'] eqn:E.
    apply (listed_then_wait svc "list_solutions" "solutions" "solutionArn"
             "delete_solution" "DELETING SOLUTION "
             "WAITING 120s for solution deletions to propagate" 120000) in E;
      [exact E|discriminate|discriminate].
Qed.

Section CampaignCell.

Variable svc : api.

Local Abbreviation delete_campaign_of :=
  (fun (_ : bool) (campaign : pyval) =>
     do* campaign_arn := lift (getitem campaign "campaignArn") in
     say "DELETING CAMPAIGN " [campaign_arn] ;;*
     (do* _ := call svc "delete_campaign" [("campaignArn", campaign_arn)] in
      nap 200 ;;* cell_ret true)).

Local Abbreviation delete_campaigns_of :=
  (fun (any : bool) (solution : pyval) =>
     do* solution_arn := lift (getitem solution "solutionArn") in
     do* resp := call svc "list_campaigns" [("solutionArn", solution_arn)] in
     do* listing := lift (getitem resp "campaigns") in
     do* campaigns := lift (items_of listing) in
     for_each delete_campaign_of any campaigns).

Lemma delete_campaign_each (campaigns : list pyval) :
  forall (any : bool) (t : list step) r t',
    for_each delete_campaign_of any campaigns t = (r, t') ->
    exists new,
      t' = (t ++ new)%list
      /\ Forall (fun ms => ms = 200) (naps_of new)
      /\ (forall b, r = Ret b ->
            Forall2 (deletion_of "campaignArn") (calls_of "delete_campaign" new) campaigns
            /\ b = any || negb (Nat.eqb (length campaigns) 0)).
Proof.
  induction campaigns as [|x xs IH]; intros any t r t' H; cbn [for_each] in H.
  - injection H as <- <-. exists []. rewrite app_nil_r. split; [reflexivity|].
    split; [constructor|]. intros b [= <-]. split; [constructor|].
    cbn. rewrite orb_false_r. reflexivity.
  - unfold cell_bind, lift, say, call, nap, cell_ret in H.
    destruct (getitem x "campaignArn") as [arn|e] eqn:Earn.
    2:{ injection H as <- <-. exists []. rewrite app_nil_r. split; [reflexivity|].
        split; [constructor|discriminate]. }
    cbn [fst snd] in H.
    destruct (svc (length (t ++ [Printed "DELETING CAMPAIGN " [arn]]))
                "delete_campaign" [("campaignArn", arn)]) as [v|e] eqn:Ecall.
    + destruct (IH _ _ _ _ H) as (new & -> & N & C).
      exists ([Printed "DELETING CAMPAIGN " [arn];
               Called "delete_campaign" [("campaignArn", arn)] (Ret v);
               Slept 200] ++ new)%list.
      split; [rewrite <- !app_assoc; reflexivity|].
      split; [rewrite naps_of_app; apply Forall_app; split;
              [repeat constructor|exact N]|].
      intros b Hr. destruct (C b Hr) as [C1 C2]. rewrite calls_of_app. cbn. split.
      * constructor; [exists arn; split; [exact Earn|reflexivity]|exact C1].
      * rewrite C2. rewrite orb_true_r. reflexivity.
    + injection H as <- <-.
      exists [Printed "DELETING CAMPAIGN " [arn];
              Called "delete_campaign" [("campaignArn", arn)] (Raise e)].
      rewrite <- !app_assoc. split; [reflexivity|]. split; [constructor|discriminate].
Qed.

Lemma delete_campaigns_each (solutions : list pyval) :
  forall (any : bool) (t : list step) r t',
    for_each delete_campaigns_of any solutions t = (r, t') ->
    exists new,
      t' = (t ++ new)%list
      /\ Forall (fun ms => ms = 200) (naps_of new)
      /\ (forall b, r = Ret b ->
            (b = true <-> any = true \/ calls_of "delete_campaign" new <> [])).
Proof.
  induction solutions as [|x xs IH]; intros any t r t' H; cbn [for_each] in H.
  - injection H as <- <-. exists []. rewrite app_nil_r. split; [reflexivity|].
    split; [constructor|]. intros b [= <-]. cbn. tauto.
  - unfold cell_bind at 1 in H.
    destruct (delete_campaigns_of any x t) as [r1 t1] eqn:E1.
    assert (Hone : exists new,
               t1 = (t ++ new)%list
               /\ Forall (fun ms => ms = 200) (naps_of new)
               /\ (forall b, r1 = Ret b ->
                     (b = true <-> any = true \/ calls_of "delete_campaign" new <> []))).
    { clear H IH. unfold cell_bind at 1 in E1. unfold lift at 1 in E1.
      destruct (getitem x "solutionArn") as [arn|e].
      2:{ injection E1 as <- <-. exists []. rewrite app_nil_r.
          split; [reflexivity|]. split; [constructor|discriminate]. }
      unfold cell_bind at 1 in E1. unfold call at 1 in E1.
      set (listed := Called "list_campaigns" [("solutionArn", arn)]) in *.
      destruct (svc (length t) "list_campaigns" [("solutionArn", arn)]) as [resp|e].
      2:{ injection E1 as <- <-. eexists. split; [reflexivity|].
          split; [constructor|discriminate]. }
      unfold cell_bind at 1 in E1. unfold lift at 1 in E1.
      destruct (getitem resp "campaigns") as [listing|e].
      2:{ injection E1 as <- <-. eexists. split; [reflexivity|].
          split; [constructor|discriminate]. }
      unfold cell_bind at 1 in E1. unfold lift at 1 in E1.
      destruct (items_of listing) as [campaigns|e].
      2:{ injection E1 as <- <-. eexists. split; [reflexivity|].
          split; [constructor|discriminate]. }
      apply delete_campaign_each in E1 as (new & -> & N & C).
      exists (listed (Ret resp) :: new). rewrite <- app_assoc.
      split; [reflexivity|]. split; [exact N|].
      intros b Hr. destruct (C b Hr) as [C1 ->].
      apply Forall2_length in C1.
      change (calls_of "delete_campaign" (listed (Ret resp) :: new))
        with (calls_of "delete_campaign" new).
      destruct campaigns as [|c cs]; destruct (calls_of "delete_campaign" new);
        try discriminate; cbn; destruct any; cbn; intuition congruence. }
    destruct Hone as (new1 & -> & N1 & C1).
    destruct r1 as [b1|e].
    + destruct (IH _ _ _ _ H) as (new2 & -> & N2 & C2).
      exists (new1 ++ new2)%list. rewrite app_assoc. split; [reflexivity|].
      split; [rewrite naps_of_app; apply Forall_app; split; assumption|].
      intros b Hr. rewrite (C2 b Hr), (C1 b1 eq_refl), calls_of_app.
      destruct (calls_of "delete_campaign" new1), (calls_of "delete_campaign" new2);
        cbn; intuition congruence.
    + injection H as <- <-. exists new1. split; [reflexivity|].
      split; [exact N1|discriminate].
Qed.

End CampaignCell.

(** X18: the campaign cell only adds to the log; when it ends normally
    it has waited the four minutes exactly when it asked for the deletion
    of at least one campaign, and when it fails it has not waited. *)
Theorem campaign_cell_waits_if_any_deleted (svc : api) (dataset_group_arn : pyval)
    (t : list step) :
  exists new,
    (delete_campaigns svc dataset_group_arn t).2 = (t ++ new)%list
    /\ match (delete_campaigns svc dataset_group_arn t).1 with
       | Ret _ => 240000 ∈ naps_of new <-> calls_of "delete_campaign" new <> []
       | Raise _ => 240000 ∉ naps_of new
       end.
Proof.
  destruct (delete_campaigns svc dataset_group_arn t) as [r t'] eqn:H. cbn [fst snd].
  unfold delete_campaigns in H.
  unfold cell_bind at 1 in H. unfold call at 1 in H.
  set (listed := Called "list_solutions"
                   [("datasetGroupArn", dataset_group_arn); ("maxResults", PInt 100)]) in *.
  destruct (svc (length t) "list_solutions" _) as [resp|e].
  2:{ injection H as <- <-. eexists. split; [reflexivity|]. cbn. inversion 1. }
  unfold cell_bind at 1 in H. unfold lift at 1 in H.
  destruct (getitem resp "solutions") as [listing|e].
  2:{ injection H as <- <-. eexists. split; [reflexivity|]. cbn. inversion 1. }
  unfold cell_bind at 1 in H. unfold lift at 1 in H.
  destruct (items_of listing) as [solutions|e].
  2:{ injection H as <- <-. eexists. split; [reflexivity|]. cbn. inversion 1. }
  unfold cell_bind at 1 in H.
  destruct (for_each _ false solutions _) as [[b|e] t1] eqn:Eloop;
    apply delete_campaigns_each in Eloop as (new & -> & N & C).
  all: assert (Hno : 240000 ∉ naps_of new)
    by (intros Hin; rewrite Forall_forall in N; specialize (N _ Hin); discriminate).
  2:{ injection H as <- <-. exists (listed (Ret resp) :: new). rewrite <- app_assoc.
      split; [reflexivity|exact Hno]. }
  specialize (C b eq_refl).
  unfold cell_bind, say, nap, cell_ret in H.
  destruct b; cbn [fst snd] in H; injection H as <- <-; rewrite <- !app_assoc.
  - exists (listed (Ret resp) :: new
            ++ [Printed "WAITING 4 minutes for campaign deletions to propagate" [];
                Slept 240000; Printed "Done!" []])%list.
    split; [reflexivity|].
    change (calls_of "delete_campaign" (listed (Ret resp) :: ?l))
      with (calls_of "delete_campaign" l).
    change (naps_of (listed (Ret resp) :: ?l)) with (naps_of l).
    rewrite calls_of_app, naps_of_app. cbn. rewrite app_nil_r. split.
    + intros _. destruct (proj1 C eq_refl) as [?|?]; [discriminate|assumption].
    + intros _. apply elem_of_app. right. left.
  - exists (listed (Ret resp) :: new ++ [Printed "Done!" []])%list.
    split; [reflexivity|].
    change (calls_of "delete_campaign" (listed (Ret resp) :: ?l))
      with (calls_of "delete_campaign" l).
    change (naps_of (listed (Ret resp) :: ?l)) with (naps_of l).
    rewrite calls_of_app, naps_of_app. cbn. rewrite !app_nil_r. split.
    + intros Hin. contradiction.
    + intros Hne. assert (false = true) by (apply C; right; exact Hne). discriminate.
Qed.

Section DatasetCell.

Variable svc : api.

Local Abbreviation delete_dataset_of :=
  (fun (schema_arns : list pyval) (dataset : pyval) =>
     do* dataset_arn := lift (getitem dataset "datasetArn") in
     do* desc := call svc "describe_dataset" [("datasetArn", dataset_arn)] in
     do* ds := lift (getitem desc "dataset") in
     do* schema_arn := lift (getitem ds "schemaArn") in
     say "DELETING DATASET " [dataset_arn] ;;*
     (do* _ := call svc "delete_dataset" [("datasetArn", dataset_arn)] in
      nap 200 ;;* cell_ret (schema_arns ++ [schema_arn])%list)).

Lemma delete_dataset_each (datasets : list pyval) :
  forall (schema_arns : list pyval) (t : list step) r t',
    for_each delete_dataset_of schema_arns datasets t = (r, t') ->
    exists new,
      t' = (t ++ new)%list
      /\ Forall (fun ms => ms = 200) (naps_of new)
      /\ (forall out, r = Ret out ->
            Forall2 (deletion_of "datasetArn") (calls_of "delete_dataset" new) datasets
            /\ calls_of "describe_dataset" new = calls_of "delete_dataset" new
            /\ length out = (length schema_arns + length datasets)%nat).
Proof.
  induction datasets as [|x xs IH]; intros acc t r t' H; cbn [for_each] in H.
  - injection H as <- <-. exists []. rewrite app_nil_r. split; [reflexivity|].
    split; [constructor|]. intros out [= <-]. split; [constructor|].
    split; [reflexivity|cbn; lia].
  - unfold cell_bind at 1 in H.
    destruct (delete_dataset_of acc x t) as [r1 t1] eqn:E1.
    assert (Hone : exists new,
               t1 = (t ++ new)%list
               /\ Forall (fun ms => ms = 200) (naps_of new)
               /\ (forall out, r1 = Ret out ->
                     (exists kw, deletion_of "datasetArn" kw x
                                 /\ calls_of "delete_dataset" new = [kw]
                                 /\ calls_of "describe_dataset" new = [kw])
                     /\ length out = Datatypes.S (length acc))).
    { clear H IH. unfold cell_bind at 1 in E1. unfold lift at 1 in E1.
      destruct (getitem x "datasetArn") as [arn|e] eqn:Earn.
      2:{ injection E1 as <- <-. exists []. rewrite app_nil_r.
          split; [reflexivity|]. split; [constructor|discriminate]. }
      unfold cell_bind at 1 in E1. unfold call at 1 in E1.
      destruct (svc (length t) "describe_dataset" [("datasetArn", arn)]) as [desc|e].
      2:{ injection E1 as <- <-. eexists. split; [reflexivity|].
          split; [constructor|discriminate]. }
      unfold cell_bind at 1 in E1. unfold lift at 1 in E1.
      destruct (getitem desc "dataset") as [ds|e].
      2:{ injection E1 as <- <-. eexists. split; [reflexivity|].
          split; [constructor|discriminate]. }
      unfold cell_bind at 1 in E1. unfold lift at 1 in E1.
      destruct (getitem ds "schemaArn") as [schema_arn|e].
      2:{ injection E1 as <- <-. eexists. split; [reflexivity|].
          split; [constructor|discriminate]. }
      unfold cell_bind, say, call, nap, cell_ret in E1.
      destruct (svc _ "delete_dataset" [("datasetArn", arn)]) as [v|e].
      - cbn [fst snd] in E1. injection E1 as <- <-. rewrite <- !app_assoc.
        eexists. split; [reflexivity|]. split; [repeat constructor|].
        intros out [= <-]. split; [|rewrite length_app; cbn; lia].
        exists [("datasetArn", arn)]. split; [|split; reflexivity].
        exists arn. split; [exact Earn|reflexivity].
      - injection E1 as <- <-. rewrite <- !app_assoc.
        eexists. split; [reflexivity|]. split; [constructor|discriminate]. }
    destruct Hone as (new1 & -> & N1 & C1).
    destruct r1 as [acc1|e].
    + destruct (C1 acc1 eq_refl) as ((kw & Hkw & D1 & D2) & L1).
      destruct (IH _ _ _ _ H) as (new2 & -> & N2 & C2).
      exists (new1 ++ new2)%list. rewrite app_assoc. split; [reflexivity|].
      split; [rewrite naps_of_app; apply Forall_app; split; assumption|].
      intros out Hr. destruct (C2 out Hr) as (F2 & E2 & L2).
      rewrite !calls_of_app, D1, D2, E2. split; [|split; [reflexivity|cbn; lia]].
      constructor; assumption.
    + injection H as <- <-. exists new1. split; [reflexivity|].
      split; [exact N1|discriminate].
Qed.

End DatasetCell.

(** X19: when the dataset cell ends normally, every dataset it asked to
    delete it had described just before, in the same order, and
    [schema_arns] has one entry for each of them (a schema shared by two
    datasets is there twice); it has waited the 60 seconds exactly when
    there was a dataset. *)
Theorem dataset_cell_collects_one_schema_per_dataset (svc : api)
    (dataset_group_arn : pyval) (t : list step) (schema_arns : list pyval)
    (t' : list step) :
  delete_datasets svc dataset_group_arn t = (Ret schema_arns, t') ->
  exists new,
    t' = (t ++ new)%list
    /\ calls_of "describe_dataset" new = calls_of "delete_dataset" new
    /\ length schema_arns = length (calls_of "delete_dataset" new)
    /\ (60000 ∈ naps_of new <-> schema_arns <> []).
Proof.
  intros H. unfold delete_datasets in H.
  unfold cell_bind at 1 in H. unfold call at 1 in H.
  set (listed := Called "list_datasets" [("datasetGroupArn", dataset_group_arn)]) in *.
  destruct (svc (length t) "list_datasets" _) as [resp|e]; [|discriminate].
  unfold cell_bind at 1 in H. unfold lift at 1 in H.
  destruct (getitem resp "datasets") as [listing|e]; [|discriminate].
  unfold cell_bind at 1 in H. unfold lift at 1 in H.
  destruct (items_of listing) as [datasets|e]; [|discriminate].
  unfold cell_bind at 1 in H.
  destruct (for_each _ [] datasets _) as [[out|e] t1] eqn:Eloop; [|discriminate].
  apply delete_dataset_each in Eloop as (new & -> & N & C).
  destruct (C out eq_refl) as (F & E & L). cbn [length] in L.
  apply Forall2_length in F.
  assert (Hno : 60000 ∉ naps_of new)
    by (intros Hin; rewrite Forall_forall in N; specialize (N _ Hin); discriminate).
  unfold cell_bind, say, nap, cell_ret in H.
  destruct datasets as [|d ds]; cbn [length Nat.eqb negb fst snd] in H;
    injection H as <- <-; rewrite <- !app_assoc.
  - exists (listed (Ret resp) :: new ++ [Printed "Done!" []])%list.
    split; [reflexivity|].
    change (calls_of ?op (listed (Ret resp) :: ?l)) with (calls_of op l).
    change (naps_of (listed (Ret resp) :: ?l)) with (naps_of l).
    rewrite !calls_of_app, naps_of_app. cbn. rewrite !app_nil_r.
    split; [exact E|]. split; [rewrite F; exact L|].
    destruct out; [|discriminate]. split; [contradiction|congruence].
  - exists (listed (Ret resp) :: new
            ++ [Printed "WAITING 60s for dataset deletions to propagate" [];
                Slept 60000; Printed "Done!" []])%list.
    split; [reflexivity|].
    change (calls_of ?op (listed (Ret resp) :: ?l)) with (calls_of op l).
    change (naps_of (listed (Ret resp) :: ?l)) with (naps_of l).
    rewrite !calls_of_app, naps_of_app. cbn. rewrite !app_nil_r.
    split; [exact E|]. split; [rewrite F; exact L|].
    destruct out; [discriminate|]. split; [discriminate|].
    intros _. apply elem_of_app. right. left.
Qed.

Lemma dataset_cell_collects_one_schema_per_dataset_witness :
  let svc : api :=
    fun _ op _ =>
      if String.eqb op "list_datasets"
      then Ret (PDict [("datasets",
                        PList [PDict [("datasetArn", PStr "arn:dataset/interactions")];
                               PDict [("datasetArn", PStr "arn:dataset/items")]])])
      else if String.eqb op "describe_dataset"
      then Ret (PDict [("dataset", PDict [("schemaArn", PStr "arn:schema/shared")])])
      else Ret (PDict []) in
  exists new,
    delete_datasets svc (PStr "arn:dataset-group/poc") []
    = (Ret [PStr "arn:schema/shared"; PStr "arn:schema/shared"], new)
    /\ calls_of "describe_dataset" new = calls_of "delete_dataset" new
    /\ 60000 ∈ naps_of new.
Proof.
  cbv zeta.
  destruct (dataset_cell_collects_one_schema_per_dataset
              (fun _ op _ =>
                 if String.eqb op "list_datasets"
                 then Ret (PDict [("datasets",
                                   PList [PDict [("datasetArn",
                                                  PStr "arn:dataset/interactions")];
                                          PDict [("datasetArn",
                                                  PStr "arn:dataset/items")]])])
                 else if String.eqb op "describe_dataset"
                 then Ret (PDict [("dataset",
                                   PDict [("schemaArn", PStr "arn:schema/shared")])])
                 else Ret (PDict []))
              (PStr "arn:dataset-group/poc") [] _ _ eq_refl)
    as (new & Hrun & Hsame & _ & Hwait).
  cbn [app] in Hrun. subst new.
  eexists. split; [reflexivity|]. split; [exact Hsame|].
  apply Hwait. discriminate.
Defined.
